(** * nofx decision engine: response parsing and decision validation

    Shallow embedding of [decision/engine.go] (package [decision]):
    the response splitter [extractCoTTrace], the bracket matcher
    [findMatchingBracket], the quote normaliser [fixMissingQuotes], the
    validators [validateDecision] / [validateDecisions], the parser
    [parseFullDecisionResponse] and the liquidity filter of
    [fetchMarketDataForContext].

    Go strings are byte sequences: they are modelled by [string], whose
    characters are the 256 byte values.  Go [int] values are only compared
    and incremented by one here and are modelled by [Z].  The [float64]
    operations the code uses are collected in the interface [Float64Ops].
    The properties of the code are stated for every instance of the
    interface, in terms of the operations and comparisons the code
    performs; the instance the engine runs on is the kernel's binary64
    numbers, on which the code is also run on concrete inputs.  The
    instance with exact rationals ([Q]) has no rounding: it gives what a
    statement says about the numbers themselves, and the binary64 runs
    show where the code departs from that. *)

From Stdlib Require Import ZArith QArith Qfield Lqa Bool Ascii String List Lia.
From Stdlib Require Import Floats.
From stdpp Require Import gmap strings list fin_maps.

Local Open Scope string_scope.
Local Open Scope Z_scope.

(* ===================================================================== *)
(** * The pieces of Go's [strings] package the engine calls *)
(* ===================================================================== *)

Module GoStrings.

(** The byte value of a character. *)
Definition code (c : ascii) : N := N_of_ascii c.

(** [strings.HasPrefix s sep]. *)
Fixpoint HasPrefix (s sep : string) {struct sep} : bool :=
  match sep, s with
  | EmptyString, _ => true
  | String _ _, EmptyString => false
  | String b sep', String a s' => Ascii.eqb a b && HasPrefix s' sep'
  end.

(** The scan of [strings.Index]: [i] is the index of the head of [s]. *)
Fixpoint IndexFrom (i : Z) (s sep : string) : Z :=
  if HasPrefix s sep then i
  else match s with
       | EmptyString => -1
       | String _ s' => IndexFrom (i + 1) s' sep
       end.

(** [strings.Index s sep]: the byte index of the first occurrence of
    [sep] in [s], or [-1]. *)
Definition Index (s sep : string) : Z := IndexFrom 0 s sep.

(** [len(s)]. *)
Definition len (s : string) : Z := Z.of_nat (String.length s).

(** The slice [s[lo:hi]] for [0 <= lo <= hi <= len s]. *)
Definition slice (s : string) (lo hi : Z) : string :=
  substring (Z.to_nat lo) (Z.to_nat (hi - lo)) s.

(** Go's [asciiSpace] table: tab, line feed, vertical tab, form feed,
    carriage return and space. *)
Definition isAsciiSpace (c : ascii) : bool :=
  let n := code c in
  N.eqb n 9 || N.eqb n 10 || N.eqb n 11 || N.eqb n 12 || N.eqb n 13
  || N.eqb n 32.

(** UTF-8 encodings of the two-byte white space runes U+0085 and
    U+00A0. *)
Definition isSpace2 (c0 c1 : ascii) : bool :=
  N.eqb (code c0) 194 && (N.eqb (code c1) 133 || N.eqb (code c1) 160).

(** UTF-8 encodings of the three-byte white space runes: U+1680,
    U+2000..U+200A, U+2028, U+2029, U+202F, U+205F and U+3000. *)
Definition isSpace3 (c0 c1 c2 : ascii) : bool :=
  let '(n0, n1, n2) := (code c0, code c1, code c2) in
  (N.eqb n0 225 && N.eqb n1 154 && N.eqb n2 128)
  || (N.eqb n0 226 && N.eqb n1 128
      && ((N.leb 128 n2 && N.leb n2 138)
          || N.eqb n2 168 || N.eqb n2 169 || N.eqb n2 175))
  || (N.eqb n0 226 && N.eqb n1 129 && N.eqb n2 159)
  || (N.eqb n0 227 && N.eqb n1 128 && N.eqb n2 128).

(** [strings.TrimLeftFunc s unicode.IsSpace]: drop the white space
    runes the string starts with. *)
Fixpoint trimLeftSpace (s : string) : string :=
  match s with
  | String c0 r0 =>
      if isAsciiSpace c0 then trimLeftSpace r0
      else match r0 with
           | String c1 r1 =>
               if isSpace2 c0 c1 then trimLeftSpace r1
               else match r1 with
                    | String c2 r2 =>
                        if isSpace3 c0 c1 c2 then trimLeftSpace r2 else s
                    | EmptyString => s
                    end
           | EmptyString => s
           end
  | EmptyString => s
  end.

(** The same scan on the reversed string: the bytes of a rune arrive
    last byte first. *)
Fixpoint trimLeftSpaceRev (s : string) : string :=
  match s with
  | String c0 r0 =>
      if isAsciiSpace c0 then trimLeftSpaceRev r0
      else match r0 with
           | String c1 r1 =>
               if isSpace2 c1 c0 then trimLeftSpaceRev r1
               else match r1 with
                    | String c2 r2 =>
                        if isSpace3 c2 c1 c0 then trimLeftSpaceRev r2 else s
                    | EmptyString => s
                    end
           | EmptyString => s
           end
  | EmptyString => s
  end.

Fixpoint revOnto (s acc : string) : string :=
  match s with
  | EmptyString => acc
  | String c s' => revOnto s' (String c acc)
  end.

Definition rev (s : string) : string := revOnto s EmptyString.

(** [strings.TrimRightFunc s unicode.IsSpace]. *)
Definition trimRightSpace (s : string) : string :=
  rev (trimLeftSpaceRev (rev s)).

(** [strings.TrimSpace]: leading and trailing Unicode white space
    removed. *)
Definition TrimSpace (s : string) : string :=
  trimRightSpace (trimLeftSpace s).

(** The scan of [strings.ReplaceAll s old new] for a non-empty [old]:
    occurrences are taken left to right and do not overlap.  [skip]
    counts the bytes of the occurrence just replaced that are still to
    be passed over. *)
Fixpoint replaceFrom (skip : nat) (old new s : string) : string :=
  match s with
  | EmptyString => EmptyString
  | String c s' =>
      match skip with
      | S k => replaceFrom k old new s'
      | O =>
          if HasPrefix s old
          then new ++ replaceFrom (String.length old - 1) old new s'
          else String c (replaceFrom O old new s')
      end
  end.

(** [strings.ReplaceAll s old new], for the non-empty [old] the engine
    passes. *)
Definition ReplaceAll (s old new : string) : string :=
  replaceFrom O old new s.

End GoStrings.

Import GoStrings.

(* ===================================================================== *)
(** * Splitting the response and extracting the payload *)
(* ===================================================================== *)

(** The one-byte strings the engine searches for and substitutes. *)
Definition lbracket : ascii := "["%char.
Definition rbracket : ascii := "]"%char.
Definition dquote : string := String "034" EmptyString.
Definition squote : string := String "039" EmptyString.

(** UTF-8 encodings of U+201C, U+201D, U+2018 and U+2019. *)
Definition u201c : string := String "226" (String "128" (String "156" EmptyString)).
Definition u201d : string := String "226" (String "128" (String "157" EmptyString)).
Definition u2018 : string := String "226" (String "128" (String "152" EmptyString)).
Definition u2019 : string := String "226" (String "128" (String "153" EmptyString)).

(** [extractCoTTrace]: the text in front of the first ['['], trimmed; the
    whole response, trimmed, when [jsonStart > 0] fails. *)
Definition extractCoTTrace (response : string) : string :=
  let jsonStart := Index response "[" in
  if 0 <? jsonStart
  then TrimSpace (slice response 0 jsonStart)
  else TrimSpace response.

(** The loop of [findMatchingBracket]: [s] is what is left of the string
    from index [i] on, [depth] the counter on entry of the iteration. *)
Fixpoint scanBracket (s : string) (i depth : Z) : Z :=
  match s with
  | EmptyString => -1
  | String c s' =>
      if Ascii.eqb c lbracket then scanBracket s' (i + 1) (depth + 1)
      else if Ascii.eqb c rbracket then
        if depth - 1 =? 0 then i else scanBracket s' (i + 1) (depth - 1)
      else scanBracket s' (i + 1) depth
  end.

(** The suffix [s[n:]]. *)
Fixpoint dropBytes (n : nat) (s : string) : string :=
  match n, s with
  | O, _ => s
  | S n', String _ s' => dropBytes n' s'
  | S _, EmptyString => EmptyString
  end.

(** [s[i] == c], false when [i] is past the end. *)
Definition byteIs (s : string) (i : nat) (c : ascii) : bool :=
  match String.get i s with
  | Some a => Ascii.eqb a c
  | None => false
  end.

(** [findMatchingBracket s start], for a non-negative [start] (the only
    caller passes the result of [strings.Index] after excluding [-1]; a
    negative index would make the source panic at [s[start]]). *)
Definition findMatchingBracket (s : string) (start : nat) : Z :=
  if (len s <=? Z.of_nat start) || negb (byteIs s start lbracket)
  then -1
  else scanBracket (dropBytes start s) (Z.of_nat start) 0.

(** [fixMissingQuotes]: four successive [strings.ReplaceAll]. *)
Definition fixMissingQuotes (jsonStr : string) : string :=
  let jsonStr := ReplaceAll jsonStr u201c dquote in
  let jsonStr := ReplaceAll jsonStr u201d dquote in
  let jsonStr := ReplaceAll jsonStr u2018 squote in
  let jsonStr := ReplaceAll jsonStr u2019 squote in
  jsonStr.

(** A table of substitutions for the runes U+20xx whose UTF-8 encoding is
    226, 128, [c]: the byte that replaces the three. *)
Definition single (c q : ascii) : ascii -> option ascii :=
  fun x => if Ascii.eqb x c then Some q else None.

(** The second table is consulted where the first has no entry. *)
Definition orElse (t1 t2 : ascii -> option ascii) : ascii -> option ascii :=
  fun x => match t1 x with Some q => Some q | None => t2 x end.

(** The substitution found at the head of [s], with what follows it. *)
Definition matchAt (table : ascii -> option ascii) (s : string)
    : option (ascii * string) :=
  match s with
  | String c0 (String c1 (String c2 r)) =>
      if Ascii.eqb c0 "226" && Ascii.eqb c1 "128" then
        match table c2 with
        | Some q => Some (q, r)
        | None => None
        end
      else None
  | _ => None
  end.

(** One left-to-right pass: at each position, an encoded rune of the
    table is replaced by its byte and any other byte is copied. *)
Fixpoint substitutePass (table : ascii -> option ascii) (s : string) : string :=
  match s with
  | EmptyString => EmptyString
  | String c0 r0 =>
      match r0 with
      | String c1 (String c2 r2) =>
          if Ascii.eqb c0 "226" && Ascii.eqb c1 "128" then
            match table c2 with
            | Some q => String q (substitutePass table r2)
            | None => String c0 (substitutePass table r0)
            end
          else String c0 (substitutePass table r0)
      | _ => String c0 (substitutePass table r0)
      end
  end.

(** What the contract of the normaliser says: U+201C and U+201D (third
    bytes 156 and 157) become the ASCII double quote, U+2018 and U+2019
    (152 and 153) the ASCII single quote, in one pass that copies every
    other byte. *)
Definition quoteFor (c : ascii) : option ascii :=
  if Ascii.eqb c "156" || Ascii.eqb c "157" then Some "034"%char
  else if Ascii.eqb c "152" || Ascii.eqb c "153" then Some "039"%char
  else None.

Definition normalizeQuotes_spec (s : string) : string :=
  substitutePass quoteFor s.

(** The third bytes of the four typographic quotes, and the two ASCII
    quotes. *)
Definition isQuoteByte (c : ascii) : bool :=
  Ascii.eqb c "156" || Ascii.eqb c "157" || Ascii.eqb c "152" || Ascii.eqb c "153".

Definition isAsciiQuote (q : ascii) : bool :=
  Ascii.eqb q "034" || Ascii.eqb q "039".

(** A table that maps some of the four typographic quotes to ASCII
    quotes and nothing else. *)
Definition QuoteTable (table : ascii -> option ascii) : Prop :=
  forall c q, table c = Some q -> isQuoteByte c = true /\ isAsciiQuote q = true.

(** The depth counter, as the contract states it: +1 on an array-start
    marker, -1 on an array-end marker. *)
Definition bracketDelta (c : ascii) : Z :=
  if Ascii.eqb c lbracket then 1
  else if Ascii.eqb c rbracket then -1
  else 0.

(** The sum of the deltas of the first [n] bytes of [t]. *)
Fixpoint balanceUpTo (n : nat) (t : string) : Z :=
  match n, t with
  | S n', String c t' => bracketDelta c + balanceUpTo n' t'
  | _, _ => 0
  end.

(** The depth after the byte at index [start + k], counted from the byte
    at index [start]. *)
Definition depthAfter (s : string) (start k : nat) : Z :=
  balanceUpTo (S k) (dropBytes start s).

(* ===================================================================== *)
(** * The arithmetic of [float64], as an interface *)
(* ===================================================================== *)

(** The operations, comparisons and constants of type [float64] that the
    engine uses.  Go's [a > b] is [flt b a] and [a >= b] is [fle b a]. *)
Class Float64Ops (F : Type) := {
  fadd : F -> F -> F;
  fsub : F -> F -> F;
  fmul : F -> F -> F;
  fdiv : F -> F -> F;
  flt : F -> F -> bool;
  fle : F -> F -> bool;
  c_0 : F;        (* 0 *)
  c_0_01 : F;     (* 0.01 *)
  c_0_2 : F;      (* 0.2 *)
  c_1_5 : F;      (* 1.5 *)
  c_2 : F;        (* 2.0 *)
  c_10 : F;       (* 10 *)
  c_15 : F;       (* 15 *)
  c_100 : F;      (* 100 *)
  c_1e6 : F       (* 1_000_000 *)
}.

(** Exact arithmetic: the rationals, with no rounding and 0.01 and 0.2 the
    numbers themselves.  This is not the arithmetic the engine runs on:
    it serves to state what a claim says about the numbers themselves and
    to run the code on inputs where no operation rounds. *)
Definition Qltb (x y : Q) : bool :=
  match Qcompare x y with Lt => true | _ => false end.

#[export] Instance Q_ops : Float64Ops Q := {|
  fadd := Qplus; fsub := Qminus; fmul := Qmult; fdiv := Qdiv;
  flt := Qltb; fle := Qle_bool;
  c_0 := 0%Q; c_0_01 := (1 # 100)%Q; c_0_2 := (2 # 10)%Q;
  c_1_5 := (15 # 10)%Q; c_2 := 2%Q; c_10 := 10%Q; c_15 := 15%Q;
  c_100 := 100%Q; c_1e6 := 1000000%Q
|}.

(** IEEE 754 binary64, every operation rounded to nearest.  The decimal
    constants 0.01 and 0.2 are the nearest binary64 values, as a Go
    compiler converts them.  Each operation is rounded on its own, as on
    amd64; the fusing of a product and a sum into one rounding, which Go
    allows an implementation, is not modelled. *)
#[export] Instance F64_ops : Float64Ops float := {|
  fadd := PrimFloat.add; fsub := PrimFloat.sub; fmul := PrimFloat.mul;
  fdiv := PrimFloat.div;
  flt := PrimFloat.ltb; fle := PrimFloat.leb;
  c_0 := 0%float; c_0_01 := 0x1.47ae147ae147bp-7%float;
  c_0_2 := 0x1.999999999999ap-3%float;
  c_1_5 := 1.5%float; c_2 := 2%float; c_10 := 10%float; c_15 := 15%float;
  c_100 := 100%float; c_1e6 := 1000000%float
|}.

Declare Scope f64_scope.
Delimit Scope f64_scope with f64.
Infix "+" := fadd : f64_scope.
Infix "-" := fsub : f64_scope.
Infix "*" := fmul : f64_scope.
Infix "/" := fdiv : f64_scope.
Infix "<?" := flt : f64_scope.
Infix "<=?" := fle : f64_scope.
Notation "x >? y" := (flt y x) : f64_scope.
Notation "x >=? y" := (fle y x) : f64_scope.

(* ===================================================================== *)
(** * Data model *)
(* ===================================================================== *)

(** [Decision]: one decoded decision.  Pointer fields are [option]s. *)
Record Decision (F : Type) := mkDecision {
  Symbol : string;
  Action : string;
  Reasoning : string;
  Leverage : Z;
  PositionSizeUSD : F;
  StopLoss : F;
  TakeProfitLevels : list F;
  TrailingStopPct : option F;
  ChecklistPassed : option Z;
  RiskRewardRatio : option F;
  SignalType : string;
  OISignal : string;
  OIAdjustment : string;
  NewStopLoss : option F;
  ClosePercentage : option Z
}.

Arguments mkDecision {F}.
Arguments Symbol {F}.
Arguments Action {F}.
Arguments Reasoning {F}.
Arguments Leverage {F}.
Arguments PositionSizeUSD {F}.
Arguments StopLoss {F}.
Arguments TakeProfitLevels {F}.
Arguments TrailingStopPct {F}.
Arguments ChecklistPassed {F}.
Arguments RiskRewardRatio {F}.
Arguments SignalType {F}.
Arguments OISignal {F}.
Arguments OIAdjustment {F}.
Arguments NewStopLoss {F}.
Arguments ClosePercentage {F}.

(** [FullDecision]; [Timestamp] is [None] for the zero [time.Time]. *)
Record FullDecision (F : Type) := mkFullDecision {
  UserPrompt : string;
  CoTTrace : string;
  Decisions : list (Decision F);
  Timestamp : option Z
}.

Arguments mkFullDecision {F}.
Arguments UserPrompt {F}.
Arguments CoTTrace {F}.
Arguments Decisions {F}.
Arguments Timestamp {F}.

(** The errors of [validateDecision], one constructor per [fmt.Errorf]
    call, carrying the values the message formats. *)
Inductive ValidationError (F : Type) : Type :=
| ErrInvalidAction (action : string)
| ErrLeverage (maxLeverage : Z) (symbol : string) (leverage : Z)
| ErrPositionSize (size : F)
| ErrMajorPositionValue (maxPositionValue size : F)
| ErrAltcoinPositionValue (maxPositionValue size : F)
| ErrStopLoss
| ErrTakeProfitCount (count : Z)
| ErrTakeProfit (ordinal : Z) (tp : F)
| ErrLongStopLoss (stop tp1 : F)
| ErrLongTakeProfitOrder (tp1 tp2 tp3 : F)
| ErrShortStopLoss (stop tp1 : F)
| ErrShortTakeProfitOrder (tp1 tp2 tp3 : F)
| ErrRiskReward (ratio riskPercent rewardPercent stop tp1 : F).

Arguments ErrInvalidAction {F}.
Arguments ErrLeverage {F}.
Arguments ErrPositionSize {F}.
Arguments ErrMajorPositionValue {F}.
Arguments ErrAltcoinPositionValue {F}.
Arguments ErrStopLoss {F}.
Arguments ErrTakeProfitCount {F}.
Arguments ErrTakeProfit {F}.
Arguments ErrLongStopLoss {F}.
Arguments ErrLongTakeProfitOrder {F}.
Arguments ErrShortStopLoss {F}.
Arguments ErrShortTakeProfitOrder {F}.
Arguments ErrRiskReward {F}.

(** The error of [validateDecisions]: the 1-based position of the record
    and the wrapped error of [validateDecision]. *)
Record BatchError (F : Type) := mkBatchError {
  ordinal : Z;
  cause : ValidationError F
}.

Arguments mkBatchError {F}.
Arguments ordinal {F}.
Arguments cause {F}.

(** The errors of [extractDecisions]. *)
Inductive ExtractError : Type :=
| ErrNoArrayStart
| ErrNoArrayEnd
| ErrJSON (detail jsonContent : string).

(** The errors of [parseFullDecisionResponse]; both messages end with the
    chain-of-thought text. *)
Inductive ParseError (F : Type) : Type :=
| ErrExtract (err : ExtractError) (cotTrace : string)
| ErrValidate (err : BatchError F) (cotTrace : string).

Arguments ErrExtract {F}.
Arguments ErrValidate {F}.

(** The chain-of-thought text an error of the parser carries. *)
Definition errorCoT {F : Type} (e : ParseError F) : string :=
  match e with
  | ErrExtract _ cot => cot
  | ErrValidate _ cot => cot
  end.

(* ===================================================================== *)
(** * The validator *)
(* ===================================================================== *)

(** The map literal of [validateDecision]. *)
Definition validActions : gmap string bool :=
  <["open_long" := true]> (<["open_short" := true]>
  (<["close_long" := true]> (<["close_short" := true]>
  (<["hold" := true]> (<["wait" := true]> ∅))))).

(** Indexing a Go [map[string]bool]: the zero value when the key is
    absent. *)
Definition mapIndex (m : gmap string bool) (k : string) : bool :=
  default false (m !! k).

Section Validator.

Context {F : Type} `{Float64Ops F}.
Local Open Scope f64_scope.

(** [d.Symbol == "BTCUSDT" || d.Symbol == "ETHUSDT"]. *)
Definition isMajor (d : Decision F) : bool :=
  String.eqb (Symbol d) "BTCUSDT" || String.eqb (Symbol d) "ETHUSDT".

Definition isOpen (d : Decision F) : bool :=
  String.eqb (Action d) "open_long" || String.eqb (Action d) "open_short".

(** [maxLeverage] and [maxPositionValue] after the symbol test. *)
Definition maxLeverageOf (d : Decision F) (btcEthLeverage altcoinLeverage : Z) : Z :=
  if isMajor d then btcEthLeverage else altcoinLeverage.

Definition maxPositionValueOf (d : Decision F) (accountEquity : F) : F :=
  if isMajor d then accountEquity * c_10 else accountEquity * c_1_5.

(** The loop over the take-profit levels: the first level that is
    [<= 0], with its index. *)
Fixpoint firstBadTakeProfit (i : Z) (tps : list F) : option (Z * F) :=
  match tps with
  | [] => None
  | tp :: rest =>
      if tp <=? c_0 then Some (i, tp) else firstBadTakeProfit (i + 1)%Z rest
  end.

(** The assumed entry price. *)
Definition entryPriceOf (long : bool) (stop tp1 : F) : F :=
  if long then stop + (tp1 - stop) * c_0_2
  else stop - (stop - tp1) * c_0_2.

Definition riskPercentOf (long : bool) (stop tp1 : F) : F :=
  let entryPrice := entryPriceOf long stop tp1 in
  if long then (entryPrice - stop) / entryPrice * c_100
  else (stop - entryPrice) / entryPrice * c_100.

Definition rewardPercentOf (long : bool) (stop tp1 : F) : F :=
  let entryPrice := entryPriceOf long stop tp1 in
  if long then (tp1 - entryPrice) / entryPrice * c_100
  else (entryPrice - tp1) / entryPrice * c_100.

(** [riskRewardRatio]: it keeps its zero value unless [riskPercent > 0]. *)
Definition riskRewardRatioOf (long : bool) (stop tp1 : F) : F :=
  let riskPercent := riskPercentOf long stop tp1 in
  let rewardPercent := rewardPercentOf long stop tp1 in
  if riskPercent >? c_0 then rewardPercent / riskPercent else c_0.

(** The last test of [validateDecision]. *)
Definition riskRewardTooLow (riskRewardRatio : F) : bool :=
  riskRewardRatio <? c_2.

(** [validateDecision]: [None] is the [nil] error. *)
Definition validateDecision (d : Decision F) (accountEquity : F)
    (btcEthLeverage altcoinLeverage : Z) : option (ValidationError F) :=
  if negb (mapIndex validActions (Action d)) then
    Some (ErrInvalidAction (Action d))
  else if isOpen d then
    let maxLeverage := maxLeverageOf d btcEthLeverage altcoinLeverage in
    let maxPositionValue := maxPositionValueOf d accountEquity in
    if (Leverage d <=? 0)%Z || (Leverage d >? maxLeverage)%Z then
      Some (ErrLeverage maxLeverage (Symbol d) (Leverage d))
    else if PositionSizeUSD d <=? c_0 then
      Some (ErrPositionSize (PositionSizeUSD d))
    else
      let tolerance := maxPositionValue * c_0_01 in
      if PositionSizeUSD d >? maxPositionValue + tolerance then
        if isMajor d
        then Some (ErrMajorPositionValue maxPositionValue (PositionSizeUSD d))
        else Some (ErrAltcoinPositionValue maxPositionValue (PositionSizeUSD d))
      else if StopLoss d <=? c_0 then
        Some ErrStopLoss
      else
        match TakeProfitLevels d with
        | [tp1; tp2; tp3] =>
            match firstBadTakeProfit 0 [tp1; tp2; tp3] with
            | Some (i, tp) => Some (ErrTakeProfit (i + 1)%Z tp)
            | None =>
                let long := String.eqb (Action d) "open_long" in
                let orderError :=
                  if long then
                    if StopLoss d >=? tp1 then
                      Some (ErrLongStopLoss (StopLoss d) tp1)
                    else if (tp1 >=? tp2) || (tp2 >=? tp3) then
                      Some (ErrLongTakeProfitOrder tp1 tp2 tp3)
                    else None
                  else
                    if StopLoss d <=? tp1 then
                      Some (ErrShortStopLoss (StopLoss d) tp1)
                    else if (tp1 <=? tp2) || (tp2 <=? tp3) then
                      Some (ErrShortTakeProfitOrder tp1 tp2 tp3)
                    else None in
                match orderError with
                | Some e => Some e
                | None =>
                    let riskPercent := riskPercentOf long (StopLoss d) tp1 in
                    let rewardPercent := rewardPercentOf long (StopLoss d) tp1 in
                    let riskRewardRatio := riskRewardRatioOf long (StopLoss d) tp1 in
                    if riskRewardTooLow riskRewardRatio then
                      Some (ErrRiskReward riskRewardRatio riskPercent
                              rewardPercent (StopLoss d) tp1)
                    else None
                end
            end
        | tps => Some (ErrTakeProfitCount (Z.of_nat (List.length tps)))
        end
  else None.

(** The loop of [validateDecisions]; [i] is the index of the head. *)
Fixpoint validateDecisionsFrom (i : Z) (decisions : list (Decision F))
    (accountEquity : F) (btcEthLeverage altcoinLeverage : Z)
    : option (BatchError F) :=
  match decisions with
  | [] => None
  | decision :: rest =>
      match validateDecision decision accountEquity btcEthLeverage altcoinLeverage with
      | Some err => Some (mkBatchError (i + 1)%Z err)
      | None =>
          validateDecisionsFrom (i + 1)%Z rest accountEquity
            btcEthLeverage altcoinLeverage
      end
  end.

Definition validateDecisions (decisions : list (Decision F))
    (accountEquity : F) (btcEthLeverage altcoinLeverage : Z)
    : option (BatchError F) :=
  validateDecisionsFrom 0 decisions accountEquity btcEthLeverage altcoinLeverage.

(** ** The parser *)

(** [json.Unmarshal] into [[]Decision]: the decoder of the Go standard
    library, a collaborator of the engine.  [inl] is its error text. *)
Variable json_Unmarshal : string -> string + list (Decision F).

Definition extractDecisions (response : string)
    : ExtractError + list (Decision F) :=
  let arrayStart := Index response "[" in
  if (arrayStart =? -1)%Z then inl ErrNoArrayStart
  else
    let arrayEnd := findMatchingBracket response (Z.to_nat arrayStart) in
    if (arrayEnd =? -1)%Z then inl ErrNoArrayEnd
    else
      let jsonContent := TrimSpace (slice response arrayStart (arrayEnd + 1)) in
      let jsonContent := fixMissingQuotes jsonContent in
      match json_Unmarshal jsonContent with
      | inl detail => inl (ErrJSON detail jsonContent)
      | inr decisions => inr decisions
      end.

(** [parseFullDecisionResponse]: the result and the error ([None] for
    [nil]). *)
Definition parseFullDecisionResponse (aiResponse : string)
    (accountEquity : F) (btcEthLeverage altcoinLeverage : Z)
    : FullDecision F * option (ParseError F) :=
  let cotTrace := extractCoTTrace aiResponse in
  match extractDecisions aiResponse with
  | inl err =>
      (mkFullDecision EmptyString cotTrace [] None,
       Some (ErrExtract err cotTrace))
  | inr decisions =>
      match validateDecisions decisions accountEquity btcEthLeverage altcoinLeverage with
      | Some err =>
          (mkFullDecision EmptyString cotTrace decisions None,
           Some (ErrValidate err cotTrace))
      | None => (mkFullDecision EmptyString cotTrace decisions None, None)
      end
  end.

End Validator.

(* ===================================================================== *)
(** * The context assembler *)
(* ===================================================================== *)

Module PositionInfo.
Record t (F : Type) := mk {
  Symbol : string;
  Side : string;
  EntryPrice : F;
  MarkPrice : F;
  Quantity : F;
  Leverage : Z;
  UnrealizedPnL : F;
  UnrealizedPnLPct : F;
  LiquidationPrice : F;
  MarginUsed : F;
  UpdateTime : Z
}.
Arguments mk {F}.
Arguments Symbol {F}.
End PositionInfo.

Module CandidateCoin.
Record t := mk {
  Symbol : string;
  Sources : list string
}.
End CandidateCoin.

(** Modelled from the spec: the instrument snapshot of package [market]
    ([market.Data]), of which the assembler reads the current price and
    the latest open-interest quantity; [OpenInterest] is a pointer that
    may be nil. *)
Module Market.
Record OIData (F : Type) := mkOI { Latest : F }.
Record Data (F : Type) := mk {
  CurrentPrice : F;
  OpenInterest : option (OIData F)
}.
Arguments mkOI {F}.
Arguments Latest {F}.
Arguments mk {F}.
Arguments CurrentPrice {F}.
Arguments OpenInterest {F}.
End Market.

(** [OITopData], and the ranking entry of package [pool] it is copied
    from. *)
Record OITopData (F : Type) := mkOITopData {
  Rank : Z;
  OIDeltaPercent : F;
  OIDeltaValue : F;
  PriceDeltaPercent : F;
  NetLong : F;
  NetShort : F
}.

Arguments mkOITopData {F}.

(** Modelled from the spec: an entry of the open-interest ranking that
    [pool.GetOITopPositions] returns. *)
Module Pool.
Record OIPosition (F : Type) := mk {
  Symbol : string;
  Rank : Z;
  OIDeltaPercent : F;
  OIDeltaValue : F;
  PriceDeltaPercent : F;
  NetLong : F;
  NetShort : F
}.
Arguments mk {F}.
Arguments Symbol {F}.
Arguments Rank {F}.
Arguments OIDeltaPercent {F}.
Arguments OIDeltaValue {F}.
Arguments PriceDeltaPercent {F}.
Arguments NetLong {F}.
Arguments NetShort {F}.
End Pool.

(** The fields of [Context] that [fetchMarketDataForContext] reads and
    writes. *)
Record Context (F : Type) := mkContext {
  Positions : list (PositionInfo.t F);
  CandidateCoins : list CandidateCoin.t;
  MarketDataMap : gmap string (Market.Data F);
  OITopDataMap : gmap string (OITopData F)
}.

Arguments mkContext {F}.
Arguments Positions {F}.
Arguments CandidateCoins {F}.
Arguments MarketDataMap {F}.
Arguments OITopDataMap {F}.

Section Assembler.

Context {F : Type} `{Float64Ops F}.
Local Open Scope f64_scope.

(** [market.Get]: [None] when it returns an error. *)
Variable market_Get : string -> option (Market.Data F).

(** [pool.GetOITopPositions]: [None] when it returns an error. *)
Variable pool_GetOITopPositions : option (list (Pool.OIPosition F)).

Definition calculateMaxCandidates (ctx : Context F) : nat :=
  List.length (CandidateCoins ctx).

(** The two loops that fill [symbolSet]. *)
Definition symbolSetOf (ctx : Context F) : gset string :=
  let fromPositions :=
    foldl (fun (set : gset string) pos => {[PositionInfo.Symbol pos]} ∪ set)
          ∅ (Positions ctx) in
  foldl (fun (set : gset string) coin => {[CandidateCoin.Symbol coin]} ∪ set)
        fromPositions
        (take (calculateMaxCandidates ctx) (CandidateCoins ctx)).

Definition positionSymbolsOf (ctx : Context F) : gset string :=
  foldl (fun (set : gset string) pos => {[PositionInfo.Symbol pos]} ∪ set)
        ∅ (Positions ctx).

(** The liquidity test in the body of the main loop: [true] when the
    symbol is skipped. *)
Definition belowLiquidityFloor (isExistingPosition : bool)
    (data : Market.Data F) : bool :=
  match Market.OpenInterest data with
  | Some oi =>
      if negb isExistingPosition && (Market.CurrentPrice data >? c_0) then
        let oiValue := Market.Latest oi * Market.CurrentPrice data in
        let oiValueInMillions := oiValue / c_1e6 in
        oiValueInMillions <? c_15
      else false
  | None => false
  end.

(** One iteration of [for symbol := range symbolSet]. *)
Definition fetchStep (positionSymbols : gset string) (symbol : string)
    (m : gmap string (Market.Data F)) : gmap string (Market.Data F) :=
  match market_Get symbol with
  | None => m
  | Some data =>
      let isExistingPosition := bool_decide (symbol ∈ positionSymbols) in
      if belowLiquidityFloor isExistingPosition data then m
      else <[symbol := data]> m
  end.

(** What an iteration of the main loop leaves under its own key: the
    data fetched for the symbol, unless the fetch failed or the liquidity
    test skipped it. *)
Definition snapshotFor (positionSymbols : gset string) (symbol : string)
    : option (Market.Data F) :=
  match market_Get symbol with
  | None => None
  | Some data =>
      if belowLiquidityFloor (bool_decide (symbol ∈ positionSymbols)) data
      then None else Some data
  end.

(** The loop that copies the ranking. *)
Definition loadOITop (m : gmap string (OITopData F))
    (oiPositions : list (Pool.OIPosition F)) : gmap string (OITopData F) :=
  foldl (fun m pos =>
           <[Pool.Symbol pos :=
               mkOITopData (Pool.Rank pos) (Pool.OIDeltaPercent pos)
                 (Pool.OIDeltaValue pos) (Pool.PriceDeltaPercent pos)
                 (Pool.NetLong pos) (Pool.NetShort pos)]> m)
        m oiPositions.

(** [fetchMarketDataForContext]; the error it returns is always [nil].
    Each iteration of the main loop writes only its own key, so the
    order in which Go visits the keys of [symbolSet] does not show in
    the result. *)
Definition fetchMarketDataForContext (ctx : Context F) : Context F :=
  let symbolSet := symbolSetOf ctx in
  let positionSymbols := positionSymbolsOf ctx in
  let marketDataMap := set_fold (fetchStep positionSymbols) ∅ symbolSet in
  let oiTopDataMap :=
    match pool_GetOITopPositions with
    | Some oiPositions => loadOITop ∅ oiPositions
    | None => ∅
    end in
  mkContext (Positions ctx) (CandidateCoins ctx) marketDataMap oiTopDataMap.

End Assembler.

(* ===================================================================== *)
(** * The checks of the validator, one by one *)
(* ===================================================================== *)

Section Checks.

Context {F : Type} `{Float64Ops F}.
Local Open Scope f64_scope.

(** Each test of [validateDecision] on an opening record, [true] when the
    record passes it. *)
Definition leverageOK (d : Decision F) (btcEthLeverage altcoinLeverage : Z) : bool :=
  negb ((Leverage d <=? 0)%Z
        || (Leverage d >? maxLeverageOf d btcEthLeverage altcoinLeverage)%Z).

Definition positionSizeOK (d : Decision F) (accountEquity : F) : bool :=
  negb (PositionSizeUSD d <=? c_0)
  && negb (PositionSizeUSD d >?
             maxPositionValueOf d accountEquity
             + maxPositionValueOf d accountEquity * c_0_01).

Definition stopLossOK (d : Decision F) : bool :=
  negb (StopLoss d <=? c_0).

Definition takeProfitsOK (tp1 tp2 tp3 : F) : bool :=
  negb (tp1 <=? c_0) && negb (tp2 <=? c_0) && negb (tp3 <=? c_0).

Definition stopOrderOK (long : bool) (stop tp1 : F) : bool :=
  if long then negb (stop >=? tp1) else negb (stop <=? tp1).

Definition takeProfitOrderOK (long : bool) (tp1 tp2 tp3 : F) : bool :=
  if long then negb ((tp1 >=? tp2) || (tp2 >=? tp3))
  else negb ((tp1 <=? tp2) || (tp2 <=? tp3)).

(** The checks that come before the take-profit ordering check. *)
Definition reachesOrderCheck (d : Decision F) (accountEquity : F)
    (btcEthLeverage altcoinLeverage : Z) (tp1 tp2 tp3 : F) : bool :=
  isOpen d
  && leverageOK d btcEthLeverage altcoinLeverage
  && positionSizeOK d accountEquity
  && stopLossOK d
  && takeProfitsOK tp1 tp2 tp3
  && stopOrderOK (String.eqb (Action d) "open_long") (StopLoss d) tp1.

(** The checks that come before the risk:reward check. *)
Definition reachesRiskReward (d : Decision F) (accountEquity : F)
    (btcEthLeverage altcoinLeverage : Z) (tp1 tp2 tp3 : F) : bool :=
  reachesOrderCheck d accountEquity btcEthLeverage altcoinLeverage tp1 tp2 tp3
  && takeProfitOrderOK (String.eqb (Action d) "open_long") tp1 tp2 tp3.

(** The errors of the checks that come before the take-profit ordering
    check. *)
Definition earlyError (e : ValidationError F) : bool :=
  match e with
  | ErrLeverage _ _ _ | ErrPositionSize _ | ErrMajorPositionValue _ _
  | ErrAltcoinPositionValue _ _ | ErrStopLoss | ErrTakeProfitCount _
  | ErrTakeProfit _ _ | ErrLongStopLoss _ _ | ErrShortStopLoss _ _ => true
  | _ => false
  end.

(** The risk:reward check on its own. *)
Definition riskRewardCheck (long : bool) (stop tp1 : F)
    : option (ValidationError F) :=
  if riskRewardTooLow (riskRewardRatioOf long stop tp1) then
    Some (ErrRiskReward (riskRewardRatioOf long stop tp1)
            (riskPercentOf long stop tp1) (rewardPercentOf long stop tp1)
            stop tp1)
  else None.

End Checks.

(** Closes a goal of the form "the validator answers with one of its
    early errors, or ..." once the validator has been run up to that
    error. *)
Ltac early_error := left; eexists; split; reflexivity.

(* ===================================================================== *)
(** * The invariants of an opening record, read on the numbers themselves *)
(* ===================================================================== *)

Section Invariants.

Local Open Scope Q_scope.

(** [tp d k] is the take-profit price [take_profit_levels[k]]. *)
Definition tp (d : Decision Q) (k : nat) : Q := nth k (TakeProfitLevels d) 0.

(** The leverage ceiling and the notional cap of the asset class. *)
Definition ceiling (d : Decision Q) (btcEthLeverage altcoinLeverage : Z) : Z :=
  if isMajor d then btcEthLeverage else altcoinLeverage.

Definition notionalCap (d : Decision Q) (accountEquity : Q) : Q :=
  if isMajor d then accountEquity * 10 else accountEquity * (15 # 10).

(** 0 < leverage <= ceiling. *)
Definition LeverageInvariant (d : Decision Q) (btcEthLeverage altcoinLeverage : Z) : Prop :=
  (0 < Leverage d <= ceiling d btcEthLeverage altcoinLeverage)%Z.

(** Position size positive and within the cap, with the 1% tolerance. *)
Definition PositionSizeInvariant (d : Decision Q) (accountEquity : Q) : Prop :=
  0 < PositionSizeUSD d
  /\ PositionSizeUSD d
     <= notionalCap d accountEquity + notionalCap d accountEquity * (1 # 100).

(** Stop price positive. *)
Definition StopInvariant (d : Decision Q) : Prop := 0 < StopLoss d.

(** Exactly three take-profit prices, each positive. *)
Definition TakeProfitInvariant (d : Decision Q) : Prop :=
  List.length (TakeProfitLevels d) = 3%nat
  /\ 0 < tp d 0 /\ 0 < tp d 1 /\ 0 < tp d 2.

(** The computed risk:reward ratio is at least 2.0. *)
Definition RiskRewardInvariant (d : Decision Q) : Prop :=
  2 <= riskRewardRatioOf (String.eqb (Action d) "open_long") (StopLoss d) (tp d 0).

(** The invariants other than the ordering of stop and targets. *)
Definition Section3Invariants (d : Decision Q) (accountEquity : Q)
    (btcEthLeverage altcoinLeverage : Z) : Prop :=
  LeverageInvariant d btcEthLeverage altcoinLeverage
  /\ PositionSizeInvariant d accountEquity
  /\ StopInvariant d
  /\ TakeProfitInvariant d
  /\ RiskRewardInvariant d.

(** stop < tp[0] < tp[1] < tp[2]. *)
Definition Ascending (d : Decision Q) : Prop :=
  StopLoss d < tp d 0 /\ tp d 0 < tp d 1 /\ tp d 1 < tp d 2.

End Invariants.

(* ===================================================================== *)
(** * What the validator enforces, in the arithmetic it is run with *)
(* ===================================================================== *)

Section Enforced.

Context {F : Type} `{Float64Ops F}.

(** The validator rejects on a comparison that holds, so a record passes
    where the comparison fails.  [Below x y] is the failure of Go's
    [y <= x] and reads x < y on numbers; [NotAbove x y] is the failure of
    [x > y] and reads x <= y; [NotBelow x y] is the failure of [x < y]
    and reads x >= y. *)
Definition Below (x y : F) : Prop := fle y x = false.
Definition NotAbove (x y : F) : Prop := flt y x = false.
Definition NotBelow (x y : F) : Prop := flt x y = false.

(** Stated from the claim: the leverage ceiling of the asset class, its
    notional cap, and the cap with the 1% tolerance, each computed with
    the operations of [F]. *)
Definition classCeiling (symbol : string) (btcEthLeverage altcoinLeverage : Z) : Z :=
  if String.eqb symbol "BTCUSDT" || String.eqb symbol "ETHUSDT"
  then btcEthLeverage else altcoinLeverage.

Definition classCap (symbol : string) (accountEquity : F) : F :=
  if String.eqb symbol "BTCUSDT" || String.eqb symbol "ETHUSDT"
  then fmul accountEquity c_10 else fmul accountEquity c_1_5.

Definition capWithTolerance (symbol : string) (accountEquity : F) : F :=
  fadd (classCap symbol accountEquity) (fmul (classCap symbol accountEquity) c_0_01).

(** Stated from the claim: the risk and the reward, in percent of an
    entry price placed 20% of the way from the stop to the first target,
    and their ratio, which is 0 unless the risk is positive. *)
Definition entryAtFifth (long : bool) (stop tp1 : F) : F :=
  if long then fadd stop (fmul (fsub tp1 stop) c_0_2)
  else fsub stop (fmul (fsub stop tp1) c_0_2).

Definition riskAtFifth (long : bool) (stop tp1 : F) : F :=
  let entry := entryAtFifth long stop tp1 in
  fmul (fdiv (if long then fsub entry stop else fsub stop entry) entry) c_100.

Definition rewardAtFifth (long : bool) (stop tp1 : F) : F :=
  let entry := entryAtFifth long stop tp1 in
  fmul (fdiv (if long then fsub tp1 entry else fsub entry tp1) entry) c_100.

Definition ratioAtFifth (long : bool) (stop tp1 : F) : F :=
  if flt c_0 (riskAtFifth long stop tp1)
  then fdiv (rewardAtFifth long stop tp1) (riskAtFifth long stop tp1)
  else c_0.

(** Stated from the claim: the invariants it lists for an opening record
    with the targets [t1], [t2], [t3]. *)
Definition ListedInvariants (d : Decision F) (accountEquity : F)
    (btcEthLeverage altcoinLeverage : Z) (t1 t2 t3 : F) : Prop :=
  TakeProfitLevels d = [t1; t2; t3]
  /\ (0 < Leverage d <= classCeiling (Symbol d) btcEthLeverage altcoinLeverage)%Z
  /\ Below c_0 (PositionSizeUSD d)
  /\ NotAbove (PositionSizeUSD d) (capWithTolerance (Symbol d) accountEquity)
  /\ Below c_0 (StopLoss d)
  /\ Below c_0 t1 /\ Below c_0 t2 /\ Below c_0 t3.

(** stop < t1 < t2 < t3, and stop > t1 > t2 > t3. *)
Definition StrictlyAscending (stop t1 t2 t3 : F) : Prop :=
  Below stop t1 /\ Below t1 t2 /\ Below t2 t3.

Definition StrictlyDescending (stop t1 t2 t3 : F) : Prop :=
  Below t1 stop /\ Below t2 t1 /\ Below t3 t2.

End Enforced.


(* ===================================================================== *)
(** * The numbers that binary64 values stand for *)
(* ===================================================================== *)

(** The rational number a finite binary64 value stands for; 0 for the
    infinities and NaN, which a JSON number never decodes to. *)
Definition exactValue (x : float) : Q :=
  match Prim2SF x with
  | S754_finite s m e =>
      let magnitude :=
        if (0 <=? e)%Z then inject_Z (Z.pos m * 2 ^ e)
        else Z.pos m # Z.to_pos (2 ^ (- e)) in
      if s then Qopp magnitude else magnitude
  | _ => 0%Q
  end.

(** A decoded record with every number replaced by the number it stands
    for. *)
Definition exactDecision (d : Decision float) : Decision Q :=
  mkDecision (Symbol d) (Action d) (Reasoning d) (Leverage d)
    (exactValue (PositionSizeUSD d)) (exactValue (StopLoss d))
    (List.map exactValue (TakeProfitLevels d))
    (option_map exactValue (TrailingStopPct d)) (ChecklistPassed d)
    (option_map exactValue (RiskRewardRatio d))
    (SignalType d) (OISignal d) (OIAdjustment d)
    (option_map exactValue (NewStopLoss d)) (ClosePercentage d).

(* ===================================================================== *)
(** * Concrete runs *)
(* ===================================================================== *)

(** A record with the optional fields absent. *)
Definition record {F : Type} (symbol action : string) (leverage : Z)
    (size stop : F) (tps : list F) : Decision F :=
  mkDecision symbol action "x" leverage size stop tps None None None
    EmptyString EmptyString EmptyString None None.

(** The accepted scenario of the specification, in both arithmetics. *)
Definition scenarioQ : Decision Q :=
  record "ETHUSDT" "open_long" 3 500%Q 3735%Q [3966%Q; 4081%Q; 4197%Q].

Definition scenarioF : Decision float :=
  record "ETHUSDT" "open_long" 3 500%float 3735%float
    [3966%float; 4081%float; 4197%float].

(** A well-formed update_stop record: symbol and new stop price present. *)
Definition updateStopRecord : Decision Q :=
  mkDecision "BTCUSDT" "update_stop" "x" 0 0%Q 0%Q [] None None None
    EmptyString EmptyString EmptyString (Some 50000%Q) None.

(** The binary64 number after 1, and the third one after 1. *)
Definition onePlus1ulp : float := Eval vm_compute in (1 + 0x1p-52)%float.
Definition onePlus3ulp : float := Eval vm_compute in (1 + 0x3p-52)%float.

(** An opening record whose first target is three binary64 steps above
    its stop, and one whose first target is one step above. *)
Definition threeStepRecord : Decision float :=
  record "SOLUSDT" "open_long" 1 1%float 1%float
    [onePlus3ulp; 2%float; 3%float].

Definition oneStepRecord : Decision float :=
  record "SOLUSDT" "open_long" 1 1%float 1%float
    [onePlus1ulp; 2%float; 3%float].

(** The rejected scenario of the specification: the second target is
    below the first. *)
Definition scenarioBadOrderQ : Decision Q :=
  record "ETHUSDT" "open_long" 3 500%Q 3735%Q [3966%Q; 3900%Q; 4197%Q].

(** The same scenario for a short: stop above three descending targets. *)
Definition scenarioShortQ : Decision Q :=
  record "ETHUSDT" "open_short" 3 500%Q 4197%Q [3966%Q; 3900%Q; 3735%Q].

(** A market with four instruments: notional open interest of exactly
    15,000,000 (1,000,000 x 15), of 14,999,999, one without open-interest
    record and one with price 0; [market.Get] fails on any other symbol. *)
Definition marketOf {F : Type} (f : Z -> F) (symbol : string)
    : option (Market.Data F) :=
  if String.eqb symbol "ATFLOOR" then
    Some (Market.mk (f 15) (Some (Market.mkOI (f 1000000))))
  else if String.eqb symbol "BELOW" then
    Some (Market.mk (f 1) (Some (Market.mkOI (f 14999999))))
  else if String.eqb symbol "NOOI" then
    Some (Market.mk (f 1) None)
  else if String.eqb symbol "NOPRICE" then
    Some (Market.mk (f 0) (Some (Market.mkOI (f 1))))
  else None.

Definition marketQ : string -> option (Market.Data Q) := marketOf inject_Z.

Definition marketF : string -> option (Market.Data float) :=
  marketOf (fun z => PrimFloat.of_uint63 (Uint63.of_Z z)).

Definition positionOn {F : Type} (zero : F) (symbol : string) : PositionInfo.t F :=
  PositionInfo.mk symbol "long" zero zero zero 1 zero zero zero zero 0.

Definition candidates : list CandidateCoin.t :=
  [CandidateCoin.mk "ATFLOOR" ["ai500"]; CandidateCoin.mk "BELOW" ["ai500"];
   CandidateCoin.mk "NOOI" ["oi_top"]; CandidateCoin.mk "NOPRICE" ["oi_top"];
   CandidateCoin.mk "UNLISTED" ["ai500"]].

(** No open position: every symbol is a candidate only. *)
Definition contextQ : Context Q := mkContext [] candidates ∅ ∅.
Definition contextF : Context float := mkContext [] candidates ∅ ∅.

(** An open position on the instrument below the floor. *)
Definition contextHoldingQ : Context Q :=
  mkContext [positionOn 0%Q "BELOW"] candidates ∅ ∅.
Definition contextHoldingF : Context float :=
  mkContext [positionOn 0%float "BELOW"] candidates ∅ ∅.

(** The payload [{"a":[1,2]},{"b":3}] of the specification. *)
Definition nestedPayload : string :=
  "[{" ++ dquote ++ "a" ++ dquote ++ ":[1,2]},{" ++ dquote ++ "b" ++ dquote ++ ":3}]".

(** Two records that differ only in what the model declares about its own
    decision (reasoning, checklist count, risk:reward ratio, signal
    labels, trailing stop). *)
Definition declaredRecord {F : Type} (d : Decision F) (reasoning : string)
    (trailing : option F) (checklist : option Z) (ratio : option F)
    (signal oiSignal oiAdjustment : string) (newStop : option F)
    (closePct : option Z) : Decision F :=
  mkDecision (Symbol d) (Action d) reasoning (Leverage d) (PositionSizeUSD d)
    (StopLoss d) (TakeProfitLevels d) trailing checklist ratio signal
    oiSignal oiAdjustment newStop closePct.

(** A close_long record without symbol. *)
Definition closeWithoutSymbol : Decision Q :=
  record EmptyString "close_long" 0 0%Q 0%Q [].

(** An opening record with leverage 0 and nothing else filled in. *)
Definition zeroLeverageRecord : Decision Q :=
  record "SOLUSDT" "open_short" 0 0%Q 0%Q [].

(** An opening record that passes the first three checks and holds two
    targets only. *)
Definition twoTargetRecord : Decision Q :=
  record "SOLUSDT" "open_long" 2 100%Q 10%Q [11%Q; 12%Q].

(** An opening record whose second target is 0. *)
Definition zeroTargetRecord : Decision Q :=
  record "SOLUSDT" "open_long" 2 100%Q 10%Q [11%Q; 0%Q; 12%Q].

(** The error of a batch whose records follow [n] others: its ordinal is
    moved up by [n]. *)
Definition shiftOrdinal {F : Type} (n : Z) (e : BatchError F) : BatchError F :=
  mkBatchError (n + ordinal e) (cause e).

(** A decoder that answers every payload with the accepted scenario and a
    "wait" record. *)
Definition decodeScenario (jsonContent : string) : string + list (Decision Q) :=
  inr [scenarioQ; record EmptyString "wait" 0 0%Q 0%Q []].

(** The [OITopData] copied from a ranking entry. *)
Definition oiTopDataOf {F : Type} (pos : Pool.OIPosition F) : OITopData F :=
  mkOITopData (Pool.Rank pos) (Pool.OIDeltaPercent pos) (Pool.OIDeltaValue pos)
    (Pool.PriceDeltaPercent pos) (Pool.NetLong pos) (Pool.NetShort pos).

(** The last entry of a ranking that bears the symbol. *)
Definition lastRanked {F : Type} (symbol : string)
    (oiPositions : list (Pool.OIPosition F)) : option (Pool.OIPosition F) :=
  List.find (fun pos => String.eqb (Pool.Symbol pos) symbol) (List.rev oiPositions).

(** A market that differs from [marketQ] on one symbol only, where the
    fetch fails. *)
Definition marketQWithout (failing : string) (symbol : string)
    : option (Market.Data Q) :=
  if String.eqb symbol failing then None else marketQ symbol.

(** A ranking that lists one symbol twice. *)
Definition rankingQ : list (Pool.OIPosition Q) :=
  [Pool.mk "ATFLOOR" 1 5%Q 100%Q 1%Q 60%Q 40%Q;
   Pool.mk "BELOW" 2 4%Q 90%Q 1%Q 55%Q 45%Q;
   Pool.mk "ATFLOOR" 3 3%Q 80%Q 2%Q 50%Q 50%Q].

(** A string with every byte sent through [f]. *)
Fixpoint mapBytes (f : ascii -> ascii) (s : string) : string :=
  match s with
  | EmptyString => EmptyString
  | String c s' => String (f c) (mapBytes f s')
  end.

(** Whether the byte [c] occurs in [s]. *)
Fixpoint containsByte (c : ascii) (s : string) : bool :=
  match s with
  | EmptyString => false
  | String a s' => Ascii.eqb a c || containsByte c s'
  end.

(** The payload [{"a":"]"}]: an array-end marker inside a JSON string. *)
Definition quotedBracketPayload : string :=
  "[{" ++ dquote ++ "a" ++ dquote ++ ":" ++ dquote ++ "]" ++ dquote ++ "}]".

(** Double quotes replaced by the letter x. *)
Definition unquote (c : ascii) : ascii :=
  if Ascii.eqb c "034" then "x"%char else c.

(** The errors of [GetFullDecision]: the call of the model failed, or the
    response could not be parsed.  (The error of
    [fetchMarketDataForContext] is always [nil].) *)
Inductive DecisionError (F : Type) : Type :=
| ErrCallAI (detail : string)
| ErrParse (err : ParseError F).

Arguments ErrCallAI {F}.
Arguments ErrParse {F}.

Section Engine.

Context {F : Type} `{Float64Ops F}.

Variable market_Get : string -> option (Market.Data F).
Variable pool_GetOITopPositions : option (list (Pool.OIPosition F)).
Variable json_Unmarshal : string -> string + list (Decision F).

(** The texts of the two prompts.  Their wording ([fmt] verbs on
    [float64] values, [market.Format], the wall clock) is not part of
    this development: [GetFullDecision] only hands them on. *)
Variable buildSystemPrompt : F -> Z -> Z -> string.
Variable buildUserPrompt : Context F -> string.

(** [mcpClient.CallWithMessages]: [inl] is its error. *)
Variable CallWithMessages : string -> string -> string + string.

(** [time.Now()]. *)
Variable now : Z.

(** [GetFullDecision].  [accountEquity], [btcEthLeverage] and
    [altcoinLeverage] stand for [ctx.Account.TotalEquity],
    [ctx.BTCETHLeverage] and [ctx.AltcoinLeverage]; the context comes
    back with the maps the fetch has filled in, since the source works on
    a pointer. *)
Definition GetFullDecision (ctx : Context F) (accountEquity : F)
    (btcEthLeverage altcoinLeverage : Z)
    : Context F * (DecisionError F + FullDecision F) :=
  let ctx := fetchMarketDataForContext market_Get pool_GetOITopPositions ctx in
  let systemPrompt := buildSystemPrompt accountEquity btcEthLeverage altcoinLeverage in
  let userPrompt := buildUserPrompt ctx in
  match CallWithMessages systemPrompt userPrompt with
  | inl detail => (ctx, inl (ErrCallAI detail))
  | inr aiResponse =>
      match parseFullDecisionResponse json_Unmarshal aiResponse accountEquity
              btcEthLeverage altcoinLeverage with
      | (_, Some err) => (ctx, inl (ErrParse err))
      | (decision, None) =>
          (ctx, inr (mkFullDecision userPrompt (CoTTrace decision)
                       (Decisions decision) (Some now)))
      end
  end.

End Engine.

(** A model that answers every prompt with the same text, and one that
    cannot be reached. *)
Definition answering (text : string) (systemPrompt userPrompt : string)
    : string + string := inr text.

Definition unreachable (systemPrompt userPrompt : string) : string + string :=
  inl "timeout".

(** Prompts reduced to a label. *)
Definition systemLabel (accountEquity : Q) (btcEthLeverage altcoinLeverage : Z)
    : string := "system".

Definition userLabel (ctx : Context Q) : string := "user".

(** A decoder that answers every payload with the accepted scenario
    followed by the scenario with misordered targets. *)
Definition decodeWithBadOrder (jsonContent : string) : string + list (Decision Q) :=
  inr [scenarioQ; scenarioBadOrderQ].

(** The binary64 number that the JSON number 76228.00000000001 decodes
    to: the one next above 76228. *)
Definition nearStopTarget : float := 0x1.29c4000000001p+16%float.

(** An opening record whose first target is that number and whose stop is
    76228. *)
Definition nearStopRecord : Decision float :=
  record "BTCUSDT" "open_long" 5 1000%float 76228%float
    [nearStopTarget; 80000%float; 90000%float].

(** The binary64 number that the JSON number 70.7 decodes to, and an
    opening record of that size. *)
Definition size70_7 : float := 0x1.1accccccccccdp+6%float.

Definition roundedSizeRecord : Decision float :=
  record "BTCUSDT" "open_long" 5 size70_7 76228%float
    [80000%float; 85000%float; 90000%float].

(** The rejected scenario of the specification on binary64 numbers. *)
Definition scenarioBadOrderF : Decision float :=
  record "ETHUSDT" "open_long" 3 500%float 3735%float
    [3966%float; 3900%float; 4197%float].

(** The same misordered targets on a record with leverage 0. *)
Definition misorderedWithoutLeverage : Decision float :=
  record "ETHUSDT" "open_long" 0 500%float 3735%float
    [3966%float; 3900%float; 4197%float].

(** A market with one instrument, whose open interest and price are the
    binary64 numbers that 1085.41 and 13819.66261597 decode to. *)
Definition oi1085_41 : float := 0x1.0f5a3d70a3d71p+10%float.
Definition price13819_66 : float := 0x1.afdd4d099a07bp+13%float.

Definition marketRounded (symbol : string) : option (Market.Data float) :=
  if String.eqb symbol "ROUNDED" then
    Some (Market.mk price13819_66 (Some (Market.mkOI oi1085_41)))
  else None.

Definition contextRounded : Context float :=
  mkContext [] [CandidateCoin.mk "ROUNDED" ["ai500"]] ∅ ∅.





Definition decodeScenarioF (jsonContent : string) : string + list (Decision float) :=
  inr [scenarioF; record EmptyString "wait" 0 0%float 0%float []].

(** An opening record on BTCUSDT above the size limit at an equity of
    5000. *)
Definition aboveSizeLimitRecordF : Decision float :=
  record "BTCUSDT" "open_long" 5 50501%float 3735%float
    [3966%float; 4081%float; 4197%float].

(* ===================================================================== *)
(** * Action kinds *)
(* ===================================================================== *)

Section ActionKinds.

Context {F : Type} `{Float64Ops F}.

Lemma validActions_lookup (a : string) :
  mapIndex validActions a = true <->
  a = "open_long" \/ a = "open_short" \/ a = "close_long"
  \/ a = "close_short" \/ a = "hold" \/ a = "wait".
Proof.
  unfold mapIndex, validActions. split.
  - intros Hm.
    destruct (decide (a = "open_long")) as [->|n1]; [tauto|].
    destruct (decide (a = "open_short")) as [->|n2]; [tauto|].
    destruct (decide (a = "close_long")) as [->|n3]; [tauto|].
    destruct (decide (a = "close_short")) as [->|n4]; [tauto|].
    destruct (decide (a = "hold")) as [->|n5]; [tauto|].
    destruct (decide (a = "wait")) as [->|n6]; [tauto|].
    rewrite !lookup_insert_ne, lookup_empty in Hm by congruence.
    discriminate.
  - intros [->|[->|[->|[->|[->| ->]]]]]; reflexivity.
Qed.

(** C1: a record whose action is "update_stop" or "partial_close" is
    rejected with the invalid-action error, whatever its other fields
    (symbol, new stop price, close percentage, ...) hold: the set of
    recognised actions is exactly open_long, open_short, close_long,
    close_short, hold and wait. *)
Theorem update_stop_partial_close_rejected
    (d : Decision F) (accountEquity : F) (btcEthLeverage altcoinLeverage : Z) :
  Action d = "update_stop" \/ Action d = "partial_close" ->
  validateDecision d accountEquity btcEthLeverage altcoinLeverage
    = Some (ErrInvalidAction (Action d))
  /\ (forall a, mapIndex validActions a = true <->
        a = "open_long" \/ a = "open_short" \/ a = "close_long"
        \/ a = "close_short" \/ a = "hold" \/ a = "wait").
Proof.
  intros Ha. split; [|apply validActions_lookup].
  unfold validateDecision.
  destruct Ha as [-> | ->]; reflexivity.
Qed.

End ActionKinds.

Lemma update_stop_partial_close_rejected_witness :
  (Action updateStopRecord = "update_stop"
   \/ Action updateStopRecord = "partial_close")
  /\ validateDecision updateStopRecord 5000%Q 5 5
     = Some (ErrInvalidAction "update_stop").
Proof.
  split; [left; reflexivity|].
  apply (update_stop_partial_close_rejected updateStopRecord 5000%Q 5 5).
  left; reflexivity.
Defined.

(* ===================================================================== *)
(** * The validator on opening records *)
(* ===================================================================== *)

Section OpeningRecords.

Context {F : Type} `{Float64Ops F}.
Local Open Scope f64_scope.

Lemma isOpen_valid (d : Decision F) :
  isOpen d = true -> mapIndex validActions (Action d) = true.
Proof.
  unfold isOpen. intros Ho. apply validActions_lookup.
  apply orb_true_iff in Ho as [Ho | Ho]; apply String.eqb_eq in Ho; tauto.
Qed.

Lemma firstBadTakeProfit_three (tp1 tp2 tp3 : F) :
  takeProfitsOK tp1 tp2 tp3 = true ->
  firstBadTakeProfit 0 [tp1; tp2; tp3] = None.
Proof.
  unfold takeProfitsOK. intros Htp.
  apply andb_true_iff in Htp as [Htp H3].
  apply andb_true_iff in Htp as [H1 H2].
  apply negb_true_iff in H1, H2, H3.
  simpl. rewrite H1, H2, H3. reflexivity.
Qed.

(** What is left of [validateDecision] once the record has passed the
    checks in front of the take-profit ordering check. *)
Lemma validateDecision_at_order_check (d : Decision F) (accountEquity : F)
    (btcEthLeverage altcoinLeverage : Z) (tp1 tp2 tp3 : F) :
  TakeProfitLevels d = [tp1; tp2; tp3] ->
  reachesOrderCheck d accountEquity btcEthLeverage altcoinLeverage tp1 tp2 tp3 = true ->
  validateDecision d accountEquity btcEthLeverage altcoinLeverage =
    let long := String.eqb (Action d) "open_long" in
    if takeProfitOrderOK long tp1 tp2 tp3
    then riskRewardCheck long (StopLoss d) tp1
    else if long then Some (ErrLongTakeProfitOrder tp1 tp2 tp3)
         else Some (ErrShortTakeProfitOrder tp1 tp2 tp3).
Proof.
  intros Htps Hr. unfold reachesOrderCheck in Hr.
  repeat (apply andb_true_iff in Hr as [Hr ?]).
  match goal with Ho : stopOrderOK _ _ _ = true |- _ => rename Ho into Hso end.
  match goal with Ho : takeProfitsOK _ _ _ = true |- _ => rename Ho into Htp end.
  match goal with Ho : stopLossOK _ = true |- _ => rename Ho into Hsl end.
  match goal with Ho : positionSizeOK _ _ = true |- _ => rename Ho into Hps end.
  match goal with Ho : leverageOK _ _ _ = true |- _ => rename Ho into Hlv end.
  unfold validateDecision.
  rewrite (isOpen_valid d Hr), Hr. cbn [negb].
  unfold leverageOK in Hlv. apply negb_true_iff in Hlv. rewrite Hlv.
  unfold positionSizeOK in Hps. apply andb_true_iff in Hps as [Hp1 Hp2].
  apply negb_true_iff in Hp1, Hp2. rewrite Hp1. cbv zeta. rewrite Hp2.
  unfold stopLossOK in Hsl. apply negb_true_iff in Hsl. rewrite Hsl.
  rewrite Htps, (firstBadTakeProfit_three _ _ _ Htp).
  unfold stopOrderOK in Hso. unfold takeProfitOrderOK, riskRewardCheck.
  destruct (String.eqb (Action d) "open_long");
    apply negb_true_iff in Hso; rewrite Hso;
    match goal with |- context [negb ?b] => destruct b end; reflexivity.
Qed.

(** The quantities of the code are the ones stated from the claim. *)
Lemma riskRewardRatioOf_at_fifth (long : bool) (stop tp1 : F) :
  riskRewardRatioOf long stop tp1 = ratioAtFifth long stop tp1
  /\ riskPercentOf long stop tp1 = riskAtFifth long stop tp1
  /\ rewardPercentOf long stop tp1 = rewardAtFifth long stop tp1.
Proof. destruct long; repeat split; reflexivity. Qed.

End OpeningRecords.

(** C3: on an opening record that reaches the risk:reward check, the
    validator computes the ratio from the entry price placed 20% of the
    way from the stop to the first target and rejects the record exactly
    when that ratio is below 2.0; a ratio of exactly 2.0 passes the test
    and 1.999 fails it. *)
Theorem risk_reward_threshold {F : Type} `{Float64Ops F}
    (d : Decision F) (accountEquity : F)
    (btcEthLeverage altcoinLeverage : Z) (tp1 tp2 tp3 : F) :
  TakeProfitLevels d = [tp1; tp2; tp3] ->
  reachesRiskReward d accountEquity btcEthLeverage altcoinLeverage tp1 tp2 tp3 = true ->
  let long := String.eqb (Action d) "open_long" in
  let ratio := riskRewardRatioOf long (StopLoss d) tp1 in
  (validateDecision d accountEquity btcEthLeverage altcoinLeverage
     = (if flt ratio c_2
        then Some (ErrRiskReward ratio (riskPercentOf long (StopLoss d) tp1)
                     (rewardPercentOf long (StopLoss d) tp1) (StopLoss d) tp1)
        else None))
  /\ (forall (lg : bool) (stop tp : Q),
        entryPriceOf lg stop tp == stop + (2 # 10) * (tp - stop))%Q
  /\ (forall (stop tp : F),
        riskRewardRatioOf true stop tp =
          (let entry := fadd stop (fmul (fsub tp stop) c_0_2) in
           let risk := fmul (fdiv (fsub entry stop) entry) c_100 in
           let reward := fmul (fdiv (fsub tp entry) entry) c_100 in
           if flt c_0 risk then fdiv reward risk else c_0)
        /\ riskRewardRatioOf false stop tp =
          (let entry := fsub stop (fmul (fsub stop tp) c_0_2) in
           let risk := fmul (fdiv (fsub stop entry) entry) c_100 in
           let reward := fmul (fdiv (fsub entry tp) entry) c_100 in
           if flt c_0 risk then fdiv reward risk else c_0))
  /\ riskRewardTooLow 2%Q = false
  /\ riskRewardTooLow (1999 # 1000)%Q = true
  /\ riskRewardTooLow 2%float = false
  /\ riskRewardTooLow 0x1.ffbe76c8b4396p+0%float = true.
Proof.
  intros Htps Hr long ratio.
  unfold reachesRiskReward in Hr. apply andb_true_iff in Hr as [Hr Hord].
  repeat split; try reflexivity.
  - rewrite (validateDecision_at_order_check d _ _ _ _ _ _ Htps Hr).
    subst ratio long. cbv zeta. rewrite Hord. reflexivity.
  - intros lg stop tp. destruct lg; cbn; ring.
Qed.

(** The record three binary64 steps wide has a computed ratio of exactly
    2.0 and is accepted. *)
Lemma risk_reward_threshold_witness :
  TakeProfitLevels threeStepRecord = [onePlus3ulp; 2%float; 3%float]
  /\ reachesRiskReward threeStepRecord 1000%float 5 5
       onePlus3ulp 2%float 3%float = true
  /\ riskRewardRatioOf true 1%float onePlus3ulp = 2%float
  /\ validateDecision threeStepRecord 1000%float 5 5 = None.
Proof.
  split; [reflexivity|]. split; [reflexivity|]. split; [reflexivity|].
  exact (proj1 (risk_reward_threshold threeStepRecord 1000%float 5 5
                  onePlus3ulp 2%float 3%float eq_refl eq_refl)).
Defined.

(* ===================================================================== *)
(** * Batch validation and the errors of the parser *)
(* ===================================================================== *)

Section Batch.

Context {F : Type} `{Float64Ops F}.


Lemma validateDecisionsFrom_none (ds : list (Decision F)) (i : Z)
    (accountEquity : F) (btcEthLeverage altcoinLeverage : Z) :
  validateDecisionsFrom i ds accountEquity btcEthLeverage altcoinLeverage = None
  <-> Forall (fun x => validateDecision x accountEquity btcEthLeverage altcoinLeverage = None) ds.
Proof.
  revert i. induction ds as [|x ds IH]; intros i; simpl.
  - split; [constructor | reflexivity].
  - destruct (validateDecision x accountEquity btcEthLeverage altcoinLeverage) eqn:Hx.
    + split; [discriminate|]. intros Hall. inversion Hall; congruence.
    + rewrite IH. split; [intros; constructor; assumption|].
      intros Hall. inversion Hall; assumption.
Qed.


(** The three ways [parseFullDecisionResponse] fails, and what it returns
    in each. *)
Lemma parse_failure_cases (json_Unmarshal : string -> string + list (Decision F))
    (response : string) (accountEquity : F) (btcEthLeverage altcoinLeverage : Z) :
  let cot := extractCoTTrace response in
  let result := parseFullDecisionResponse json_Unmarshal response accountEquity
                  btcEthLeverage altcoinLeverage in
  match extractDecisions json_Unmarshal response with
  | inl e => result = (mkFullDecision EmptyString cot [] None, Some (ErrExtract e cot))
  | inr ds =>
      match validateDecisions ds accountEquity btcEthLeverage altcoinLeverage with
      | Some e => result = (mkFullDecision EmptyString cot ds None, Some (ErrValidate e cot))
      | None => result = (mkFullDecision EmptyString cot ds None, None)
      end
  end.
Proof.
  cbv zeta. unfold parseFullDecisionResponse.
  destruct (extractDecisions json_Unmarshal response) as [e | ds]; [reflexivity|].
  destruct (validateDecisions ds accountEquity btcEthLeverage altcoinLeverage);
    reflexivity.
Qed.

End Batch.

Section BatchValues.

Context {F : Type} `{Float64Ops F}.



End BatchValues.



(* ===================================================================== *)
(** * The liquidity filter of the context assembler *)
(* ===================================================================== *)

Section SymbolSets.

Context {F : Type}.

Lemma elem_of_foldl_union {A : Type} (f : A -> string) (l : list A)
    (acc : gset string) (x : string) :
  x ∈ foldl (fun (set : gset string) a => {[f a]} ∪ set) acc l
  <-> x ∈ acc \/ x ∈ f <$> l.
Proof.
  revert acc. induction l as [|a l IH]; intros acc; simpl.
  - rewrite elem_of_nil. tauto.
  - rewrite IH, elem_of_union, elem_of_singleton, elem_of_cons. tauto.
Qed.

Lemma elem_of_positionSymbolsOf (ctx : Context F) (symbol : string) :
  symbol ∈ positionSymbolsOf ctx
  <-> symbol ∈ PositionInfo.Symbol <$> Positions ctx.
Proof.
  unfold positionSymbolsOf. rewrite elem_of_foldl_union.
  rewrite elem_of_empty. tauto.
Qed.

Lemma elem_of_symbolSetOf (ctx : Context F) (symbol : string) :
  symbol ∈ symbolSetOf ctx
  <-> symbol ∈ PositionInfo.Symbol <$> Positions ctx
      \/ symbol ∈ CandidateCoin.Symbol <$> CandidateCoins ctx.
Proof.
  unfold symbolSetOf, calculateMaxCandidates.
  rewrite firstn_all, !elem_of_foldl_union, elem_of_empty. tauto.
Qed.

End SymbolSets.

Section AssemblerFacts.

Context {F : Type} `{Float64Ops F}.
Variable market_Get : string -> option (Market.Data F).
Variable pool_GetOITopPositions : option (list (Pool.OIPosition F)).

(** The map the main loop builds holds, for each symbol of the set, what
    [snapshotFor] decides, and nothing else. *)
Lemma fetch_loop_lookup (positionSymbols symbolSet : gset string) (symbol : string) :
  set_fold (fetchStep market_Get positionSymbols) ∅ symbolSet !! symbol
  = if bool_decide (symbol ∈ symbolSet)
    then snapshotFor market_Get positionSymbols symbol else None.
Proof.
  revert symbolSet.
  apply (set_fold_ind_L
           (fun (r : gmap string (Market.Data F)) (X : gset string) =>
              r !! symbol = if bool_decide (symbol ∈ X)
                            then snapshotFor market_Get positionSymbols symbol
                            else None)).
  - rewrite lookup_empty. rewrite bool_decide_eq_false_2; [reflexivity|].
    apply not_elem_of_empty.
  - intros x X r Hx IH.
    destruct (decide (symbol = x)) as [-> | Hne].
    + rewrite bool_decide_eq_true_2
        by (apply elem_of_union; left; apply elem_of_singleton; reflexivity).
      rewrite bool_decide_eq_false_2 in IH by assumption.
      unfold fetchStep, snapshotFor.
      destruct (market_Get x) as [data|]; [|exact IH].
      destruct (belowLiquidityFloor _ data); [exact IH|].
      apply lookup_insert_eq.
    + assert (Hr : fetchStep market_Get positionSymbols x r !! symbol
                     = r !! symbol).
      { unfold fetchStep.
        destruct (market_Get x) as [data|]; [|reflexivity].
        destruct (belowLiquidityFloor _ data); [reflexivity|].
        apply lookup_insert_ne. congruence. }
      rewrite Hr, IH.
      apply (f_equal (fun b : bool => if b then _ else _)).
      apply bool_decide_ext.
      rewrite elem_of_union, elem_of_singleton. tauto.
Qed.

Lemma fetch_lookup (ctx : Context F) (symbol : string) :
  MarketDataMap (fetchMarketDataForContext market_Get pool_GetOITopPositions ctx)
    !! symbol
  = if bool_decide (symbol ∈ symbolSetOf ctx)
    then snapshotFor market_Get (positionSymbolsOf ctx) symbol else None.
Proof. unfold fetchMarketDataForContext. simpl. apply fetch_loop_lookup. Qed.

(** C9: a symbol of the candidate list that is not an open position and
    whose market data was fetched goes into the snapshot map without any
    liquidity test when the data has no open-interest record, and also
    when the test [CurrentPrice > 0] fails. *)
Theorem no_open_interest_or_price_bypasses_filter
    (ctx : Context F) (symbol : string) (data : Market.Data F) :
  symbol ∈ CandidateCoin.Symbol <$> CandidateCoins ctx ->
  symbol ∉ PositionInfo.Symbol <$> Positions ctx ->
  market_Get symbol = Some data ->
  Market.OpenInterest data = None \/ flt c_0 (Market.CurrentPrice data) = false ->
  belowLiquidityFloor false data = false
  /\ MarketDataMap (fetchMarketDataForContext market_Get pool_GetOITopPositions ctx)
       !! symbol = Some data.
Proof.
  intros Hc Hp Hget Hby.
  assert (Hfl : belowLiquidityFloor false data = false).
  { unfold belowLiquidityFloor.
    destruct Hby as [-> | Hpr]; [reflexivity|].
    rewrite Hpr. destruct (Market.OpenInterest data); reflexivity. }
  split; [exact Hfl|].
  rewrite fetch_lookup.
  rewrite bool_decide_eq_true_2 by (apply elem_of_symbolSetOf; tauto).
  unfold snapshotFor. rewrite Hget.
  rewrite bool_decide_eq_false_2 by (rewrite elem_of_positionSymbolsOf; exact Hp).
  rewrite Hfl. reflexivity.
Qed.

End AssemblerFacts.

(* ===================================================================== *)
(** * Acceptance of opening records *)
(* ===================================================================== *)

Section OpeningCases.

Context {F : Type} `{Float64Ops F}.

(** An opening record either fails one of the checks in front of the
    take-profit ordering check, or holds three targets and reaches it. *)
Lemma validateDecision_open_cases (d : Decision F) (accountEquity : F)
    (btcEthLeverage altcoinLeverage : Z) :
  isOpen d = true ->
  (exists e, validateDecision d accountEquity btcEthLeverage altcoinLeverage = Some e
             /\ earlyError e = true)
  \/ (exists tp1 tp2 tp3,
        TakeProfitLevels d = [tp1; tp2; tp3]
        /\ reachesOrderCheck d accountEquity btcEthLeverage altcoinLeverage
             tp1 tp2 tp3 = true).
Proof.
  intros Ho.
  destruct (leverageOK d btcEthLeverage altcoinLeverage) eqn:Hlv.
  2:{ unfold validateDecision. rewrite (isOpen_valid d Ho), Ho. cbn [negb].
      unfold leverageOK in Hlv. apply negb_false_iff in Hlv. rewrite Hlv.
      early_error. }
  unfold validateDecision. rewrite (isOpen_valid d Ho), Ho. cbn [negb].
  pose proof Hlv as Hlv'. unfold leverageOK in Hlv'.
  apply negb_true_iff in Hlv'. rewrite Hlv'. cbv zeta.
  unfold reachesOrderCheck, positionSizeOK, stopLossOK, takeProfitsOK, stopOrderOK.
  rewrite Ho, Hlv. cbn [andb].
  destruct (fle (PositionSizeUSD d) c_0);
    [early_error|].
  destruct (flt _ (PositionSizeUSD d)).
  { destruct (isMajor d); early_error. }
  destruct (fle (StopLoss d) c_0);
    [early_error|].
  cbn [negb andb].
  destruct (TakeProfitLevels d) as [|tp1 [|tp2 [|tp3 [|tp4 rest]]]];
    try early_error.
  cbn [firstBadTakeProfit].
  destruct (fle tp1 c_0) eqn:E1; [early_error|].
  destruct (fle tp2 c_0) eqn:E2; [early_error|].
  destruct (fle tp3 c_0) eqn:E3; [early_error|].
  destruct (String.eqb (Action d) "open_long").
  - destruct (fle tp1 (StopLoss d)) eqn:E4;
      [early_error|].
    right. exists tp1, tp2, tp3. split; [reflexivity|].
    rewrite E1, E2, E3, E4. reflexivity.
  - destruct (fle (StopLoss d) tp1) eqn:E4;
      [early_error|].
    right. exists tp1, tp2, tp3. split; [reflexivity|].
    rewrite E1, E2, E3, E4. reflexivity.
Qed.

End OpeningCases.

(* ===================================================================== *)
(** * Exact arithmetic *)
(* ===================================================================== *)

Section ExactArithmetic.

Local Open Scope Q_scope.

Lemma Qle_bool_false (x y : Q) : Qle_bool x y = false <-> y < x.
Proof.
  rewrite <- not_true_iff_false, Qle_bool_iff. split.
  - apply Qnot_le_lt.
  - intros Hlt Hle. exact (Qlt_not_le _ _ Hlt Hle).
Qed.

Lemma Qltb_true (x y : Q) : Qltb x y = true <-> x < y.
Proof.
  unfold Qltb. rewrite Qlt_alt. destruct (x ?= y); split; congruence.
Qed.

(** Positivity of a risk or reward percentage. *)
Lemma percent_pos (a e : Q) : 0 < a -> 0 < e -> 0 < a / e * 100.
Proof.
  intros Ha He. apply Qmult_lt_0_compat; [|reflexivity].
  apply Qlt_shift_div_l; [exact He|]. lra.
Qed.

(** The entry price lies strictly between stop and first target, risk is
    a fifth of their distance, and the ratio is 4. *)
Lemma ratio_is_four (long : bool) (stop tp1 : Q) :
  0 < stop -> 0 < tp1 ->
  (if long then stop < tp1 else tp1 < stop) ->
  0 < entryPriceOf long stop tp1
  /\ 0 < riskPercentOf long stop tp1
  /\ riskRewardRatioOf long stop tp1 == 4.
Proof.
  intros Hs Ht Hord.
  assert (He : 0 < entryPriceOf long stop tp1).
  { unfold entryPriceOf. destruct long; cbn; lra. }
  assert (Hr : 0 < riskPercentOf long stop tp1).
  { unfold riskPercentOf. cbv zeta.
    destruct long; cbn [fmul fdiv fsub c_100 Q_ops];
      (apply percent_pos; [|exact He]); unfold entryPriceOf; cbn; lra. }
  split; [exact He|]. split; [exact Hr|].
  unfold riskRewardRatioOf. cbv zeta.
  cbn [flt c_0 Q_ops]. rewrite (proj2 (Qltb_true _ _) Hr).
  unfold riskPercentOf, rewardPercentOf, entryPriceOf in *.
  destruct long; cbn in *; field; split; lra.
Qed.

End ExactArithmetic.

(* ===================================================================== *)
(** * Acceptance of opening records, as computed *)
(* ===================================================================== *)

Section ComputedAcceptance.

Context {F : Type} `{Float64Ops F}.

Variables (d : Decision F) (accountEquity : F) (btcEthLeverage altcoinLeverage : Z).

Local Abbreviation isLong := (String.eqb (Action d) "open_long").

(** The checks in front of the take-profit ordering check, as the
    invariants they enforce. *)
Lemma reachesOrderCheck_listed (t1 t2 t3 : F) :
  isOpen d = true ->
  TakeProfitLevels d = [t1; t2; t3] ->
  (reachesOrderCheck d accountEquity btcEthLeverage altcoinLeverage t1 t2 t3 = true
   <-> ListedInvariants d accountEquity btcEthLeverage altcoinLeverage t1 t2 t3
       /\ (if isLong then Below (StopLoss d) t1 else Below t1 (StopLoss d))).
Proof.
  intros Ho Htps.
  unfold reachesOrderCheck, leverageOK, positionSizeOK, stopLossOK, takeProfitsOK,
    stopOrderOK, ListedInvariants, Below, NotAbove, capWithTolerance, classCap,
    classCeiling, maxLeverageOf, maxPositionValueOf, isMajor.
  rewrite Ho. cbn [andb].
  rewrite !andb_true_iff, !negb_true_iff, orb_false_iff, Z.leb_gt, Z.gtb_ltb,
    Z.ltb_ge.
  destruct isLong; rewrite negb_true_iff; tauto.
Qed.

Lemma accepted_as_computed :
  isOpen d = true ->
  (validateDecision d accountEquity btcEthLeverage altcoinLeverage = None
   <-> exists t1 t2 t3,
         ListedInvariants d accountEquity btcEthLeverage altcoinLeverage t1 t2 t3
         /\ (if isLong then StrictlyAscending (StopLoss d) t1 t2 t3
             else StrictlyDescending (StopLoss d) t1 t2 t3)
         /\ NotBelow (ratioAtFifth isLong (StopLoss d) t1) c_2).
Proof.
  intros Ho. split.
  - intros Hv.
    destruct (validateDecision_open_cases d accountEquity btcEthLeverage
                altcoinLeverage Ho) as [(e & He & _) | (t1 & t2 & t3 & Htps & Hr)];
      [congruence|].
    rewrite (validateDecision_at_order_check d _ _ _ _ _ _ Htps Hr) in Hv.
    cbv zeta in Hv.
    apply (reachesOrderCheck_listed t1 t2 t3 Ho Htps) in Hr as [Hl Hso].
    exists t1, t2, t3. split; [exact Hl|].
    unfold takeProfitOrderOK, riskRewardCheck, riskRewardTooLow in Hv.
    rewrite (proj1 (riskRewardRatioOf_at_fifth _ _ _)) in Hv.
    unfold StrictlyAscending, StrictlyDescending, NotBelow, Below.
    destruct isLong.
    + destruct (fle t2 t1); [discriminate|].
      destruct (fle t3 t2); [discriminate|]. cbn [orb negb] in Hv.
      destruct (flt _ c_2); [discriminate|]. tauto.
    + destruct (fle t1 t2); [discriminate|].
      destruct (fle t2 t3); [discriminate|]. cbn [orb negb] in Hv.
      destruct (flt _ c_2); [discriminate|]. tauto.
  - intros (t1 & t2 & t3 & Hl & Hord & Hrr).
    pose proof Hl as (Htps & _).
    assert (Hr : reachesOrderCheck d accountEquity btcEthLeverage altcoinLeverage
                   t1 t2 t3 = true).
    { apply (reachesOrderCheck_listed t1 t2 t3 Ho Htps). split; [exact Hl|].
      unfold StrictlyAscending, StrictlyDescending in Hord.
      destruct isLong; tauto. }
    rewrite (validateDecision_at_order_check d _ _ _ _ _ _ Htps Hr).
    cbv zeta. unfold takeProfitOrderOK, riskRewardCheck, riskRewardTooLow.
    rewrite (proj1 (riskRewardRatioOf_at_fifth _ _ _)).
    unfold StrictlyAscending, StrictlyDescending, NotBelow, Below in Hord, Hrr.
    destruct isLong; destruct Hord as (_ & -> & ->); cbn [orb negb];
      rewrite Hrr; reflexivity.
Qed.

(** When the answer is the ordering error of the targets. *)
Lemma target_order_error_as_computed (t1 t2 t3 : F) :
  isOpen d = true ->
  (validateDecision d accountEquity btcEthLeverage altcoinLeverage
   = Some (if isLong then ErrLongTakeProfitOrder t1 t2 t3
           else ErrShortTakeProfitOrder t1 t2 t3)
   <-> ListedInvariants d accountEquity btcEthLeverage altcoinLeverage t1 t2 t3
       /\ (if isLong
           then Below (StopLoss d) t1 /\ (fle t2 t1 = true \/ fle t3 t2 = true)
           else Below t1 (StopLoss d) /\ (fle t1 t2 = true \/ fle t2 t3 = true))).
Proof.
  intros Ho. split.
  - intros Hv.
    destruct (validateDecision_open_cases d accountEquity btcEthLeverage
                altcoinLeverage Ho) as [(e & He & Hearly) | (u1 & u2 & u3 & Htps & Hr)].
    { rewrite Hv in He. injection He as <-. destruct isLong; discriminate. }
    rewrite (validateDecision_at_order_check d _ _ _ _ _ _ Htps Hr) in Hv.
    cbv zeta in Hv.
    apply (reachesOrderCheck_listed u1 u2 u3 Ho Htps) in Hr as [Hl Hso].
    unfold takeProfitOrderOK, riskRewardCheck in Hv.
    destruct isLong.
    + destruct (fle u2 u1) eqn:E1; destruct (fle u3 u2) eqn:E2; cbn [orb negb] in Hv;
        try (injection Hv as -> -> ->; tauto);
        destruct (riskRewardTooLow _); discriminate.
    + destruct (fle u1 u2) eqn:E1; destruct (fle u2 u3) eqn:E2; cbn [orb negb] in Hv;
        try (injection Hv as -> -> ->; tauto);
        destruct (riskRewardTooLow _); discriminate.
  - intros (Hl & Hord).
    pose proof Hl as (Htps & _).
    assert (Hr : reachesOrderCheck d accountEquity btcEthLeverage altcoinLeverage
                   t1 t2 t3 = true).
    { apply (reachesOrderCheck_listed t1 t2 t3 Ho Htps). split; [exact Hl|].
      destruct isLong; tauto. }
    rewrite (validateDecision_at_order_check d _ _ _ _ _ _ Htps Hr).
    cbv zeta. unfold takeProfitOrderOK.
    destruct isLong; destruct Hord as (_ & [-> | ->]);
      rewrite ?orb_true_r; reflexivity.
Qed.

End ComputedAcceptance.

(** C2: an open_long record is accepted exactly when it holds three
    targets with stop < tp[0] < tp[1] < tp[2], the listed invariants hold
    (leverage within the ceiling of its asset class, position size
    positive and not above the notional cap plus its tolerance, stop
    positive, three positive targets) and the risk:reward ratio is not
    below 2.0, every comparison being the one the validator makes and
    the cap, the tolerance and the ratio the numbers it computes.  The
    ordering error of the targets is the answer exactly when the record
    passes the checks in front of it and tp[1] <= tp[0] or
    tp[2] <= tp[1].  For an open_short record the same holds with
    stop > tp[0] > tp[1] > tp[2]; in both directions a record whose
    targets are not in that order is rejected. *)
Theorem open_record_acceptance {F : Type} `{Float64Ops F}
    (d : Decision F) (accountEquity : F) (btcEthLeverage altcoinLeverage : Z) :
  Action d = "open_long" \/ Action d = "open_short" ->
  let result := validateDecision d accountEquity btcEthLeverage altcoinLeverage in
  let listed := ListedInvariants d accountEquity btcEthLeverage altcoinLeverage in
  let stop := StopLoss d in
  (Action d = "open_long" ->
     (result = None
      <-> exists t1 t2 t3,
            listed t1 t2 t3 /\ StrictlyAscending stop t1 t2 t3
            /\ NotBelow (ratioAtFifth true stop t1) c_2)
     /\ ((forall t1 t2 t3, TakeProfitLevels d = [t1; t2; t3] ->
            ~ StrictlyAscending stop t1 t2 t3) -> result <> None)
     /\ (forall t1 t2 t3,
           result = Some (ErrLongTakeProfitOrder t1 t2 t3)
           <-> listed t1 t2 t3 /\ Below stop t1
               /\ (fle t2 t1 = true \/ fle t3 t2 = true)))
  /\ (Action d = "open_short" ->
     (result = None
      <-> exists t1 t2 t3,
            listed t1 t2 t3 /\ StrictlyDescending stop t1 t2 t3
            /\ NotBelow (ratioAtFifth false stop t1) c_2)
     /\ ((forall t1 t2 t3, TakeProfitLevels d = [t1; t2; t3] ->
            ~ StrictlyDescending stop t1 t2 t3) -> result <> None)
     /\ (forall t1 t2 t3,
           result = Some (ErrShortTakeProfitOrder t1 t2 t3)
           <-> listed t1 t2 t3 /\ Below t1 stop
               /\ (fle t1 t2 = true \/ fle t2 t3 = true))).
Proof.
  intros Hact result listed stop. subst result listed stop.
  assert (Ho : isOpen d = true).
  { unfold isOpen. destruct Hact as [-> | ->]; reflexivity. }
  pose proof (accepted_as_computed d accountEquity btcEthLeverage altcoinLeverage Ho)
    as Hacc.
  pose proof (fun t1 t2 t3 =>
                target_order_error_as_computed d accountEquity btcEthLeverage
                  altcoinLeverage t1 t2 t3 Ho) as Herr.
  split; intros Ha; rewrite Ha in Hacc, Herr; cbn [String.eqb Ascii.eqb Bool.eqb] in Hacc, Herr;
    (split; [exact Hacc|]);
    (split; [|exact Herr]);
    intros Hnot Hnone; apply Hacc in Hnone;
    destruct Hnone as (t1 & t2 & t3 & (Htps & _) & Hord & _);
    exact (Hnot t1 t2 t3 Htps Hord).
Qed.

(** The rejected scenario of the specification on binary64 numbers: the
    ordering error. *)
Lemma open_record_acceptance_witness :
  (Action scenarioBadOrderF = "open_long" \/ Action scenarioBadOrderF = "open_short")
  /\ validateDecision scenarioBadOrderF 5000%float 5 5
     = Some (ErrLongTakeProfitOrder 3966%float 3900%float 4197%float).
Proof.
  split; [left; reflexivity|].
  refine (proj2 (proj2 (proj2 (proj1
            (open_record_acceptance scenarioBadOrderF 5000%float 5 5
               (or_introl eq_refl)) eq_refl)) 3966%float 3900%float 4197%float) _).
  split; [|split; [reflexivity | left; reflexivity]].
  unfold ListedInvariants, Below, NotAbove.
  split; [reflexivity|]. split; [cbn; lia|]. repeat split.
Defined.

(** The claim read on the numbers themselves fails on binary64 records.
    The record whose first target is the binary64 number next above its
    stop keeps the strict order and every invariant on the numbers it
    holds, their exact ratio being at least 2, and is rejected: the entry
    price rounds to the stop.  The record of size 70.7 at an equity of 7
    is accepted although the number its size stands for exceeds the cap
    of 70 plus the tolerance of 0.7: the computed sum of cap and
    tolerance rounds up to that number.  And misordered targets are not
    always answered with the ordering error: on a record with leverage 0
    the answer is the leverage error, which is tested first. *)
Lemma open_record_acceptance_fails_on_binary64 :
  (Action nearStopRecord = "open_long"
   /\ Ascending (exactDecision nearStopRecord)
   /\ Section3Invariants (exactDecision nearStopRecord) (exactValue 10000%float) 5 5
   /\ validateDecision nearStopRecord 10000%float 5 5
      = Some (ErrRiskReward 0%float 0%float
                (rewardAtFifth true 76228%float nearStopTarget)
                76228%float nearStopTarget))
  /\ (Action roundedSizeRecord = "open_long"
      /\ validateDecision roundedSizeRecord 7%float 5 5 = None
      /\ (notionalCap (exactDecision roundedSizeRecord) (exactValue 7%float)
          + notionalCap (exactDecision roundedSizeRecord) (exactValue 7%float)
            * (1 # 100)
          < PositionSizeUSD (exactDecision roundedSizeRecord))%Q)
  /\ (Action misorderedWithoutLeverage = "open_long"
      /\ TakeProfitLevels misorderedWithoutLeverage
         = [3966%float; 3900%float; 4197%float]
      /\ PrimFloat.leb 3900%float 3966%float = true
      /\ validateDecision misorderedWithoutLeverage 5000%float 5 5
         = Some (ErrLeverage 5 "ETHUSDT" 0)).
Proof.
  split; [split; [reflexivity|]|split; [split; [reflexivity|]|]].
  - split; [vm_compute; repeat split|].
    split; [|vm_compute; reflexivity].
    unfold Section3Invariants, LeverageInvariant, PositionSizeInvariant,
      StopInvariant, TakeProfitInvariant, RiskRewardInvariant.
    vm_compute. repeat split; discriminate.
  - split; [vm_compute; reflexivity|]. vm_compute. reflexivity.
  - vm_compute. repeat split.
Qed.

(** C4: once a record has passed the checks in front of it, the
    risk:reward check works on the risk and the reward in percent of an
    entry price placed 20% of the way from the stop to the first target.
    On the numbers themselves the entry price is positive, the risk is
    0.2 and the reward 0.8 of the distance between stop and first target,
    the entry price in the two denominators cancels and the ratio is 4.
    The validator computes with the operations of its number type, and
    what it computes decides: a record whose computed risk is not
    positive keeps the ratio 0 and is answered with the risk:reward
    error, and a record whose computed risk is positive is answered with
    it exactly when the computed quotient is below 2.0. *)
Theorem risk_reward_branch_reachable {F : Type} `{Float64Ops F}
    (d : Decision F) (accountEquity : F)
    (btcEthLeverage altcoinLeverage : Z) (tp1 tp2 tp3 : F) :
  TakeProfitLevels d = [tp1; tp2; tp3] ->
  reachesRiskReward d accountEquity btcEthLeverage altcoinLeverage tp1 tp2 tp3 = true ->
  let long := String.eqb (Action d) "open_long" in
  let stop := StopLoss d in
  let risk := riskAtFifth long stop tp1 in
  let reward := rewardAtFifth long stop tp1 in
  let result := validateDecision d accountEquity btcEthLeverage altcoinLeverage in
  (flt c_0 risk = false -> flt c_0 c_2 = true ->
     result = Some (ErrRiskReward c_0 risk reward stop tp1))
  /\ (flt c_0 risk = true ->
      (result = Some (ErrRiskReward (fdiv reward risk) risk reward stop tp1)
       <-> flt (fdiv reward risk) c_2 = true)
      /\ (result = None <-> flt (fdiv reward risk) c_2 = false))
  /\ (forall (lg : bool) (s t : Q),
        (0 < s)%Q -> (0 < t)%Q -> (if lg then s < t else t < s)%Q ->
        let entry := entryAtFifth lg s t in
        (0 < entry)%Q
        /\ (if lg
            then (entry - s == (2 # 10) * (t - s)
                  /\ t - entry == (8 # 10) * (t - s))%Q
            else (s - entry == (2 # 10) * (s - t)
                  /\ entry - t == (8 # 10) * (s - t))%Q)
        /\ (ratioAtFifth lg s t == 4)%Q).
Proof.
  intros Htps Hr long stop risk reward result.
  unfold reachesRiskReward in Hr. apply andb_true_iff in Hr as [Hr Hord].
  assert (E : result = if flt (ratioAtFifth long stop tp1) c_2
                       then Some (ErrRiskReward (ratioAtFifth long stop tp1)
                                    risk reward stop tp1)
                       else None).
  { subst result risk reward long stop.
    rewrite (validateDecision_at_order_check d _ _ _ _ _ _ Htps Hr).
    cbv zeta. rewrite Hord.
    unfold riskRewardCheck, riskRewardTooLow.
    destruct (riskRewardRatioOf_at_fifth (String.eqb (Action d) "open_long")
                (StopLoss d) tp1) as (-> & -> & ->).
    reflexivity. }
  split; [|split].
  - intros Hrisk H02. rewrite E. unfold ratioAtFifth. fold risk.
    rewrite Hrisk, H02. reflexivity.
  - intros Hrisk. rewrite E. unfold ratioAtFifth. fold risk reward.
    rewrite Hrisk.
    destruct (flt (fdiv reward risk) c_2); split; split;
      first [reflexivity | discriminate].
  - clear. intros lg s t Hs Ht Hlt entry.
    destruct (ratio_is_four lg s t Hs Ht Hlt) as (He & _ & E4).
    rewrite (proj1 (riskRewardRatioOf_at_fifth lg s t)) in E4.
    split; [exact He|]. split; [|exact E4].
    subst entry. unfold entryAtFifth. destruct lg; cbn; split; ring.
Qed.

(** The record whose first target is the binary64 number next above its
    stop: the computed risk is 0 and the answer is the risk:reward
    error. *)
Lemma risk_reward_branch_reachable_witness :
  TakeProfitLevels nearStopRecord = [nearStopTarget; 80000%float; 90000%float]
  /\ reachesRiskReward nearStopRecord 10000%float 5 5
       nearStopTarget 80000%float 90000%float = true
  /\ riskAtFifth true 76228%float nearStopTarget = 0%float
  /\ validateDecision nearStopRecord 10000%float 5 5
     = Some (ErrRiskReward 0%float 0%float
               (rewardAtFifth true 76228%float nearStopTarget)
               76228%float nearStopTarget).
Proof.
  split; [reflexivity|]. split; [reflexivity|]. split; [reflexivity|].
  exact (proj1 (risk_reward_branch_reachable nearStopRecord 10000%float 5 5
                  nearStopTarget 80000%float 90000%float eq_refl eq_refl)
           eq_refl eq_refl).
Defined.

(** The risk:reward error is returned.  The record with stop 76228 and
    first target 76228.00000000001 passes the positivity and the ordering
    checks, and the ratio of the numbers it holds is 4; in binary64 the
    entry price is the stop itself, the risk 0, and the record is
    rejected for its risk:reward ratio. *)
Lemma risk_reward_error_returned_on_binary64 :
  stopLossOK nearStopRecord = true
  /\ takeProfitsOK nearStopTarget 80000%float 90000%float = true
  /\ stopOrderOK true 76228%float nearStopTarget
     && takeProfitOrderOK true nearStopTarget 80000%float 90000%float = true
  /\ (ratioAtFifth true (exactValue 76228%float) (exactValue nearStopTarget) == 4)%Q
  /\ entryPriceOf true 76228%float nearStopTarget = 76228%float
  /\ validateDecision nearStopRecord 10000%float 5 5
     = Some (ErrRiskReward 0%float 0%float
               (rewardPercentOf true 76228%float nearStopTarget)
               76228%float nearStopTarget).
Proof. vm_compute. repeat split. Qed.

(* ===================================================================== *)
(** * The liquidity floor *)
(* ===================================================================== *)

Section LiquidityFloor.

Context {F : Type} `{Float64Ops F}.

(** C8: the data fetched for a symbol with an open position is kept
    whatever its open interest.  For a symbol that is not an open
    position, whose market data was fetched with an open-interest record
    and a positive price, the snapshot map holds the symbol exactly when
    the notional open interest as the assembler computes it (latest
    quantity x current price, divided by 1,000,000) is not below 15.  In
    binary64 a computed product of exactly 15,000,000 is kept and one of
    14,999,999 is left out. *)
Theorem liquidity_floor_boundary
    (market_Get : string -> option (Market.Data F))
    (pool_GetOITopPositions : option (list (Pool.OIPosition F)))
    (ctx : Context F) (symbol : string) (data : Market.Data F) :
  market_Get symbol = Some data ->
  let snapshot :=
    MarketDataMap (fetchMarketDataForContext market_Get pool_GetOITopPositions ctx)
      !! symbol in
  (symbol ∈ PositionInfo.Symbol <$> Positions ctx -> snapshot = Some data)
  /\ (symbol ∉ PositionInfo.Symbol <$> Positions ctx ->
      symbol ∈ CandidateCoin.Symbol <$> CandidateCoins ctx ->
      forall oi : Market.OIData F,
        Market.OpenInterest data = Some oi ->
        flt c_0 (Market.CurrentPrice data) = true ->
        let notional := fmul (Market.Latest oi) (Market.CurrentPrice data) in
        let millions := fdiv notional c_1e6 in
        (snapshot = Some data <-> flt millions c_15 = false)
        /\ (snapshot = None <-> flt millions c_15 = true))
  /\ (forall (get : string -> option (Market.Data float))
             (ranking : option (list (Pool.OIPosition float)))
             (ctx' : Context float) (quantity price : float),
        get symbol = Some (Market.mk price (Some (Market.mkOI quantity))) ->
        symbol ∉ PositionInfo.Symbol <$> Positions ctx' ->
        symbol ∈ CandidateCoin.Symbol <$> CandidateCoins ctx' ->
        PrimFloat.ltb 0 price = true ->
        let kept :=
          MarketDataMap (fetchMarketDataForContext get ranking ctx') !! symbol in
        (PrimFloat.mul quantity price = 15000000%float ->
         kept = Some (Market.mk price (Some (Market.mkOI quantity))))
        /\ (PrimFloat.mul quantity price = 14999999%float -> kept = None)).
Proof.
  intros Hget snapshot. subst snapshot. rewrite fetch_lookup.
  unfold snapshotFor. rewrite Hget. split; [|split].
  - intros Hpos.
    rewrite bool_decide_eq_true_2 by (apply elem_of_symbolSetOf; left; exact Hpos).
    rewrite (bool_decide_eq_true_2 (symbol ∈ positionSymbolsOf ctx))
      by (apply elem_of_positionSymbolsOf; exact Hpos).
    unfold belowLiquidityFloor. cbn [negb andb].
    destruct (Market.OpenInterest data); reflexivity.
  - intros Hpos Hcand oi Hoi Hp. cbv zeta.
    rewrite bool_decide_eq_true_2 by (apply elem_of_symbolSetOf; right; exact Hcand).
    rewrite (bool_decide_eq_false_2 (symbol ∈ positionSymbolsOf ctx))
      by (rewrite elem_of_positionSymbolsOf; exact Hpos).
    unfold belowLiquidityFloor. rewrite Hoi, Hp. cbn [negb andb].
    destruct (flt _ c_15); split; split; first [reflexivity | discriminate].
  - clear. intros get ranking ctx' quantity price Hget Hpos Hcand Hp.
    cbv zeta. rewrite fetch_lookup. unfold snapshotFor. rewrite Hget.
    rewrite bool_decide_eq_true_2 by (apply elem_of_symbolSetOf; right; exact Hcand).
    rewrite (bool_decide_eq_false_2 (symbol ∈ positionSymbolsOf ctx'))
      by (rewrite elem_of_positionSymbolsOf; exact Hpos).
    unfold belowLiquidityFloor.
    cbn [Market.OpenInterest Market.CurrentPrice Market.Latest negb andb
         flt fmul fdiv c_0 c_15 c_1e6 F64_ops].
    rewrite Hp. split; intros ->; reflexivity.
Qed.

End LiquidityFloor.

(** The instrument whose computed notional open interest is exactly
    15,000,000, on binary64 numbers. *)
Lemma liquidity_floor_boundary_witness :
  marketF "ATFLOOR" = Some (Market.mk 15%float (Some (Market.mkOI 1000000%float)))
  /\ MarketDataMap (fetchMarketDataForContext marketF None contextF) !! "ATFLOOR"
     = Some (Market.mk 15%float (Some (Market.mkOI 1000000%float))).
Proof.
  split; [reflexivity|].
  refine (proj2 (proj1 (proj1 (proj2
            (liquidity_floor_boundary marketF None contextF "ATFLOOR"
               (Market.mk 15%float (Some (Market.mkOI 1000000%float))) eq_refl))
            _ _ (Market.mkOI 1000000%float) eq_refl eq_refl)) eq_refl).
  - cbn. rewrite elem_of_nil. tauto.
  - cbn. apply elem_of_cons. left. reflexivity.
Defined.

(** A symbol below the floor is kept.  The open interest 1085.41 and the
    price 13819.66261597 decode to binary64 numbers whose product is
    below 15,000,000; the assembler's product rounds to 15,000,000 and
    the candidate, which is no open position, goes into the snapshot
    map. *)
Lemma liquidity_floor_rounding_keeps_symbol :
  marketRounded "ROUNDED"
    = Some (Market.mk price13819_66 (Some (Market.mkOI oi1085_41)))
  /\ Positions contextRounded = []
  /\ CandidateCoin.Symbol <$> CandidateCoins contextRounded = ["ROUNDED"]
  /\ (0 < exactValue price13819_66)%Q
  /\ (exactValue oi1085_41 * exactValue price13819_66 < 15000000)%Q
  /\ PrimFloat.mul oi1085_41 price13819_66 = 15000000%float
  /\ MarketDataMap (fetchMarketDataForContext marketRounded None contextRounded)
       !! "ROUNDED"
     = Some (Market.mk price13819_66 (Some (Market.mkOI oi1085_41))).
Proof. vm_compute. repeat split. Qed.

(** The candidate without open-interest record. *)
Lemma no_open_interest_or_price_bypasses_filter_witness :
  marketQ "NOOI" = Some (Market.mk 1%Q None)
  /\ MarketDataMap (fetchMarketDataForContext marketQ None contextQ) !! "NOOI"
     = Some (Market.mk 1%Q None).
Proof.
  split; [reflexivity|].
  refine (proj2 (no_open_interest_or_price_bypasses_filter marketQ None contextQ
                   "NOOI" (Market.mk 1%Q None) _ _ eq_refl (or_introl eq_refl))).
  - cbn. rewrite !elem_of_cons. right. right. left. reflexivity.
  - cbn. rewrite elem_of_nil. tauto.
Defined.

(** The assembler run on binary64 numbers: the instrument at the floor
    and the two that bypass the test are kept, the one below the floor
    and the one [market.Get] fails on are left out; with an open position
    on it, the instrument below the floor is kept. *)
Example assembler_run_binary64 :
  let m := MarketDataMap (fetchMarketDataForContext marketF None contextF) in
  let held := MarketDataMap (fetchMarketDataForContext marketF None contextHoldingF) in
  m !! "ATFLOOR" = marketF "ATFLOOR"
  /\ m !! "BELOW" = None
  /\ m !! "NOOI" = marketF "NOOI"
  /\ m !! "NOPRICE" = marketF "NOPRICE"
  /\ m !! "UNLISTED" = None
  /\ held !! "BELOW" = marketF "BELOW".
Proof. vm_compute. repeat split. Qed.

Example assembler_run_exact :
  let m := MarketDataMap (fetchMarketDataForContext marketQ None contextQ) in
  let held := MarketDataMap (fetchMarketDataForContext marketQ None contextHoldingQ) in
  m !! "ATFLOOR" = marketQ "ATFLOOR"
  /\ m !! "BELOW" = None
  /\ m !! "NOOI" = marketQ "NOOI"
  /\ m !! "NOPRICE" = marketQ "NOPRICE"
  /\ m !! "UNLISTED" = None
  /\ held !! "BELOW" = marketQ "BELOW".
Proof. vm_compute. repeat split. Qed.

(** The two scenarios of the specification, run on binary64 numbers. *)
Example scenario_binary64 :
  validateDecision scenarioF 5000%float 5 5 = None
  /\ validateDecision
       (record "ETHUSDT" "open_long" 3 500%float 3735%float
          [3966%float; 3900%float; 4197%float]) 5000%float 5 5
     = Some (ErrLongTakeProfitOrder 3966%float 3900%float 4197%float).
Proof. vm_compute. split; reflexivity. Qed.

(** Rounding can bring the ratio away from 4.  With a first target one
    binary64 step above the stop, the interpolated entry price rounds to
    the stop: the risk is 0, the ratio keeps its zero value and the
    record is answered with the risk:reward error. *)
Example rounding_reaches_risk_reward_check :
  entryPriceOf true 1%float onePlus1ulp = 1%float
  /\ riskRewardRatioOf true 1%float onePlus1ulp = 0%float
  /\ validateDecision oneStepRecord 1000%float 5 5
     = Some (ErrRiskReward 0%float 0%float
               (rewardPercentOf true 1%float onePlus1ulp) 1%float onePlus1ulp).
Proof. vm_compute. repeat split. Qed.

(* ===================================================================== *)
(** * The response splitter *)
(* ===================================================================== *)

Lemma extractCoTTrace_before_bracket (response : string) :
  0 < Index response "[" ->
  extractCoTTrace response = TrimSpace (slice response 0 (Index response "[")).
Proof.
  intros Hpos. unfold extractCoTTrace. cbv zeta.
  rewrite (proj2 (Z.ltb_lt _ _) Hpos). reflexivity.
Qed.

Lemma extractCoTTrace_no_bracket (response : string) :
  Index response "[" = -1 ->
  extractCoTTrace response = TrimSpace response.
Proof.
  intros Hnone. unfold extractCoTTrace. cbv zeta. rewrite Hnone. reflexivity.
Qed.

(** C5, at a response that starts with the array: the text in front of
    the first '[' is empty, yet [extractCoTTrace] returns the whole
    response, trimmed, because the index 0 fails the test
    [jsonStart > 0]; on the response [[]] it returns [[]]. *)
Theorem leading_bracket_returns_whole_response :
  Index "[]" "[" = 0
  /\ slice "[]" 0 (Index "[]" "[") = EmptyString
  /\ extractCoTTrace "[]" = "[]"
  /\ extractCoTTrace "[]" <> EmptyString
  /\ (forall rest : string,
        extractCoTTrace (String lbracket rest) = TrimSpace (String lbracket rest)).
Proof.
  split; [reflexivity|]. split; [reflexivity|]. split; [reflexivity|].
  split; [vm_compute; discriminate|].
  intros rest. reflexivity.
Qed.

(* ===================================================================== *)
(** * The bracket matcher *)
(* ===================================================================== *)

Lemma get_dropBytes (s : string) (start k : nat) :
  String.get (start + k) s = String.get k (dropBytes start s).
Proof.
  revert s. induction start as [|n IH]; intros s; simpl; [reflexivity|].
  destruct s as [|c s']; [destruct k; reflexivity | apply IH].
Qed.

Lemma length_dropBytes (s : string) (start : nat) :
  String.length (dropBytes start s) = (String.length s - start)%nat.
Proof.
  revert s. induction start as [|n IH]; intros s; simpl; [lia|].
  destruct s as [|c s']; simpl; [reflexivity | apply IH].
Qed.

Lemma get_lt_length (s : string) (k : nat) (c : ascii) :
  String.get k s = Some c -> (k < String.length s)%nat.
Proof.
  revert k. induction s as [|a s IH]; intros k Hget; [destruct k; discriminate|].
  destruct k as [|k]; simpl in *; [lia|]. apply IH in Hget. lia.
Qed.

(** The loop, entered with a depth of at least 1: it stops at the first
    byte that brings the depth to 0, which is an array-end marker, and
    answers -1 when no byte does. *)
Lemma scanBracket_spec (t : string) :
  forall (i d : Z), 1 <= d ->
    (scanBracket t i d = -1
     /\ forall j, (j < String.length t)%nat -> 0 < d + balanceUpTo (S j) t)
    \/ (exists k, (k < String.length t)%nat
          /\ scanBracket t i d = i + Z.of_nat k
          /\ String.get k t = Some rbracket
          /\ d + balanceUpTo (S k) t = 0
          /\ forall j, (j < k)%nat -> 0 < d + balanceUpTo (S j) t).
Proof.
  induction t as [|c t IH]; intros i d Hd.
  - left. split; [reflexivity|]. simpl. intros j Hj. lia.
  - assert (Hstep : forall d', 1 <= d' -> d' = d + bracketDelta c ->
              scanBracket (String c t) i d = scanBracket t (i + 1) d' ->
              (scanBracket (String c t) i d = -1
               /\ forall j, (j < String.length (String c t))%nat ->
                    0 < d + balanceUpTo (S j) (String c t))
              \/ (exists k, (k < String.length (String c t))%nat
                    /\ scanBracket (String c t) i d = i + Z.of_nat k
                    /\ String.get k (String c t) = Some rbracket
                    /\ d + balanceUpTo (S k) (String c t) = 0
                    /\ forall j, (j < k)%nat ->
                         0 < d + balanceUpTo (S j) (String c t))).
    { intros d' Hd' Ed' Escan. rewrite Escan.
      destruct (IH (i + 1) d' Hd') as [[Hnone Hall] | (k & Hk & Hres & Hget & Hzero & Hbefore)].
      - left. split; [exact Hnone|].
        intros [|j] Hj.
        + simpl. destruct t; simpl; lia.
        + change (balanceUpTo (S (S j)) (String c t))
            with (bracketDelta c + balanceUpTo (S j) t).
          specialize (Hall j). simpl in Hj. lia.
      - right. exists (S k). split; [simpl; lia|].
        split; [rewrite Hres; lia|]. split; [exact Hget|].
        split.
        + change (balanceUpTo (S (S k)) (String c t))
            with (bracketDelta c + balanceUpTo (S k) t). lia.
        + intros [|j] Hj.
          * simpl. destruct t; simpl; lia.
          * change (balanceUpTo (S (S j)) (String c t))
              with (bracketDelta c + balanceUpTo (S j) t).
            specialize (Hbefore j). lia. }
    unfold bracketDelta in Hstep. simpl scanBracket in *.
    destruct (Ascii.eqb c lbracket) eqn:El.
    + apply (Hstep (d + 1)); [lia | reflexivity | reflexivity].
    + destruct (Ascii.eqb c rbracket) eqn:Er.
      * destruct (Z.eqb_spec (d - 1) 0) as [Ez | Ez].
        -- right. exists 0%nat. split; [simpl; lia|].
           split; [lia|]. apply Ascii.eqb_eq in Er. subst c.
           split; [reflexivity|]. split.
           ++ simpl. change (bracketDelta rbracket) with (-1).
              destruct t; simpl; lia.
           ++ intros j Hj. lia.
        -- apply (Hstep (d - 1)); [lia | reflexivity | reflexivity].
      * apply (Hstep d); [lia | lia | reflexivity].
Qed.

(** C6: started on an array-start marker, [findMatchingBracket] returns
    the index of the array-end marker at which the depth (up one on every
    '[', down one on every ']') first comes back to zero, and -1 when it
    stays positive to the end of the string.  On the payload
    [{"a":[1,2]},{"b":3}] from index 0 it returns 20, the index of the
    last byte, and not 10, where the nested array ends. *)
Theorem matching_bracket_is_first_return_to_zero (s : string) (start : nat) :
  byteIs s start lbracket = true ->
  ((findMatchingBracket s start = -1
    /\ forall k, (start + k < String.length s)%nat -> 0 < depthAfter s start k)
   \/ (exists k,
         findMatchingBracket s start = Z.of_nat (start + k)
         /\ (start + k < String.length s)%nat
         /\ byteIs s (start + k) rbracket = true
         /\ depthAfter s start k = 0
         /\ forall j, (j < k)%nat -> 0 < depthAfter s start j))
  /\ findMatchingBracket nestedPayload 0 = 20
  /\ len nestedPayload = 21
  /\ byteIs nestedPayload 10 rbracket = true
  /\ depthAfter nestedPayload 0 10 = 1.
Proof.
  intros Hstart.
  split; [|repeat split; reflexivity].
  unfold byteIs in Hstart.
  destruct (String.get start s) as [c|] eqn:Hget; [|discriminate].
  pose proof (get_lt_length _ _ _ Hget) as Hlt.
  apply Ascii.eqb_eq in Hstart. subst c.
  unfold findMatchingBracket, byteIs. rewrite Hget.
  replace (len s <=? Z.of_nat start) with false
    by (symmetry; apply Z.leb_gt; unfold len; lia).
  rewrite Ascii.eqb_refl. cbn [negb orb].
  unfold depthAfter.
  pose proof (get_dropBytes s start 0) as Hhead.
  rewrite Nat.add_0_r, Hget in Hhead.
  pose proof (length_dropBytes s start) as Hlen.
  assert (Hget' : forall k, String.get (start + k) s
                            = String.get k (dropBytes start s))
    by (intros; apply get_dropBytes).
  destruct (dropBytes start s) as [|c rest]; [discriminate|].
  simpl in Hhead. injection Hhead as <-.
  change (scanBracket (String lbracket rest) (Z.of_nat start) 0)
    with (scanBracket rest (Z.of_nat start + 1) 1).
  assert (Hbal : forall k, balanceUpTo (S (S k)) (String lbracket rest)
                           = 1 + balanceUpTo (S k) rest) by reflexivity.
  simpl String.length in Hlen.
  destruct (scanBracket_spec rest (Z.of_nat start + 1) 1 ltac:(lia))
    as [[Hnone Hall] | (k & Hk & Hres & Hgetk & Hzero & Hbefore)].
  - left. split; [exact Hnone|].
    intros [|k] Hk.
    + reflexivity.
    + rewrite Hbal. apply Hall. lia.
  - right. exists (S k). split; [rewrite Hres; lia|].
    split; [lia|]. split.
    + rewrite Hget'. simpl. rewrite Hgetk. apply Ascii.eqb_refl.
    + split; [rewrite Hbal; exact Hzero|].
      intros [|j] Hj.
      * reflexivity.
      * rewrite Hbal. apply Hbefore. lia.
Qed.

Lemma matching_bracket_is_first_return_to_zero_witness :
  byteIs nestedPayload 0 lbracket = true
  /\ findMatchingBracket nestedPayload 0 = 20.
Proof.
  split; [reflexivity|].
  exact (proj1 (proj2 (matching_bracket_is_first_return_to_zero
                         nestedPayload 0 eq_refl))).
Defined.

(* ===================================================================== *)
(** * The quote normaliser *)
(* ===================================================================== *)

Section Normaliser.

Lemma string_length_ind (P : string -> Prop) :
  (forall s, (forall t, (String.length t < String.length s)%nat -> P t) -> P s) ->
  forall s, P s.
Proof.
  intros Hstep s.
  remember (String.length s) as n eqn:Hn. revert s Hn.
  induction n as [n IH] using lt_wf_ind. intros s ->.
  apply Hstep. intros t Hlt. exact (IH _ Hlt t eq_refl).
Qed.

Lemma isQuoteByte_cases (c : ascii) :
  isQuoteByte c = true ->
  c = "156"%char \/ c = "157"%char \/ c = "152"%char \/ c = "153"%char.
Proof.
  unfold isQuoteByte. rewrite !orb_true_iff, !Ascii.eqb_eq. tauto.
Qed.

Lemma isAsciiQuote_cases (q : ascii) :
  isAsciiQuote q = true -> q = "034"%char \/ q = "039"%char.
Proof.
  unfold isAsciiQuote. rewrite !orb_true_iff, !Ascii.eqb_eq. tauto.
Qed.

Lemma quote_table_lead (table : ascii -> option ascii) :
  QuoteTable table -> table "226"%char = None.
Proof.
  intros Ht. destruct (table "226"%char) as [q|] eqn:E; [|reflexivity].
  destruct (Ht _ _ E) as [Hc _]. discriminate.
Qed.

Lemma quote_table_ascii_quote (table : ascii -> option ascii) (q : ascii) :
  QuoteTable table -> isAsciiQuote q = true -> table q = None.
Proof.
  intros Ht Hq. destruct (table q) as [q'|] eqn:E; [|reflexivity].
  destruct (Ht _ _ E) as [Hc _].
  destruct (isAsciiQuote_cases q Hq) as [-> | ->]; discriminate.
Qed.

Lemma matchAt_Some_inv (table : ascii -> option ascii) (s rest : string) (q : ascii) :
  matchAt table s = Some (q, rest) ->
  exists c2, s = String "226" (String "128" (String c2 rest)) /\ table c2 = Some q.
Proof.
  unfold matchAt.
  destruct s as [|c0 [|c1 [|c2 r]]]; try discriminate.
  destruct (Ascii.eqb c0 "226") eqn:E0; [|discriminate].
  destruct (Ascii.eqb c1 "128") eqn:E1; [|discriminate].
  cbn [andb]. destruct (table c2) as [q'|] eqn:Et; [|discriminate].
  intros [= -> ->]. apply Ascii.eqb_eq in E0, E1. subst. eauto.
Qed.

Lemma substitutePass_unfold (table : ascii -> option ascii) (c0 : ascii) (r0 : string) :
  substitutePass table (String c0 r0)
  = match matchAt table (String c0 r0) with
    | Some (q, rest) => String q (substitutePass table rest)
    | None => String c0 (substitutePass table r0)
    end.
Proof.
  destruct r0 as [|c1 [|c2 r2]]; try reflexivity.
  cbn [substitutePass matchAt].
  destruct (Ascii.eqb c0 "226" && Ascii.eqb c1 "128"); [|reflexivity].
  destruct (table c2); reflexivity.
Qed.

Lemma matchAt_orElse (t1 t2 : ascii -> option ascii) (s : string) :
  matchAt (orElse t1 t2) s
  = match matchAt t1 s with
    | Some found => Some found
    | None => matchAt t2 s
    end.
Proof.
  unfold matchAt, orElse.
  destruct s as [|c0 [|c1 [|c2 r]]]; try reflexivity.
  destruct (Ascii.eqb c0 "226" && Ascii.eqb c1 "128"); [|reflexivity].
  destruct (t1 c2); reflexivity.
Qed.

(** A pass of a first table does not hide from a second table any rune
    of the input, nor does it create one. *)
Lemma matchAt_after_pass (f g : ascii -> option ascii) (c0 : ascii) (r0 : string) :
  QuoteTable f -> QuoteTable g ->
  matchAt g (String c0 (substitutePass f r0))
  = match matchAt g (String c0 r0) with
    | Some (q, rest) => Some (q, substitutePass f rest)
    | None => None
    end.
Proof.
  intros Hf Hg.
  destruct r0 as [|c1 r1]; [reflexivity|].
  rewrite substitutePass_unfold.
  destruct (matchAt f (String c1 r1)) as [[q' rest']|] eqn:M1.
  - apply matchAt_Some_inv in M1 as (c & E & Hc). injection E as -> ->.
    destruct (Hf _ _ Hc) as [_ Hq'].
    destruct (isAsciiQuote_cases q' Hq') as [-> | ->];
      cbn; rewrite andb_false_r; destruct (substitutePass f rest'); reflexivity.
  - destruct r1 as [|c2 r2]; [reflexivity|].
    rewrite substitutePass_unfold.
    destruct (matchAt f (String c2 r2)) as [[q' rest']|] eqn:M2.
    + apply matchAt_Some_inv in M2 as (c & E & Hc). injection E as -> ->.
      destruct (Hf _ _ Hc) as [_ Hq'].
      cbn [matchAt].
      rewrite (quote_table_ascii_quote g q' Hg Hq'), (quote_table_lead g Hg).
      destruct (Ascii.eqb c0 "226" && Ascii.eqb c1 "128"); reflexivity.
    + cbn [matchAt].
      destruct (Ascii.eqb c0 "226" && Ascii.eqb c1 "128"); [|reflexivity].
      destruct (g c2); reflexivity.
Qed.

Lemma matchAt_shorter (table : ascii -> option ascii) (s rest : string) (q : ascii) :
  matchAt table s = Some (q, rest) -> (String.length rest < String.length s)%nat.
Proof.
  intros M. apply matchAt_Some_inv in M as (c & -> & _). simpl. lia.
Qed.

(** Two passes in a row are one pass of the combined table. *)
Lemma substitutePass_compose (f g : ascii -> option ascii) :
  QuoteTable f -> QuoteTable g ->
  forall s, substitutePass g (substitutePass f s) = substitutePass (orElse f g) s.
Proof.
  intros Hf Hg s. induction s as [s IH] using string_length_ind.
  destruct s as [|c0 r0]; [reflexivity|].
  rewrite (substitutePass_unfold (orElse f g)), matchAt_orElse.
  rewrite (substitutePass_unfold f).
  destruct (matchAt f (String c0 r0)) as [[q rest]|] eqn:Mf.
  - pose proof (matchAt_shorter _ _ _ _ Mf) as Hlt.
    apply matchAt_Some_inv in Mf as (c & E & Hc).
    destruct (Hf _ _ Hc) as [_ Hq].
    rewrite substitutePass_unfold.
    replace (matchAt g (String q (substitutePass f rest))) with (@None (ascii * string)).
    + rewrite (IH rest Hlt). reflexivity.
    + destruct (isAsciiQuote_cases q Hq) as [-> | ->];
        destruct (substitutePass f rest) as [|? [|? ?]]; reflexivity.
  - rewrite substitutePass_unfold, (matchAt_after_pass f g c0 r0 Hf Hg).
    destruct (matchAt g (String c0 r0)) as [[q rest]|] eqn:Mg.
    + rewrite (IH rest (matchAt_shorter _ _ _ _ Mg)). reflexivity.
    + rewrite (IH r0) by (simpl; lia). reflexivity.
Qed.

Lemma substitutePass_ext (f g : ascii -> option ascii) :
  (forall c, f c = g c) ->
  forall s, substitutePass f s = substitutePass g s.
Proof.
  intros Hfg s. induction s as [|c0 r0 IH0]; [reflexivity|].
  assert (Hall : forall r, substitutePass f r = substitutePass g r).
  { intros r. induction r as [r IH] using string_length_ind.
    destruct r as [|a r']; [reflexivity|].
    rewrite !substitutePass_unfold.
    assert (Hm : matchAt f (String a r') = matchAt g (String a r')).
    { unfold matchAt. destruct r' as [|b [|c r'']]; try reflexivity.
      rewrite Hfg. reflexivity. }
    rewrite Hm.
    destruct (matchAt g (String a r')) as [[q rest]|] eqn:M.
    - rewrite (IH rest (matchAt_shorter _ _ _ _ M)). reflexivity.
    - rewrite (IH r') by (simpl; lia). reflexivity. }
  apply Hall.
Qed.

(** [strings.ReplaceAll] of one encoded rune by one byte is a pass of the
    table with that one entry. *)
Lemma ReplaceAll_single (c q : ascii) (s : string) :
  ReplaceAll s (String "226" (String "128" (String c EmptyString)))
    (String q EmptyString)
  = substitutePass (single c q) s.
Proof.
  unfold ReplaceAll. induction s as [s IH] using string_length_ind.
  destruct s as [|c0 r0]; [reflexivity|].
  rewrite substitutePass_unfold.
  cbn [replaceFrom HasPrefix String.length Nat.sub].
  destruct r0 as [|c1 [|c2 r2]].
  - cbn. rewrite andb_false_r. reflexivity.
  - cbn. rewrite !andb_false_r. reflexivity.
  - cbn [matchAt single replaceFrom]. rewrite andb_true_r.
    destruct (Ascii.eqb c0 "226") eqn:E0; cbn [andb].
    2:{ f_equal. apply (IH (String c1 (String c2 r2))). simpl. lia. }
    destruct (Ascii.eqb c1 "128") eqn:E1; cbn [andb].
    2:{ f_equal. apply (IH (String c1 (String c2 r2))). simpl. lia. }
    change (single c q c2) with (if Ascii.eqb c2 c then Some q else None).
    destruct (Ascii.eqb c2 c) eqn:E2.
    + cbn [String.append]. f_equal. apply IH. simpl. lia.
    + f_equal. apply (IH (String c1 (String c2 r2))). simpl. lia.
Qed.

Lemma single_QuoteTable (c q : ascii) :
  isQuoteByte c = true -> isAsciiQuote q = true -> QuoteTable (single c q).
Proof.
  intros Hc Hq x y. unfold single.
  destruct (Ascii.eqb x c) eqn:E; [|discriminate].
  apply Ascii.eqb_eq in E. intros [= <-]. subst x. tauto.
Qed.

Lemma orElse_QuoteTable (f g : ascii -> option ascii) :
  QuoteTable f -> QuoteTable g -> QuoteTable (orElse f g).
Proof.
  intros Hf Hg x y. unfold orElse.
  destruct (f x) as [q|] eqn:E.
  - intros [= <-]. exact (Hf _ _ E).
  - apply Hg.
Qed.

Lemma quoteFor_QuoteTable : QuoteTable quoteFor.
Proof.
  intros c q. unfold quoteFor, isQuoteByte.
  destruct (Ascii.eqb c "156"), (Ascii.eqb c "157"), (Ascii.eqb c "152"),
    (Ascii.eqb c "153"); cbn; intros [= <-]; split; reflexivity.
Qed.

(** C7: the four [strings.ReplaceAll] of [fixMissingQuotes] amount to one
    pass that replaces the encodings of U+201C and U+201D by the ASCII
    double quote and those of U+2018 and U+2019 by the ASCII single
    quote, and copies every other byte; the table of that pass has these
    four entries and no other; and normalising a second time changes
    nothing. *)
Theorem quote_normaliser_exact_and_idempotent (s : string) :
  fixMissingQuotes s = normalizeQuotes_spec s
  /\ fixMissingQuotes (fixMissingQuotes s) = fixMissingQuotes s
  /\ quoteFor "156" = Some "034"%char
  /\ quoteFor "157" = Some "034"%char
  /\ quoteFor "152" = Some "039"%char
  /\ quoteFor "153" = Some "039"%char
  /\ (forall c, isQuoteByte c = false -> quoteFor c = None).
Proof.
  assert (Hspec : forall r, fixMissingQuotes r = normalizeQuotes_spec r).
  { intros r. unfold fixMissingQuotes, normalizeQuotes_spec, u201c, u201d, u2018,
      u2019, dquote, squote. cbv zeta.
    rewrite !ReplaceAll_single.
    pose proof (single_QuoteTable "156" "034" eq_refl eq_refl) as H1.
    pose proof (single_QuoteTable "157" "034" eq_refl eq_refl) as H2.
    pose proof (single_QuoteTable "152" "039" eq_refl eq_refl) as H3.
    pose proof (single_QuoteTable "153" "039" eq_refl eq_refl) as H4.
    rewrite (substitutePass_compose _ _ H1 H2).
    rewrite (substitutePass_compose _ _ (orElse_QuoteTable _ _ H1 H2) H3).
    rewrite (substitutePass_compose _ _
               (orElse_QuoteTable _ _ (orElse_QuoteTable _ _ H1 H2) H3) H4).
    apply substitutePass_ext. intros c. unfold orElse, single, quoteFor.
    destruct (Ascii.eqb c "156"), (Ascii.eqb c "157"), (Ascii.eqb c "152"),
      (Ascii.eqb c "153"); reflexivity. }
  split; [apply Hspec|]. split.
  - rewrite !Hspec. unfold normalizeQuotes_spec.
    rewrite (substitutePass_compose _ _ quoteFor_QuoteTable quoteFor_QuoteTable).
    apply substitutePass_ext. intros c. unfold orElse.
    destruct (quoteFor c); reflexivity.
  - repeat split. intros c. unfold isQuoteByte, quoteFor.
    destruct (Ascii.eqb c "156"), (Ascii.eqb c "157"), (Ascii.eqb c "152"),
      (Ascii.eqb c "153"); cbn; congruence.
Qed.

End Normaliser.

(* ===================================================================== *)
(** * Sample runs of the string functions *)
(* ===================================================================== *)

(** Tab, no-break space (194 160) and space in front, spaces and the line
    separator U+2028 (226 128 168) behind. *)
Example TrimSpace_unicode :
  TrimSpace (String "009" (String "194" (String "160" " ab c  "))
             ++ String "226" (String "128" (String "168" EmptyString)))
  = "ab c".
Proof. reflexivity. Qed.

Example Index_first_occurrence :
  Index "ab[c[" "[" = 2 /\ Index "abc" "[" = -1 /\ Index "[]" "[" = 0.
Proof. repeat split. Qed.

Example ReplaceAll_left_to_right : ReplaceAll "aXYbXYXYc" "XY" "-" = "a-b--c".
Proof. reflexivity. Qed.

Example extractCoTTrace_runs :
  extractCoTTrace "  reasoning  [1]" = "reasoning"
  /\ extractCoTTrace "  no payload " = "no payload".
Proof. split; reflexivity. Qed.

Example findMatchingBracket_runs :
  findMatchingBracket "x[[]]y" 1 = 4
  /\ findMatchingBracket "[[]" 0 = -1
  /\ findMatchingBracket "ab" 0 = -1
  /\ findMatchingBracket "[]" 5 = -1.
Proof. repeat split. Qed.

Example fixMissingQuotes_run :
  fixMissingQuotes ("a" ++ u201c ++ "b" ++ u201d ++ u2018 ++ "c" ++ u2019)
  = "a" ++ dquote ++ "b" ++ dquote ++ squote ++ "c" ++ squote.
Proof. reflexivity. Qed.

(* ===================================================================== *)
(** * Further properties of the validator *)
(* ===================================================================== *)

Section ValidatorEdges.

Context {F : Type} `{Float64Ops F}.

(** The shape of every answer of [validateDecision]. *)
Lemma validateDecision_answers (d : Decision F) (accountEquity : F)
    (btcEthLeverage altcoinLeverage : Z) :
  let result := validateDecision d accountEquity btcEthLeverage altcoinLeverage in
  (mapIndex validActions (Action d) = false
   /\ result = Some (ErrInvalidAction (Action d)))
  \/ (mapIndex validActions (Action d) = true /\ isOpen d = false /\ result = None)
  \/ (isOpen d = true
      /\ ((exists e, result = Some e /\ earlyError e = true)
          \/ (exists tp1 tp2 tp3,
                TakeProfitLevels d = [tp1; tp2; tp3]
                /\ (let long := String.eqb (Action d) "open_long" in
                    result = if takeProfitOrderOK long tp1 tp2 tp3
                             then riskRewardCheck long (StopLoss d) tp1
                             else if long
                                  then Some (ErrLongTakeProfitOrder tp1 tp2 tp3)
                                  else Some (ErrShortTakeProfitOrder tp1 tp2 tp3))))).
Proof.
  cbv zeta.
  destruct (isOpen d) eqn:Ho.
  - right. right. split; [reflexivity|].
    destruct (validateDecision_open_cases d accountEquity btcEthLeverage
                altcoinLeverage Ho) as [He | (t1 & t2 & t3 & Htps & Hr)];
      [left; exact He|].
    right. exists t1, t2, t3. split; [exact Htps|].
    apply (validateDecision_at_order_check d _ _ _ _ _ _ Htps Hr).
  - unfold validateDecision. rewrite Ho.
    destruct (mapIndex validActions (Action d)); cbn [negb]; tauto.
Qed.

(** X1: the four recognised actions that open nothing are accepted
    without a look at any other field. *)
Theorem closing_and_idle_actions_accepted
    (d : Decision F) (accountEquity : F) (btcEthLeverage altcoinLeverage : Z) :
  Action d = "close_long" \/ Action d = "close_short"
  \/ Action d = "hold" \/ Action d = "wait" ->
  validateDecision d accountEquity btcEthLeverage altcoinLeverage = None.
Proof.
  intros Ha. unfold validateDecision, isOpen.
  destruct Ha as [-> | [-> | [-> | ->]]]; reflexivity.
Qed.

(** X2: the invalid-action error is returned exactly for the actions
    outside the six recognised ones, and it names the action of the
    record. *)
Theorem invalid_action_error_iff
    (d : Decision F) (accountEquity : F) (btcEthLeverage altcoinLeverage : Z)
    (a : string) :
  validateDecision d accountEquity btcEthLeverage altcoinLeverage
    = Some (ErrInvalidAction a)
  <-> a = Action d
      /\ ~ (Action d = "open_long" \/ Action d = "open_short"
            \/ Action d = "close_long" \/ Action d = "close_short"
            \/ Action d = "hold" \/ Action d = "wait").
Proof.
  rewrite <- validActions_lookup.
  destruct (validateDecision_answers d accountEquity btcEthLeverage altcoinLeverage)
    as [[Hm Hr] | [(Hm & _ & Hr) | (Ho & [(e & Hr & He) | (t1 & t2 & t3 & _ & Hr)])]];
    cbv zeta in Hr; rewrite Hr.
  - rewrite Hm. split.
    + intros [= <-]. split; [reflexivity | discriminate].
    + intros [-> _]. reflexivity.
  - rewrite Hm. split; [discriminate | tauto].
  - rewrite (isOpen_valid d Ho). split; [|tauto].
    intros [= ->]. discriminate.
  - rewrite (isOpen_valid d Ho). split; [|tauto].
    unfold riskRewardCheck.
    destruct (takeProfitOrderOK _ _ _ _); [destruct (riskRewardTooLow _)|];
      try destruct (String.eqb (Action d) "open_long"); discriminate.
Qed.

(** X3: the answer depends on the symbol, the action, the leverage, the
    position size, the stop and the targets only: what the record
    declares beside them (reasoning, checklist count, risk:reward ratio,
    signal labels, trailing stop, new stop, close percentage) is never
    consulted. *)
Theorem validation_reads_six_fields
    (d d' : Decision F) (accountEquity : F) (btcEthLeverage altcoinLeverage : Z) :
  Symbol d = Symbol d' -> Action d = Action d' -> Leverage d = Leverage d' ->
  PositionSizeUSD d = PositionSizeUSD d' -> StopLoss d = StopLoss d' ->
  TakeProfitLevels d = TakeProfitLevels d' ->
  validateDecision d accountEquity btcEthLeverage altcoinLeverage
  = validateDecision d' accountEquity btcEthLeverage altcoinLeverage.
Proof.
  intros Hs Ha Hl Hp Hst Htp.
  unfold validateDecision, isOpen, maxLeverageOf, maxPositionValueOf, isMajor.
  rewrite Hs, Ha, Hl, Hp, Hst, Htp. reflexivity.
Qed.

(** X4: the leverage test comes first on an opening record: a leverage
    that is not positive or exceeds the ceiling of the asset class is
    answered with the leverage error whatever else the record holds, and
    a ceiling that is not positive rejects every opening record of that
    class. *)
Theorem leverage_checked_first
    (d : Decision F) (accountEquity : F) (btcEthLeverage altcoinLeverage : Z) :
  Action d = "open_long" \/ Action d = "open_short" ->
  (Leverage d <= 0 \/ maxLeverageOf d btcEthLeverage altcoinLeverage < Leverage d
   \/ maxLeverageOf d btcEthLeverage altcoinLeverage <= 0)%Z ->
  validateDecision d accountEquity btcEthLeverage altcoinLeverage
  = Some (ErrLeverage (maxLeverageOf d btcEthLeverage altcoinLeverage)
            (Symbol d) (Leverage d)).
Proof.
  intros Ha Hl.
  assert (Ho : isOpen d = true).
  { unfold isOpen. destruct Ha as [-> | ->]; reflexivity. }
  unfold validateDecision. rewrite (isOpen_valid d Ho), Ho. cbn [negb].
  replace ((Leverage d <=? 0)%Z
           || (Leverage d >? maxLeverageOf d btcEthLeverage altcoinLeverage)%Z)
    with true; [reflexivity|].
  symmetry. apply orb_true_iff. rewrite Z.leb_le, Z.gtb_ltb, Z.ltb_lt. lia.
Qed.

(** X5: an opening record that passes the leverage, size and stop checks
    and does not hold exactly three targets (none at all when the field
    is missing) is answered with the count error, which reports how many
    it holds. *)
Theorem wrong_target_count_reported
    (d : Decision F) (accountEquity : F) (btcEthLeverage altcoinLeverage : Z) :
  isOpen d = true ->
  leverageOK d btcEthLeverage altcoinLeverage = true ->
  positionSizeOK d accountEquity = true ->
  stopLossOK d = true ->
  List.length (TakeProfitLevels d) <> 3%nat ->
  validateDecision d accountEquity btcEthLeverage altcoinLeverage
  = Some (ErrTakeProfitCount (Z.of_nat (List.length (TakeProfitLevels d)))).
Proof.
  intros Ho Hlv Hps Hsl Hlen.
  unfold validateDecision. rewrite (isOpen_valid d Ho), Ho. cbn [negb].
  unfold leverageOK in Hlv. apply negb_true_iff in Hlv. rewrite Hlv.
  unfold positionSizeOK in Hps. apply andb_true_iff in Hps as [Hp1 Hp2].
  apply negb_true_iff in Hp1, Hp2. rewrite Hp1. cbv zeta. rewrite Hp2.
  unfold stopLossOK in Hsl. apply negb_true_iff in Hsl. rewrite Hsl.
  destruct (TakeProfitLevels d) as [|t1 [|t2 [|t3 [|t4 rest]]]];
    try reflexivity.
  exfalso. apply Hlen. reflexivity.
Qed.

End ValidatorEdges.

Lemma closing_and_idle_actions_accepted_witness :
  (Action closeWithoutSymbol = "close_long"
   \/ Action closeWithoutSymbol = "close_short"
   \/ Action closeWithoutSymbol = "hold" \/ Action closeWithoutSymbol = "wait")
  /\ Symbol closeWithoutSymbol = EmptyString
  /\ validateDecision closeWithoutSymbol 5000%Q 5 5 = None.
Proof.
  split; [left; reflexivity|]. split; [reflexivity|].
  apply (closing_and_idle_actions_accepted closeWithoutSymbol 5000%Q 5 5).
  left; reflexivity.
Defined.

(** The accepted scenario stays accepted when it declares a risk:reward
    ratio of 1/10 and no passed checklist item. *)
Lemma validation_reads_six_fields_witness :
  validateDecision scenarioQ 5000%Q 5 5
  = validateDecision
      (declaredRecord scenarioQ "none" None (Some 0) (Some (1 # 10)%Q)
         "weak" EmptyString EmptyString None None) 5000%Q 5 5.
Proof.
  apply (validation_reads_six_fields scenarioQ
           (declaredRecord scenarioQ "none" None (Some 0) (Some (1 # 10)%Q)
              "weak" EmptyString EmptyString None None) 5000%Q 5 5);
    reflexivity.
Defined.

Lemma leverage_checked_first_witness :
  (Action zeroLeverageRecord = "open_long" \/ Action zeroLeverageRecord = "open_short")
  /\ (Leverage zeroLeverageRecord <= 0
      \/ maxLeverageOf zeroLeverageRecord 5 5 < Leverage zeroLeverageRecord
      \/ maxLeverageOf zeroLeverageRecord 5 5 <= 0)
  /\ validateDecision zeroLeverageRecord 5000%Q 5 5
     = Some (ErrLeverage 5 "SOLUSDT" 0).
Proof.
  split; [right; reflexivity|]. split; [left; discriminate|].
  apply (leverage_checked_first zeroLeverageRecord 5000%Q 5 5).
  - right; reflexivity.
  - left; discriminate.
Defined.

Lemma wrong_target_count_reported_witness :
  isOpen twoTargetRecord = true
  /\ leverageOK twoTargetRecord 5 5 = true
  /\ positionSizeOK twoTargetRecord 5000%Q = true
  /\ stopLossOK twoTargetRecord = true
  /\ List.length (TakeProfitLevels twoTargetRecord) <> 3%nat
  /\ validateDecision twoTargetRecord 5000%Q 5 5 = Some (ErrTakeProfitCount 2).
Proof.
  split; [reflexivity|]. split; [reflexivity|]. split; [reflexivity|].
  split; [reflexivity|]. split; [discriminate|].
  apply (wrong_target_count_reported twoTargetRecord 5000%Q 5 5);
    try reflexivity. discriminate.
Defined.

Section ValidatorSizeLimit.

Context {F : Type} `{Float64Ops F}.

Variables (d : Decision F) (accountEquity : F) (btcEthLeverage altcoinLeverage : Z).

(** X6: the size test of an opening record that has passed the leverage
    test.  A size that is not positive is answered with the position-size
    error.  The cap is the equity times 10 on BTCUSDT and ETHUSDT and
    times 1.5 on any other symbol, the tolerance the cap times 0.01, both
    computed by the validator: a positive size above their computed sum
    is answered with the position-value error of the asset class, which
    reports the cap without the tolerance, and a positive size not above
    it is answered with none of these errors. *)
Theorem position_size_limit :
  isOpen d = true ->
  leverageOK d btcEthLeverage altcoinLeverage = true ->
  let result := validateDecision d accountEquity btcEthLeverage altcoinLeverage in
  let major := String.eqb (Symbol d) "BTCUSDT" || String.eqb (Symbol d) "ETHUSDT" in
  let cap := if major then fmul accountEquity c_10 else fmul accountEquity c_1_5 in
  let limit := fadd cap (fmul cap c_0_01) in
  let size := PositionSizeUSD d in
  (fle size c_0 = true -> result = Some (ErrPositionSize size))
  /\ (fle size c_0 = false -> flt limit size = true ->
      result = Some (if major then ErrMajorPositionValue cap size
                     else ErrAltcoinPositionValue cap size))
  /\ (fle size c_0 = false -> flt limit size = false ->
      forall e, result = Some e ->
        match e with
        | ErrPositionSize _ | ErrMajorPositionValue _ _
        | ErrAltcoinPositionValue _ _ => False
        | _ => True
        end).
Proof.
  intros Ho Hlv result major cap limit size.
  subst result limit cap major size.
  unfold validateDecision. rewrite (isOpen_valid d Ho), Ho. cbn [negb].
  unfold leverageOK in Hlv. apply negb_true_iff in Hlv. rewrite Hlv.
  clear Hlv. cbv zeta. unfold maxPositionValueOf, isMajor.
  split; [|split].
  - intros ->. reflexivity.
  - intros -> ->. destruct (_ || _)%bool; reflexivity.
  - intros -> -> e.
    destruct (fle (StopLoss d) c_0); [intros [= <-]; exact I|].
    destruct (TakeProfitLevels d) as [|a [|b [|c [|? ?]]]];
      try (intros [= <-]; exact I).
    cbn [firstBadTakeProfit].
    destruct (fle a c_0); [intros [= <-]; exact I|].
    destruct (fle b c_0); [intros [= <-]; exact I|].
    destruct (fle c c_0); [intros [= <-]; exact I|].
    destruct (String.eqb (Action d) "open_long");
      repeat match goal with
      | |- context [if ?b then _ else _] => destruct b
      end; first [discriminate | intros [= <-]; exact I].
Qed.

End ValidatorSizeLimit.

(** On binary64 numbers, at an equity of 5000: a size of 50501 on BTCUSDT
    is above the computed limit and the error reports the cap of
    50000. *)
Lemma position_size_limit_witness :
  isOpen aboveSizeLimitRecordF = true
  /\ leverageOK aboveSizeLimitRecordF 5 5 = true
  /\ validateDecision aboveSizeLimitRecordF 5000%float 5 5
     = Some (ErrMajorPositionValue 50000%float 50501%float).
Proof.
  split; [reflexivity|]. split; [reflexivity|].
  exact (proj1 (proj2 (position_size_limit aboveSizeLimitRecordF 5000%float 5 5
                         eq_refl eq_refl)) eq_refl eq_refl).
Defined.

Section ValidatorLimits.

Local Open Scope Q_scope.

Variables (d : Decision Q) (accountEquity : Q) (btcEthLeverage altcoinLeverage : Z).

Local Abbreviation result :=
  (validateDecision d accountEquity btcEthLeverage altcoinLeverage).

(** X8: the take-profit error names the first target that is not
    positive: its 1-based position and its value. *)
Theorem take_profit_error_names_first_bad_target (n : Z) (t : Q) :
  result = Some (ErrTakeProfit n t) ->
  (1 <= n <= 3)%Z
  /\ List.length (TakeProfitLevels d) = 3%nat
  /\ t = tp d (Z.to_nat (n - 1))
  /\ t <= 0
  /\ forall k, (k < Z.to_nat (n - 1))%nat -> 0 < tp d k.
Proof.
  unfold validateDecision.
  destruct (negb _); [discriminate|].
  destruct (isOpen d); [|discriminate].
  destruct (_ || _); [discriminate|].
  destruct (fle (PositionSizeUSD d) c_0); [discriminate|].
  cbv zeta.
  destruct (flt _ (PositionSizeUSD d)); [destruct (isMajor d); discriminate|].
  destruct (fle (StopLoss d) c_0); [discriminate|].
  unfold tp.
  destruct (TakeProfitLevels d) as [|a [|b [|c [|? ?]]]]; try discriminate.
  cbn [firstBadTakeProfit fle c_0 Q_ops].
  destruct (Qle_bool a 0) eqn:Ea.
  { intros [= <- <-]. apply Qle_bool_iff in Ea.
    split; [lia|]. split; [reflexivity|]. split; [reflexivity|].
    split; [exact Ea|]. intros k Hk. simpl in Hk. lia. }
  destruct (Qle_bool b 0) eqn:Eb.
  { intros [= <- <-]. apply Qle_bool_iff in Eb. apply Qle_bool_false in Ea.
    split; [lia|]. split; [reflexivity|]. split; [reflexivity|].
    split; [exact Eb|].
    intros [|k] Hk; [exact Ea | simpl in Hk; lia]. }
  destruct (Qle_bool c 0) eqn:Ec.
  { intros [= <- <-]. apply Qle_bool_iff in Ec.
    apply Qle_bool_false in Ea, Eb.
    split; [lia|]. split; [reflexivity|]. split; [reflexivity|].
    split; [exact Ec|].
    intros [|[|k]] Hk; [exact Ea | exact Eb | simpl in Hk; lia]. }
  destruct (String.eqb (Action d) "open_long");
    repeat match goal with
    | |- context [if ?b then _ else _] => destruct b
    end; discriminate.
Qed.

End ValidatorLimits.

Lemma take_profit_error_names_first_bad_target_witness :
  validateDecision zeroTargetRecord 5000%Q 5 5 = Some (ErrTakeProfit 2 0%Q)
  /\ (1 <= 2 <= 3)%Z.
Proof.
  split; [reflexivity|].
  exact (proj1 (take_profit_error_names_first_bad_target zeroTargetRecord
                  5000%Q 5 5 2 0%Q eq_refl)).
Defined.

(* ===================================================================== *)
(** * Further properties of batch validation and of the parser *)
(* ===================================================================== *)

Section BatchEdges.

Context {F : Type} `{Float64Ops F}.

Lemma validateDecisionsFrom_shift (ds : list (Decision F)) (i : Z)
    (accountEquity : F) (btcEthLeverage altcoinLeverage : Z) :
  validateDecisionsFrom i ds accountEquity btcEthLeverage altcoinLeverage
  = option_map (shiftOrdinal i)
      (validateDecisions ds accountEquity btcEthLeverage altcoinLeverage).
Proof.
  unfold validateDecisions. revert i.
  assert (Hgen : forall (i j : Z),
            validateDecisionsFrom (i + j) ds accountEquity btcEthLeverage
              altcoinLeverage
            = option_map (shiftOrdinal i)
                (validateDecisionsFrom j ds accountEquity btcEthLeverage
                   altcoinLeverage)).
  { induction ds as [|x ds IH]; intros i j; simpl; [reflexivity|].
    destruct (validateDecision x accountEquity btcEthLeverage altcoinLeverage).
    - simpl. unfold shiftOrdinal. simpl. do 2 f_equal. lia.
    - replace (i + j + 1) with (i + (j + 1)) by lia. apply IH. }
  intros i. rewrite <- (Hgen i 0). f_equal. lia.
Qed.

(** Where the loop stops. *)
Lemma validateDecisionsFrom_error_inv (ds : list (Decision F)) (be : BatchError F)
    (accountEquity : F) (btcEthLeverage altcoinLeverage : Z) :
  forall i,
    validateDecisionsFrom i ds accountEquity btcEthLeverage altcoinLeverage
    = Some be ->
    exists (pre : list (Decision F)) d post,
      ds = (pre ++ d :: post)%list
      /\ ordinal be = i + Z.of_nat (List.length pre) + 1
      /\ Forall (fun x => validateDecision x accountEquity btcEthLeverage
                            altcoinLeverage = None) pre
      /\ validateDecision d accountEquity btcEthLeverage altcoinLeverage
         = Some (cause be).
Proof.
  induction ds as [|x ds IH]; intros i; simpl; [discriminate|].
  destruct (validateDecision x accountEquity btcEthLeverage altcoinLeverage)
    as [e|] eqn:Hx.
  - intros [= <-]. exists [], x, ds. simpl.
    split; [reflexivity|]. split; [lia|]. split; [constructor | exact Hx].
  - intros Hrest. destruct (IH _ Hrest) as (pre & d & post & -> & Ho & Hp & Hd).
    exists (x :: pre), d, post. simpl length.
    split; [reflexivity|]. split; [lia|].
    split; [constructor; assumption | exact Hd].
Qed.

(** X9: an error of the batch points at a record that exists: its
    ordinal lies between 1 and the number of records, every record in
    front of it is valid, and its cause is the error of the record at
    that position. *)
Theorem batch_error_points_at_first_invalid_record
    (ds : list (Decision F)) (be : BatchError F)
    (accountEquity : F) (btcEthLeverage altcoinLeverage : Z) :
  validateDecisions ds accountEquity btcEthLeverage altcoinLeverage = Some be ->
  exists (pre : list (Decision F)) d post,
    ds = (pre ++ d :: post)%list
    /\ ordinal be = Z.of_nat (List.length pre) + 1
    /\ (1 <= ordinal be <= Z.of_nat (List.length ds))%Z
    /\ Forall (fun x => validateDecision x accountEquity btcEthLeverage
                          altcoinLeverage = None) pre
    /\ validateDecision d accountEquity btcEthLeverage altcoinLeverage
       = Some (cause be).
Proof.
  unfold validateDecisions. intros Hv.
  destruct (validateDecisionsFrom_error_inv ds be _ _ _ 0 Hv)
    as (pre & d & post & -> & Ho & Hp & Hd).
  exists pre, d, post. rewrite length_app. simpl length.
  split; [reflexivity|]. split; [lia|]. split; [lia|].
  split; assumption.
Qed.

(** X10: validating two batches in a row is validating the first and,
    when it passes, the second, whose error then counts the records of
    the first in its ordinal. *)
Theorem batch_validation_of_concatenation
    (ds1 ds2 : list (Decision F))
    (accountEquity : F) (btcEthLeverage altcoinLeverage : Z) :
  validateDecisions (ds1 ++ ds2) accountEquity btcEthLeverage altcoinLeverage
  = match validateDecisions ds1 accountEquity btcEthLeverage altcoinLeverage with
    | Some e => Some e
    | None =>
        option_map (shiftOrdinal (Z.of_nat (List.length ds1)))
          (validateDecisions ds2 accountEquity btcEthLeverage altcoinLeverage)
    end.
Proof.
  unfold validateDecisions at 1 2.
  assert (Hgen : forall i,
            validateDecisionsFrom i (ds1 ++ ds2) accountEquity btcEthLeverage
              altcoinLeverage
            = match validateDecisionsFrom i ds1 accountEquity btcEthLeverage
                      altcoinLeverage with
              | Some e => Some e
              | None =>
                  validateDecisionsFrom (i + Z.of_nat (List.length ds1)) ds2
                    accountEquity btcEthLeverage altcoinLeverage
              end).
  { induction ds1 as [|x ds1 IH]; intros i.
    - simpl. f_equal. lia.
    - simpl app. simpl validateDecisionsFrom.
      destruct (validateDecision x accountEquity btcEthLeverage altcoinLeverage);
        [reflexivity|].
      rewrite IH. simpl length.
      replace (i + 1 + Z.of_nat (List.length ds1))
        with (i + Z.of_nat (S (List.length ds1))) by lia.
      reflexivity. }
  rewrite Hgen.
  destruct (validateDecisionsFrom 0 ds1 _ _ _); [reflexivity|].
  apply validateDecisionsFrom_shift.
Qed.

End BatchEdges.

Lemma batch_error_points_at_first_invalid_record_witness :
  validateDecisions [scenarioQ; scenarioBadOrderQ; updateStopRecord] 5000%Q 5 5
  = Some (mkBatchError 2 (ErrLongTakeProfitOrder 3966%Q 3900%Q 4197%Q))
  /\ exists (pre : list (Decision Q)) d post,
       [scenarioQ; scenarioBadOrderQ; updateStopRecord] = (pre ++ d :: post)%list
       /\ 2 = Z.of_nat (List.length pre) + 1
       /\ 1 <= 2 <= 3
       /\ Forall (fun x => validateDecision x 5000%Q 5 5 = None) pre
       /\ validateDecision d 5000%Q 5 5
          = Some (ErrLongTakeProfitOrder 3966%Q 3900%Q 4197%Q).
Proof.
  split; [reflexivity|].
  exact (batch_error_points_at_first_invalid_record
           [scenarioQ; scenarioBadOrderQ; updateStopRecord]
           (mkBatchError 2 (ErrLongTakeProfitOrder 3966%Q 3900%Q 4197%Q))
           5000%Q 5 5 eq_refl).
Defined.

Section ParsedBatch.

Context {F : Type} `{Float64Ops F}.

(** X11: when the parser returns no error, the decisions it returns are
    the decoded ones, each of them passes the validator, and every
    opening decision among them holds three targets and keeps what the
    validator enforces: leverage within the ceiling of its asset class,
    position size positive and not above the computed cap plus
    tolerance, stop and targets positive, stop and targets strictly
    ordered in the direction of the trade, computed risk:reward ratio not
    below 2.0. *)
Theorem parsed_decisions_keep_invariants
    (json_Unmarshal : string -> string + list (Decision F))
    (aiResponse : string) (accountEquity : F)
    (btcEthLeverage altcoinLeverage : Z) (fd : FullDecision F) :
  parseFullDecisionResponse json_Unmarshal aiResponse accountEquity
    btcEthLeverage altcoinLeverage = (fd, None) ->
  extractDecisions json_Unmarshal aiResponse = inr (Decisions fd)
  /\ CoTTrace fd = extractCoTTrace aiResponse
  /\ forall d, In d (Decisions fd) ->
       validateDecision d accountEquity btcEthLeverage altcoinLeverage = None
       /\ mapIndex validActions (Action d) = true
       /\ (isOpen d = true ->
           exists t1 t2 t3,
             ListedInvariants d accountEquity btcEthLeverage altcoinLeverage t1 t2 t3
             /\ (Action d = "open_long" -> StrictlyAscending (StopLoss d) t1 t2 t3)
             /\ (Action d = "open_short" -> StrictlyDescending (StopLoss d) t1 t2 t3)
             /\ NotBelow (ratioAtFifth (String.eqb (Action d) "open_long")
                            (StopLoss d) t1) c_2).
Proof.
  intros Hparse.
  pose proof (parse_failure_cases json_Unmarshal aiResponse accountEquity
                btcEthLeverage altcoinLeverage) as Hc.
  cbv zeta in Hc.
  destruct (extractDecisions json_Unmarshal aiResponse) as [e | ds];
    [rewrite Hparse in Hc; discriminate|].
  destruct (validateDecisions ds accountEquity btcEthLeverage altcoinLeverage)
    as [be|] eqn:Hv; [rewrite Hparse in Hc; discriminate|].
  rewrite Hparse in Hc. injection Hc as ->. cbn [Decisions CoTTrace].
  split; [reflexivity|]. split; [reflexivity|].
  apply validateDecisionsFrom_none in Hv. rewrite List.Forall_forall in Hv.
  intros d Hin. specialize (Hv d Hin). split; [exact Hv|]. split.
  - destruct (mapIndex validActions (Action d)) eqn:Hm; [reflexivity|].
    unfold validateDecision in Hv. rewrite Hm in Hv. discriminate.
  - intros Ho.
    apply (accepted_as_computed d accountEquity btcEthLeverage altcoinLeverage Ho)
      in Hv.
    destruct Hv as (t1 & t2 & t3 & Hl & Hord & Hrr).
    exists t1, t2, t3. split; [exact Hl|].
    split; [|split; [|exact Hrr]]; intros Ha; rewrite Ha in Hord; exact Hord.
Qed.

End ParsedBatch.

Lemma parsed_decisions_keep_invariants_witness :
  parseFullDecisionResponse decodeScenarioF "going long [x]" 5000%float 5 5
  = (mkFullDecision EmptyString "going long"
       [scenarioF; record EmptyString "wait" 0 0%float 0%float []] None, None)
  /\ validateDecision scenarioF 5000%float 5 5 = None.
Proof.
  split; [reflexivity|].
  pose proof (parsed_decisions_keep_invariants decodeScenarioF "going long [x]"
                5000%float 5 5 _ eq_refl) as Hparsed.
  destruct Hparsed as (_ & _ & Hall).
  exact (proj1 (Hall scenarioF (or_introl eq_refl))).
Defined.

(* ===================================================================== *)
(** * Further properties of the context assembler *)
(* ===================================================================== *)

Section AssemblerEdges.

Context {F : Type} `{Float64Ops F}.

(** X12: the snapshot map holds a symbol exactly when the symbol is an
    open position or a candidate, [market.Get] succeeded on it and the
    liquidity test did not skip it; what it holds is the data that
    [market.Get] returned.  Whatever the maps of the context held before
    is gone. *)
Theorem snapshot_map_characterisation
    (market_Get : string -> option (Market.Data F))
    (pool_GetOITopPositions : option (list (Pool.OIPosition F)))
    (ctx : Context F) (symbol : string) (data : Market.Data F) :
  MarketDataMap (fetchMarketDataForContext market_Get pool_GetOITopPositions ctx)
    !! symbol = Some data
  <-> (symbol ∈ PositionInfo.Symbol <$> Positions ctx
       \/ symbol ∈ CandidateCoin.Symbol <$> CandidateCoins ctx)
      /\ market_Get symbol = Some data
      /\ belowLiquidityFloor
           (bool_decide (symbol ∈ PositionInfo.Symbol <$> Positions ctx)) data
         = false.
Proof.
  rewrite fetch_lookup. rewrite <- elem_of_symbolSetOf.
  assert (Hb : bool_decide (symbol ∈ positionSymbolsOf ctx)
               = bool_decide (symbol ∈ PositionInfo.Symbol <$> Positions ctx))
    by (apply bool_decide_ext, elem_of_positionSymbolsOf).
  unfold snapshotFor. rewrite Hb.
  destruct (decide (symbol ∈ symbolSetOf ctx)) as [Hin | Hout].
  - rewrite (bool_decide_eq_true_2 _ Hin).
    destruct (market_Get symbol) as [data'|].
    + destruct (belowLiquidityFloor _ data') eqn:Hfl.
      * split; [discriminate|]. intros (_ & [= <-] & Hf). congruence.
      * split.
        -- intros [= <-]. tauto.
        -- intros (_ & [= <-] & _). reflexivity.
    + split; [discriminate|]. intros (_ & Hget & _). discriminate.
  - rewrite (bool_decide_eq_false_2 _ Hout).
    split; [discriminate|]. tauto.
Qed.

(** X13: a fetch that fails costs its own symbol only: a symbol on which
    [market.Get] fails is absent from the snapshot map, also when it is
    an open position, and the entry of every other symbol is what it
    would be had the fetch succeeded. *)
Theorem fetch_failure_is_isolated
    (market_Get market_Get' : string -> option (Market.Data F))
    (pool_GetOITopPositions : option (list (Pool.OIPosition F)))
    (ctx : Context F) (failing : string) :
  market_Get failing = None ->
  (forall symbol, symbol <> failing -> market_Get symbol = market_Get' symbol) ->
  MarketDataMap (fetchMarketDataForContext market_Get pool_GetOITopPositions ctx)
    !! failing = None
  /\ forall symbol, symbol <> failing ->
       MarketDataMap (fetchMarketDataForContext market_Get pool_GetOITopPositions ctx)
         !! symbol
       = MarketDataMap (fetchMarketDataForContext market_Get' pool_GetOITopPositions ctx)
           !! symbol.
Proof.
  intros Hfail Hsame. split.
  - rewrite fetch_lookup. unfold snapshotFor. rewrite Hfail.
    destruct (bool_decide _); reflexivity.
  - intros symbol Hne. rewrite !fetch_lookup. unfold snapshotFor.
    rewrite (Hsame symbol Hne). reflexivity.
Qed.

Lemma find_app_last {A : Type} (p : A -> bool) (l : list A) (x : A) :
  List.find p (l ++ [x])
  = match List.find p l with
    | Some a => Some a
    | None => if p x then Some x else None
    end.
Proof.
  induction l as [|a l IH]; simpl; [reflexivity|].
  destruct (p a); [reflexivity | exact IH].
Qed.

Lemma loadOITop_lookup (oiPositions : list (Pool.OIPosition F))
    (m : gmap string (OITopData F)) (symbol : string) :
  loadOITop m oiPositions !! symbol
  = match lastRanked symbol oiPositions with
    | Some pos => Some (oiTopDataOf pos)
    | None => m !! symbol
    end.
Proof.
  unfold lastRanked, loadOITop. revert m.
  induction oiPositions as [|x l IH]; intros m; [reflexivity|].
  cbn [foldl List.rev]. rewrite IH, find_app_last.
  destruct (List.find _ (List.rev l)); [reflexivity|].
  destruct (String.eqb_spec (Pool.Symbol x) symbol) as [<- | Hne].
  - apply lookup_insert_eq.
  - apply lookup_insert_ne. exact Hne.
Qed.

(** X14: the ranking map is empty when [pool.GetOITopPositions] fails;
    otherwise it holds, for each symbol of the ranking, the figures of
    the last entry that bears the symbol, and nothing for a symbol that
    the ranking does not list. *)
Theorem ranking_map_keeps_last_entry
    (market_Get : string -> option (Market.Data F))
    (pool_GetOITopPositions : option (list (Pool.OIPosition F)))
    (ctx : Context F) (symbol : string) :
  OITopDataMap (fetchMarketDataForContext market_Get pool_GetOITopPositions ctx)
    !! symbol
  = match pool_GetOITopPositions with
    | None => None
    | Some oiPositions => oiTopDataOf <$> lastRanked symbol oiPositions
    end.
Proof.
  unfold fetchMarketDataForContext. cbn [OITopDataMap].
  destruct pool_GetOITopPositions as [l|]; [|apply lookup_empty].
  rewrite loadOITop_lookup, lookup_empty.
  destruct (lastRanked symbol l); reflexivity.
Qed.

End AssemblerEdges.

(** The fetch fails on the open position: it is absent, and the
    instrument at the floor is kept as before. *)
Lemma fetch_failure_is_isolated_witness :
  marketQWithout "BELOW" "BELOW" = None
  /\ MarketDataMap (fetchMarketDataForContext (marketQWithout "BELOW") None
                      contextHoldingQ) !! "BELOW" = None
  /\ MarketDataMap (fetchMarketDataForContext (marketQWithout "BELOW") None
                      contextHoldingQ) !! "ATFLOOR"
     = MarketDataMap (fetchMarketDataForContext marketQ None contextHoldingQ)
         !! "ATFLOOR".
Proof.
  assert (Hsame : forall symbol, symbol <> "BELOW" ->
                    marketQWithout "BELOW" symbol = marketQ symbol).
  { intros symbol Hne. unfold marketQWithout.
    destruct (String.eqb_spec symbol "BELOW"); [contradiction | reflexivity]. }
  split; [reflexivity|].
  pose proof (fetch_failure_is_isolated (marketQWithout "BELOW") marketQ None
                contextHoldingQ "BELOW" eq_refl Hsame) as [Habsent Hothers].
  split; [exact Habsent|]. apply Hothers. discriminate.
Defined.

Example ranking_map_run :
  let m := OITopDataMap (fetchMarketDataForContext marketQ (Some rankingQ) contextQ) in
  m !! "ATFLOOR" = Some (mkOITopData 3 3%Q 80%Q 2%Q 50%Q 50%Q)
  /\ m !! "BELOW" = Some (mkOITopData 2 4%Q 90%Q 1%Q 55%Q 45%Q)
  /\ m !! "NOOI" = None.
Proof. vm_compute. repeat split. Qed.

(* ===================================================================== *)
(** * Further properties of the string functions *)
(* ===================================================================== *)

Section IndexFacts.

Lemma dropBytes_empty (k : nat) : dropBytes k EmptyString = EmptyString.
Proof. destruct k; reflexivity. Qed.

(** [strings.Index] finds the first position at which the separator
    starts, and answers -1 when there is none. *)
Lemma IndexFrom_spec (sep s : string) :
  forall i : Z,
    (IndexFrom i s sep = -1
     /\ forall k, HasPrefix (dropBytes k s) sep = false)
    \/ (exists k, IndexFrom i s sep = i + Z.of_nat k
          /\ (k <= String.length s)%nat
          /\ HasPrefix (dropBytes k s) sep = true
          /\ forall j, (j < k)%nat -> HasPrefix (dropBytes j s) sep = false).
Proof.
  induction s as [|c s IH]; intros i.
  - cbn [IndexFrom]. destruct (HasPrefix EmptyString sep) eqn:Hp.
    + right. exists 0%nat. repeat split; [lia | simpl; lia | exact Hp | lia].
    + left. split; [reflexivity|]. intros k. rewrite dropBytes_empty. exact Hp.
  - cbn [IndexFrom]. destruct (HasPrefix (String c s) sep) eqn:Hp.
    + right. exists 0%nat. repeat split; [lia | simpl; lia | exact Hp | lia].
    + destruct (IH (i + 1)) as [[Hnone Hall] | (k & Hres & Hk & Hat & Hbefore)].
      * left. split; [exact Hnone|]. intros [|k]; [exact Hp | apply Hall].
      * right. exists (S k). split; [rewrite Hres; lia|].
        split; [simpl; lia|]. split; [exact Hat|].
        intros [|j] Hj; [exact Hp | apply Hbefore; lia].
Qed.

Lemma Index_none_iff (s sep : string) :
  Index s sep = -1 <-> forall k, HasPrefix (dropBytes k s) sep = false.
Proof.
  unfold Index. destruct (IndexFrom_spec sep s 0)
    as [[Hnone Hall] | (k & Hres & _ & Hat & _)].
  - tauto.
  - split; [lia|]. intros Hall. rewrite Hall in Hat. discriminate.
Qed.

Lemma HasPrefix_byte (t : string) (c : ascii) :
  HasPrefix t (String c EmptyString) = byteIs t 0 c.
Proof.
  destruct t as [|a t]; [reflexivity|]. unfold byteIs. simpl.
  apply andb_true_r.
Qed.

Lemma byteIs_dropBytes (s : string) (k : nat) (c : ascii) :
  byteIs (dropBytes k s) 0 c = byteIs s k c.
Proof.
  unfold byteIs. rewrite <- (get_dropBytes s k 0), Nat.add_0_r. reflexivity.
Qed.

(** The index of the first ['[']. *)
Lemma Index_bracket_spec (s : string) :
  (Index s "[" = -1 /\ forall k, byteIs s k lbracket = false)
  \/ (exists k, Index s "[" = Z.of_nat k
        /\ byteIs s k lbracket = true
        /\ forall j, (j < k)%nat -> byteIs s j lbracket = false).
Proof.
  unfold Index. destruct (IndexFrom_spec "[" s 0)
    as [[Hnone Hall] | (k & Hres & _ & Hat & Hbefore)].
  - left. split; [exact Hnone|]. intros k.
    rewrite <- byteIs_dropBytes, <- HasPrefix_byte. apply Hall.
  - right. exists k. split; [lia|].
    rewrite <- byteIs_dropBytes, <- HasPrefix_byte. split; [exact Hat|].
    intros j Hj. rewrite <- byteIs_dropBytes, <- HasPrefix_byte.
    apply Hbefore. exact Hj.
Qed.

End IndexFacts.

Section NormaliserEdges.

Lemma fixMissingQuotes_is_pass (s : string) :
  fixMissingQuotes s = substitutePass quoteFor s.
Proof.
  unfold fixMissingQuotes, u201c, u201d, u2018, u2019, dquote, squote. cbv zeta.
  rewrite !ReplaceAll_single.
  pose proof (single_QuoteTable "156" "034" eq_refl eq_refl) as H1.
  pose proof (single_QuoteTable "157" "034" eq_refl eq_refl) as H2.
  pose proof (single_QuoteTable "152" "039" eq_refl eq_refl) as H3.
  pose proof (single_QuoteTable "153" "039" eq_refl eq_refl) as H4.
  rewrite (substitutePass_compose _ _ H1 H2).
  rewrite (substitutePass_compose _ _ (orElse_QuoteTable _ _ H1 H2) H3).
  rewrite (substitutePass_compose _ _
             (orElse_QuoteTable _ _ (orElse_QuoteTable _ _ H1 H2) H3) H4).
  apply substitutePass_ext. intros c. unfold orElse, single, quoteFor.
  destruct (Ascii.eqb c "156"), (Ascii.eqb c "157"), (Ascii.eqb c "152"),
    (Ascii.eqb c "153"); reflexivity.
Qed.

Lemma matchAt_ascii_quote (table : ascii -> option ascii) (q : ascii) (t : string) :
  isAsciiQuote q = true -> matchAt table (String q t) = None.
Proof.
  intros Hq. destruct (isAsciiQuote_cases q Hq) as [-> | ->];
    destruct t as [|? [|? ?]]; reflexivity.
Qed.

(** After a pass no rune of the table is left, at any position. *)
Lemma substitutePass_leaves_none (table : ascii -> option ascii) :
  QuoteTable table ->
  forall s k, matchAt table (dropBytes k (substitutePass table s)) = None.
Proof.
  intros Ht s. induction s as [s IH] using string_length_ind.
  destruct s as [|c0 r0]; intros k; [rewrite dropBytes_empty; reflexivity|].
  rewrite substitutePass_unfold.
  destruct (matchAt table (String c0 r0)) as [[q rest]|] eqn:M.
  - destruct k as [|k].
    + apply matchAt_Some_inv in M as (c & _ & Hc).
      apply matchAt_ascii_quote. exact (proj2 (Ht _ _ Hc)).
    + apply (IH rest (matchAt_shorter _ _ _ _ M)).
  - destruct k as [|k].
    + cbn [dropBytes]. rewrite (matchAt_after_pass table table c0 r0 Ht Ht), M.
      reflexivity.
    + apply (IH r0). simpl. lia.
Qed.

(** A string that holds no rune of the table goes through unchanged. *)
Lemma substitutePass_without_match (table : ascii -> option ascii) (s : string) :
  (forall k, matchAt table (dropBytes k s) = None) ->
  substitutePass table s = s.
Proof.
  induction s as [|c0 r0 IH]; intros Hnone; [reflexivity|].
  pose proof (Hnone 0%nat) as Hhead. cbn [dropBytes] in Hhead.
  rewrite substitutePass_unfold, Hhead.
  f_equal. apply IH. intros k. apply (Hnone (S k)).
Qed.

(** Where one of the four encodings starts, the table matches, and the
    other way round. *)
Lemma matchAt_quoteFor_iff (t : string) :
  matchAt quoteFor t = None
  <-> HasPrefix t u201c = false /\ HasPrefix t u201d = false
      /\ HasPrefix t u2018 = false /\ HasPrefix t u2019 = false.
Proof.
  unfold matchAt, quoteFor, u201c, u201d, u2018, u2019.
  destruct t as [|c0 [|c1 [|c2 r]]]; cbn [HasPrefix];
    rewrite ?andb_false_r; try tauto.
  destruct (Ascii.eqb c0 "226"), (Ascii.eqb c1 "128"), (Ascii.eqb c2 "156"),
    (Ascii.eqb c2 "157"), (Ascii.eqb c2 "152"), (Ascii.eqb c2 "153");
    cbn; split; intros; try discriminate; try tauto;
    repeat match goal with
    | Hc : _ /\ _ |- _ => destruct Hc
    end; discriminate.
Qed.

Lemma no_typographic_quote_iff (s : string) :
  (forall k, matchAt quoteFor (dropBytes k s) = None)
  <-> Index s u201c = -1 /\ Index s u201d = -1
      /\ Index s u2018 = -1 /\ Index s u2019 = -1.
Proof.
  rewrite !Index_none_iff. split.
  - intros Hnone. repeat split; intros k;
      apply (proj1 (matchAt_quoteFor_iff _) (Hnone k)).
  - intros (H1 & H2 & H3 & H4) k. apply matchAt_quoteFor_iff.
    repeat split; [apply H1 | apply H2 | apply H3 | apply H4].
Qed.

Lemma normalised_text_has_no_typographic_quote_aux (s : string) :
  Index (fixMissingQuotes s) u201c = -1
  /\ Index (fixMissingQuotes s) u201d = -1
  /\ Index (fixMissingQuotes s) u2018 = -1
  /\ Index (fixMissingQuotes s) u2019 = -1.
Proof.
  apply no_typographic_quote_iff. intros k.
  rewrite fixMissingQuotes_is_pass.
  apply substitutePass_leaves_none. exact quoteFor_QuoteTable.
Qed.

(** X15: what [fixMissingQuotes] returns holds none of the four
    typographic quotes any more: [strings.Index] finds none of their
    encodings in it. *)
Theorem normalised_text_has_no_typographic_quote (s : string) :
  Index (fixMissingQuotes s) u201c = -1
  /\ Index (fixMissingQuotes s) u201d = -1
  /\ Index (fixMissingQuotes s) u2018 = -1
  /\ Index (fixMissingQuotes s) u2019 = -1.
Proof.
  apply no_typographic_quote_iff. intros k.
  rewrite fixMissingQuotes_is_pass.
  apply substitutePass_leaves_none. exact quoteFor_QuoteTable.
Qed.

(** X16: [fixMissingQuotes] returns its argument unchanged exactly when
    the argument holds none of the four typographic quotes; in
    particular it never touches text that is free of them. *)
Theorem normaliser_changes_only_text_with_typographic_quotes (s : string) :
  fixMissingQuotes s = s
  <-> Index s u201c = -1 /\ Index s u201d = -1
      /\ Index s u2018 = -1 /\ Index s u2019 = -1.
Proof.
  rewrite <- no_typographic_quote_iff. split.
  - intros Hfix k. rewrite <- Hfix, fixMissingQuotes_is_pass.
    apply substitutePass_leaves_none. exact quoteFor_QuoteTable.
  - intros Hnone. rewrite fixMissingQuotes_is_pass.
    apply substitutePass_without_match. exact Hnone.
Qed.

End NormaliserEdges.

Section BracketEdges.

Lemma findMatchingBracket_off_bracket (s : string) (start : nat) :
  byteIs s start lbracket = false -> findMatchingBracket s start = -1.
Proof.
  intros Hb. unfold findMatchingBracket. rewrite Hb. cbn [negb].
  rewrite orb_true_r. reflexivity.
Qed.

Lemma findMatchingBracket_on_bracket (s : string) (start : nat) :
  byteIs s start lbracket = true ->
  exists rest,
    dropBytes start s = String lbracket rest
    /\ (start < String.length s)%nat
    /\ findMatchingBracket s start = scanBracket rest (Z.of_nat start + 1) 1.
Proof.
  intros Hstart. unfold byteIs in Hstart.
  destruct (String.get start s) as [c|] eqn:Hget; [|discriminate].
  pose proof (get_lt_length _ _ _ Hget) as Hlt.
  apply Ascii.eqb_eq in Hstart. subst c.
  unfold findMatchingBracket, byteIs. rewrite Hget.
  replace (len s <=? Z.of_nat start) with false
    by (symmetry; apply Z.leb_gt; unfold len; lia).
  rewrite Ascii.eqb_refl. cbn [negb orb].
  pose proof (get_dropBytes s start 0) as Hhead.
  rewrite Nat.add_0_r, Hget in Hhead.
  destruct (dropBytes start s) as [|c rest]; [discriminate|].
  simpl in Hhead. injection Hhead as <-.
  exists rest. split; [reflexivity|]. split; [exact Hlt | reflexivity].
Qed.

(** The answers of [findMatchingBracket] when it starts on a ['[']. *)
Lemma findMatchingBracket_spec (s : string) (start : nat) :
  byteIs s start lbracket = true ->
  (findMatchingBracket s start = -1
   /\ forall k, (start + k < String.length s)%nat -> 0 < depthAfter s start k)
  \/ (exists k,
        findMatchingBracket s start = Z.of_nat (start + k)
        /\ (0 < k)%nat
        /\ (start + k < String.length s)%nat
        /\ byteIs s (start + k) rbracket = true
        /\ depthAfter s start k = 0
        /\ forall j, (j < k)%nat -> 0 < depthAfter s start j).
Proof.
  intros Hstart.
  destruct (findMatchingBracket_on_bracket s start Hstart)
    as (rest & Hdrop & Hlt & Hfind).
  rewrite Hfind. unfold depthAfter, byteIs. rewrite Hdrop.
  pose proof (length_dropBytes s start) as Hlen. rewrite Hdrop in Hlen.
  simpl String.length in Hlen.
  assert (Hget : forall k, String.get (start + S k) s = String.get k rest).
  { intros k. rewrite get_dropBytes, Hdrop. reflexivity. }
  assert (Hbal : forall k, balanceUpTo (S (S k)) (String lbracket rest)
                           = 1 + balanceUpTo (S k) rest) by reflexivity.
  destruct (scanBracket_spec rest (Z.of_nat start + 1) 1 ltac:(lia))
    as [[Hnone Hall] | (k & Hk & Hres & Hgetk & Hzero & Hbefore)].
  - left. split; [exact Hnone|].
    intros [|k] Hk; [reflexivity|]. rewrite Hbal. apply Hall. lia.
  - right. exists (S k). split; [rewrite Hres; lia|].
    split; [lia|]. split; [lia|]. split.
    + rewrite Hget, Hgetk. apply Ascii.eqb_refl.
    + split; [rewrite Hbal; exact Hzero|].
      intros [|j] Hj; [reflexivity|]. rewrite Hbal. apply Hbefore. lia.
Qed.

(** X17: an index returned by [findMatchingBracket] lies inside the
    string, strictly behind the start index; the start index holds a
    ['['] and the returned index a [']'], so that the slice from the one
    to the other, both included, is in range. *)
Theorem matching_bracket_in_range (s : string) (start : nat) :
  findMatchingBracket s start <> -1 ->
  byteIs s start lbracket = true
  /\ Z.of_nat start < findMatchingBracket s start < len s
  /\ byteIs s (Z.to_nat (findMatchingBracket s start)) rbracket = true.
Proof.
  intros Hfound.
  destruct (byteIs s start lbracket) eqn:Hb;
    [|elim Hfound; apply findMatchingBracket_off_bracket; exact Hb].
  split; [reflexivity|].
  destruct (findMatchingBracket_spec s start Hb)
    as [[Hnone _] | (k & Hres & Hk & Hlt & Hend & _)]; [contradiction|].
  rewrite Hres, Nat2Z.id. unfold len. split; [lia | exact Hend].
Qed.

Lemma scanBracket_app (t1 t2 : string) :
  forall i d, scanBracket t1 i d <> -1 ->
              scanBracket (t1 ++ t2) i d = scanBracket t1 i d.
Proof.
  induction t1 as [|c t1 IH]; intros i d Hfound; [elim Hfound; reflexivity|].
  simpl in *.
  destruct (Ascii.eqb c lbracket); [apply IH; exact Hfound|].
  destruct (Ascii.eqb c rbracket); [|apply IH; exact Hfound].
  destruct (d - 1 =? 0); [reflexivity | apply IH; exact Hfound].
Qed.

Lemma dropBytes_app (s t : string) (n : nat) :
  (n <= String.length s)%nat -> dropBytes n (s ++ t) = dropBytes n s ++ t.
Proof.
  revert s. induction n as [|n IH]; intros s Hn; [reflexivity|].
  destruct s as [|c s]; simpl in *; [lia|]. apply IH. lia.
Qed.

Lemma length_append (s t : string) :
  String.length (s ++ t) = (String.length s + String.length t)%nat.
Proof. induction s as [|c s IH]; simpl; [reflexivity | rewrite IH; reflexivity]. Qed.

(** X18: what follows the matching [']'] plays no part: text appended to
    the string leaves the answer as it is. *)
Theorem text_after_the_match_is_ignored (s t : string) (start : nat) :
  findMatchingBracket s start <> -1 ->
  findMatchingBracket (s ++ t) start = findMatchingBracket s start.
Proof.
  intros Hfound.
  destruct (byteIs s start lbracket) eqn:Hb;
    [|elim Hfound; apply findMatchingBracket_off_bracket; exact Hb].
  destruct (findMatchingBracket_on_bracket s start Hb)
    as (rest & Hdrop & Hlt & Hfind).
  assert (Hb' : byteIs (s ++ t) start lbracket = true).
  { rewrite <- byteIs_dropBytes, dropBytes_app, Hdrop by lia. reflexivity. }
  destruct (findMatchingBracket_on_bracket (s ++ t) start Hb')
    as (rest' & Hdrop' & _ & Hfind').
  rewrite dropBytes_app, Hdrop in Hdrop' by lia.
  injection Hdrop' as <-.
  rewrite Hfind', Hfind. apply scanBracket_app. rewrite <- Hfind. exact Hfound.
Qed.

Lemma scanBracket_mapBytes (f : ascii -> ascii) (t : string) :
  (forall c, Ascii.eqb (f c) lbracket = Ascii.eqb c lbracket) ->
  (forall c, Ascii.eqb (f c) rbracket = Ascii.eqb c rbracket) ->
  forall i d, scanBracket (mapBytes f t) i d = scanBracket t i d.
Proof.
  intros Hl Hr. induction t as [|c t IH]; intros i d; [reflexivity|].
  simpl. rewrite Hl, Hr, !IH. reflexivity.
Qed.

Lemma dropBytes_mapBytes (f : ascii -> ascii) (s : string) (n : nat) :
  dropBytes n (mapBytes f s) = mapBytes f (dropBytes n s).
Proof.
  revert s. induction n as [|n IH]; intros s; [reflexivity|].
  destruct s as [|c s]; [reflexivity | apply IH].
Qed.

Lemma length_mapBytes (f : ascii -> ascii) (s : string) :
  String.length (mapBytes f s) = String.length s.
Proof. induction s as [|c s IH]; simpl; [reflexivity | rewrite IH; reflexivity]. Qed.

(** X19: only the bytes ['['] and [']'] count.  Rewriting the other
    bytes of the string, among them the quotes around a JSON string,
    leaves the answer as it is: a bracket inside a JSON string is
    counted like any other. *)
Theorem only_brackets_count (f : ascii -> ascii) (s : string) (start : nat) :
  (forall c, Ascii.eqb (f c) lbracket = Ascii.eqb c lbracket) ->
  (forall c, Ascii.eqb (f c) rbracket = Ascii.eqb c rbracket) ->
  findMatchingBracket (mapBytes f s) start = findMatchingBracket s start.
Proof.
  intros Hl Hr.
  assert (Hb : byteIs (mapBytes f s) start lbracket = byteIs s start lbracket).
  { rewrite <- (byteIs_dropBytes (mapBytes f s) start),
      <- (byteIs_dropBytes s start), dropBytes_mapBytes.
    destruct (dropBytes start s) as [|c r]; [reflexivity|].
    unfold byteIs. simpl. apply Hl. }
  unfold findMatchingBracket. rewrite Hb. unfold len.
  rewrite length_mapBytes, dropBytes_mapBytes.
  rewrite (scanBracket_mapBytes f _ Hl Hr). reflexivity.
Qed.

End BracketEdges.

Lemma matching_bracket_in_range_witness :
  findMatchingBracket nestedPayload 0 <> -1
  /\ 0 < findMatchingBracket nestedPayload 0 < len nestedPayload.
Proof.
  split; [discriminate|].
  exact (proj1 (proj2 (matching_bracket_in_range nestedPayload 0
                         ltac:(discriminate)))).
Defined.

Lemma text_after_the_match_is_ignored_witness :
  findMatchingBracket nestedPayload 0 <> -1
  /\ findMatchingBracket (nestedPayload ++ " and [more]") 0 = 20.
Proof.
  split; [discriminate|].
  exact (text_after_the_match_is_ignored nestedPayload " and [more]" 0
           ltac:(discriminate)).
Defined.

(** With or without its quotes, the payload [{"a":"]"}] is cut at the
    bracket inside the JSON string (index 7 of 0..10). *)
Lemma only_brackets_count_witness :
  findMatchingBracket (mapBytes unquote quotedBracketPayload) 0
  = findMatchingBracket quotedBracketPayload 0
  /\ findMatchingBracket quotedBracketPayload 0 = 7
  /\ len quotedBracketPayload = 11.
Proof.
  split; [|split; reflexivity].
  apply (only_brackets_count unquote quotedBracketPayload 0);
    intros c; unfold unquote;
    destruct (Ascii.eqb_spec c "034") as [-> | _]; reflexivity.
Defined.

(* ===================================================================== *)
(** * Further properties of the extraction *)
(* ===================================================================== *)

Section ExtractionEdges.

Context {F : Type} `{Float64Ops F}.
Variable json_Unmarshal : string -> string + list (Decision F).

(** X20: the three failures of [extractDecisions].  "No array start" is
    answered exactly when the response holds no ['[']; "no array end"
    exactly when, counted from the first ['['], the depth never comes
    back to zero; and a decoding failure carries the error of the decoder
    together with the text handed to it, which holds no typographic
    quote. *)
Theorem extraction_failures (response : string) :
  (extractDecisions json_Unmarshal response = inl ErrNoArrayStart
   <-> forall k, byteIs response k lbracket = false)
  /\ (extractDecisions json_Unmarshal response = inl ErrNoArrayEnd
      <-> exists i,
            byteIs response i lbracket = true
            /\ (forall j, (j < i)%nat -> byteIs response j lbracket = false)
            /\ forall k, (i + k < String.length response)%nat ->
                 0 < depthAfter response i k)
  /\ (forall detail jsonContent,
        extractDecisions json_Unmarshal response = inl (ErrJSON detail jsonContent) ->
        json_Unmarshal jsonContent = inl detail
        /\ Index jsonContent u201c = -1 /\ Index jsonContent u201d = -1
        /\ Index jsonContent u2018 = -1 /\ Index jsonContent u2019 = -1).
Proof.
  unfold extractDecisions. cbv zeta.
  destruct (Index_bracket_spec response)
    as [[Hnone Hall] | (i & Hidx & Hat & Hbefore)].
  - rewrite Hnone. cbn [Z.eqb]. split; [tauto|]. split; [|discriminate].
    split; [discriminate|]. intros (i & Hi & _). rewrite Hall in Hi. discriminate.
  - rewrite Hidx, Nat2Z.id.
    replace (Z.of_nat i =? -1) with false by (symmetry; apply Z.eqb_neq; lia).
    assert (Hfirst : forall i', byteIs response i' lbracket = true ->
              (forall j, (j < i')%nat -> byteIs response j lbracket = false) ->
              i' = i).
    { intros i' Hi' Hb'.
      destruct (Nat.lt_trichotomy i' i) as [Hlt | [Heq | Hgt]]; [|exact Heq|].
      - rewrite (Hbefore _ Hlt) in Hi'. discriminate.
      - rewrite (Hb' _ Hgt) in Hat. discriminate. }
    destruct (findMatchingBracket_spec response i Hat)
      as [[Hend Hdeep] | (k & Hres & Hk & Hlt & Hclose & Hzero & _)].
    + rewrite Hend. cbn [Z.eqb]. split.
      * split; [discriminate|]. intros Hno. rewrite Hno in Hat. discriminate.
      * split; [|discriminate]. split; [|reflexivity].
        intros _. exists i. split; [exact Hat|]. split; assumption.
    + rewrite Hres.
      replace (Z.of_nat (i + k) =? -1) with false
        by (symmetry; apply Z.eqb_neq; lia).
      split; [|split].
      * split.
        -- destruct (json_Unmarshal _); discriminate.
        -- intros Hno. rewrite Hno in Hat. discriminate.
      * split.
        -- destruct (json_Unmarshal _); discriminate.
        -- intros (i' & Hi' & Hb' & Hdeep).
           pose proof (Hfirst i' Hi' Hb') as ->.
           specialize (Hdeep k Hlt). lia.
      * intros detail jsonContent.
        destruct (json_Unmarshal _) as [e|ds] eqn:Hdec; [|discriminate].
        intros [= <- <-]. split; [exact Hdec|].
        apply normalised_text_has_no_typographic_quote_aux.
Qed.

End ExtractionEdges.

Section TrimFacts.

Lemma append_assoc (s t u : string) : (s ++ t) ++ u = s ++ (t ++ u).
Proof.
  induction s as [|c s IH]; [reflexivity|].
  change (String c ((s ++ t) ++ u) = String c (s ++ (t ++ u))).
  f_equal. exact IH.
Qed.

Lemma revOnto_append (s acc : string) : revOnto s acc = rev s ++ acc.
Proof.
  unfold rev. revert acc. induction s as [|c s IH]; intros acc; [reflexivity|].
  simpl. rewrite IH, (IH (String c EmptyString)).
  rewrite append_assoc. reflexivity.
Qed.

Lemma rev_append_byte (s : string) (c : ascii) :
  rev (s ++ String c EmptyString) = String c (rev s).
Proof.
  unfold rev.
  assert (Hgen : forall acc,
            revOnto (s ++ String c EmptyString) acc = String c (revOnto s acc)).
  { induction s as [|a s IH]; intros acc; [reflexivity|]. simpl. apply IH. }
  apply Hgen.
Qed.

Lemma rev_cons (s : string) (c : ascii) :
  rev (String c s) = rev s ++ String c EmptyString.
Proof. unfold rev at 1. simpl. apply revOnto_append. Qed.

Lemma rev_involutive (s : string) : rev (rev s) = s.
Proof.
  induction s as [|c s IH]; [reflexivity|].
  rewrite rev_cons, rev_append_byte, IH. reflexivity.
Qed.

(** The last byte of the encoding of a white space rune of two or three
    bytes is not an ASCII byte. *)
Lemma isSpace2_last (a b : ascii) : isSpace2 a b = true -> (128 <= code b)%N.
Proof.
  unfold isSpace2. rewrite andb_true_iff, orb_true_iff, !N.eqb_eq. lia.
Qed.

Lemma isSpace3_last (a b c : ascii) : isSpace3 a b c = true -> (128 <= code c)%N.
Proof.
  unfold isSpace3.
  rewrite !orb_true_iff, !andb_true_iff, !orb_true_iff, !andb_true_iff,
    !N.eqb_eq, !N.leb_le. lia.
Qed.

Lemma isSpace2_first (a b : ascii) : isSpace2 a b = true -> (128 <= code a)%N.
Proof.
  unfold isSpace2. rewrite andb_true_iff, N.eqb_eq. lia.
Qed.

Lemma isSpace3_first (a b c : ascii) : isSpace3 a b c = true -> (128 <= code a)%N.
Proof.
  unfold isSpace3.
  rewrite !orb_true_iff, !andb_true_iff, !orb_true_iff, !andb_true_iff,
    !N.eqb_eq, !N.leb_le. lia.
Qed.

(** A string whose first byte is an ASCII byte other than white space
    has nothing to trim in front, and likewise behind. *)
Lemma trimLeftSpace_ascii_head (c : ascii) (t : string) :
  isAsciiSpace c = false -> (code c < 128)%N ->
  trimLeftSpace (String c t) = String c t.
Proof.
  intros Hsp Hc. cbn [trimLeftSpace]. rewrite Hsp.
  destruct t as [|c1 t1]; [reflexivity|].
  destruct (isSpace2 c c1) eqn:E2; [apply isSpace2_first in E2; lia|].
  destruct t1 as [|c2 t2]; [reflexivity|].
  destruct (isSpace3 c c1 c2) eqn:E3; [apply isSpace3_first in E3; lia|].
  reflexivity.
Qed.

Lemma trimLeftSpaceRev_ascii_head (c : ascii) (t : string) :
  isAsciiSpace c = false -> (code c < 128)%N ->
  trimLeftSpaceRev (String c t) = String c t.
Proof.
  intros Hsp Hc. cbn [trimLeftSpaceRev]. rewrite Hsp.
  destruct t as [|c1 t1]; [reflexivity|].
  destruct (isSpace2 c1 c) eqn:E2; [apply isSpace2_last in E2; lia|].
  destruct t1 as [|c2 t2]; [reflexivity|].
  destruct (isSpace3 c2 c1 c) eqn:E3; [apply isSpace3_last in E3; lia|].
  reflexivity.
Qed.

Lemma TrimSpace_between_brackets (mid : string) :
  TrimSpace (String lbracket (mid ++ String rbracket EmptyString))
  = String lbracket (mid ++ String rbracket EmptyString).
Proof.
  unfold TrimSpace, trimRightSpace.
  rewrite trimLeftSpace_ascii_head by (reflexivity || (vm_compute; reflexivity)).
  change (String lbracket (mid ++ String rbracket EmptyString))
    with ((String lbracket mid) ++ String rbracket EmptyString).
  rewrite rev_append_byte.
  rewrite trimLeftSpaceRev_ascii_head by (reflexivity || (vm_compute; reflexivity)).
  rewrite <- rev_append_byte. apply rev_involutive.
Qed.

Lemma substring_dropBytes (s : string) (i n : nat) :
  substring i n s = substring 0 n (dropBytes i s).
Proof.
  revert s. induction i as [|i IH]; intros s; [reflexivity|].
  destruct s as [|c s]; [destruct n; reflexivity|]. simpl. apply IH.
Qed.

Lemma substring_snoc (t : string) (k : nat) (c : ascii) :
  String.get k t = Some c ->
  substring 0 (S k) t = substring 0 k t ++ String c EmptyString.
Proof.
  revert t. induction k as [|k IH]; intros t Hget.
  - destruct t as [|a t]; [discriminate|]. simpl in Hget. injection Hget as ->.
    destruct t; reflexivity.
  - destruct t as [|a t]; [discriminate|]. simpl in Hget.
    change (substring 0 (S (S k)) (String a t))
      with (String a (substring 0 (S k) t)).
    rewrite (IH t Hget). reflexivity.
Qed.

End TrimFacts.

Section PayloadEdges.

Context {F : Type} `{Float64Ops F}.
Variable json_Unmarshal : string -> string + list (Decision F).

(** X21: when both brackets are found, the slice handed on runs from the
    first ['['] to its matching [']'], both included, so the
    [strings.TrimSpace] applied to it removes nothing: the decoder
    receives [fixMissingQuotes] of exactly that slice, and what it
    answers is what [extractDecisions] answers. *)
Theorem payload_is_the_bracketed_slice (response : string) :
  let arrayStart := Index response "[" in
  let arrayEnd := findMatchingBracket response (Z.to_nat arrayStart) in
  let payload := slice response arrayStart (arrayEnd + 1) in
  arrayStart <> -1 -> arrayEnd <> -1 ->
  (exists mid, payload = String lbracket (mid ++ String rbracket EmptyString))
  /\ TrimSpace payload = payload
  /\ extractDecisions json_Unmarshal response
     = match json_Unmarshal (fixMissingQuotes payload) with
       | inl detail => inl (ErrJSON detail (fixMissingQuotes payload))
       | inr decisions => inr decisions
       end.
Proof.
  intros arrayStart arrayEnd payload Hstart Hend.
  assert (Hmid : exists mid,
            payload = String lbracket (mid ++ String rbracket EmptyString)).
  { subst payload arrayEnd arrayStart.
    destruct (Index_bracket_spec response)
      as [[Hnone _] | (i & Hidx & Hat & _)]; [contradiction|].
    rewrite Hidx, Nat2Z.id in *.
    destruct (findMatchingBracket_spec response i Hat)
      as [[Hno _] | (k & Hres & Hk & Hlt & Hclose & _)]; [contradiction|].
    rewrite Hres. unfold slice. rewrite Nat2Z.id.
    replace (Z.to_nat (Z.of_nat (i + k) + 1 - Z.of_nat i)) with (S k) by lia.
    rewrite substring_dropBytes.
    destruct (findMatchingBracket_on_bracket response i Hat)
      as (rest & Hdrop & _ & _).
    unfold byteIs in Hclose. rewrite get_dropBytes, Hdrop in Hclose.
    destruct (String.get k (String lbracket rest)) as [c|] eqn:Hget;
      [|discriminate].
    apply Ascii.eqb_eq in Hclose. subst c.
    rewrite Hdrop, (substring_snoc _ _ _ Hget).
    destruct k as [|k]; [lia|].
    exists (substring 0 k rest). reflexivity. }
  split; [exact Hmid|].
  assert (Htrim : TrimSpace payload = payload).
  { destruct Hmid as (mid & ->). apply TrimSpace_between_brackets. }
  split; [exact Htrim|].
  unfold extractDecisions. cbv zeta. fold arrayStart. fold arrayEnd.
  replace (arrayStart =? -1) with false by (symmetry; apply Z.eqb_neq; exact Hstart).
  replace (arrayEnd =? -1) with false by (symmetry; apply Z.eqb_neq; exact Hend).
  fold payload. rewrite Htrim. reflexivity.
Qed.

End PayloadEdges.

Lemma payload_is_the_bracketed_slice_witness :
  Index "going long [x]" "[" <> -1
  /\ findMatchingBracket "going long [x]" (Z.to_nat (Index "going long [x]" "[")) <> -1
  /\ TrimSpace (slice "going long [x]" 11 (13 + 1)) = "[x]".
Proof.
  split; [discriminate|]. split; [discriminate|].
  exact (proj1 (proj2 (payload_is_the_bracketed_slice decodeScenario
                         "going long [x]" ltac:(discriminate) ltac:(discriminate)))).
Defined.

Section RationaleEdges.

Lemma containsByte_false_iff (c : ascii) (s : string) :
  containsByte c s = false <-> forall k, byteIs s k c = false.
Proof.
  induction s as [|a s IH]; simpl.
  - split; [|reflexivity]. intros _ k. destruct k; reflexivity.
  - rewrite orb_false_iff, IH. split.
    + intros [Ha Hs] [|k]; [exact Ha | apply Hs].
    + intros Hall. split; [apply (Hall 0%nat) | intros k; apply (Hall (S k))].
Qed.

Lemma containsByte_dropBytes (c : ascii) (s : string) (k : nat) :
  containsByte c s = false -> containsByte c (dropBytes k s) = false.
Proof.
  revert s. induction k as [|k IH]; intros s Hs; [exact Hs|].
  destruct s as [|a s]; [reflexivity|].
  simpl in Hs. apply orb_false_iff in Hs as [_ Hs]. apply IH. exact Hs.
Qed.

Lemma containsByte_append (c : ascii) (s t : string) :
  containsByte c (s ++ t) = containsByte c s || containsByte c t.
Proof.
  induction s as [|a s IH]; [reflexivity|]. simpl. rewrite IH.
  apply orb_assoc.
Qed.

Lemma containsByte_rev (c : ascii) (s : string) :
  containsByte c (rev s) = containsByte c s.
Proof.
  induction s as [|a s IH]; [reflexivity|].
  rewrite rev_cons, containsByte_append, IH. simpl.
  rewrite orb_false_r. apply orb_comm.
Qed.

(** Trimming returns a part of the string. *)
Lemma trimLeftSpace_suffix (s : string) : exists k, trimLeftSpace s = dropBytes k s.
Proof.
  induction s as [s IH] using string_length_ind.
  destruct s as [|c0 [|c1 [|c2 r2]]].
  - exists 0%nat. reflexivity.
  - cbn [trimLeftSpace]. destruct (isAsciiSpace c0);
      [exists 1%nat | exists 0%nat]; reflexivity.
  - cbn [trimLeftSpace]. destruct (isAsciiSpace c0).
    + destruct (IH (String c1 EmptyString) ltac:(simpl; lia)) as (k & Hk).
      exists (S k). exact Hk.
    + destruct (isSpace2 c0 c1); [exists 2%nat | exists 0%nat]; reflexivity.
  - cbn [trimLeftSpace]. destruct (isAsciiSpace c0).
    + destruct (IH (String c1 (String c2 r2)) ltac:(simpl; lia)) as (k & Hk).
      exists (S k). exact Hk.
    + destruct (isSpace2 c0 c1).
      * destruct (IH (String c2 r2) ltac:(simpl; lia)) as (k & Hk).
        exists (S (S k)). exact Hk.
      * destruct (isSpace3 c0 c1 c2).
        -- destruct (IH r2 ltac:(simpl; lia)) as (k & Hk).
           exists (S (S (S k))). exact Hk.
        -- exists 0%nat. reflexivity.
Qed.

Lemma trimLeftSpaceRev_suffix (s : string) :
  exists k, trimLeftSpaceRev s = dropBytes k s.
Proof.
  induction s as [s IH] using string_length_ind.
  destruct s as [|c0 [|c1 [|c2 r2]]].
  - exists 0%nat. reflexivity.
  - cbn [trimLeftSpaceRev]. destruct (isAsciiSpace c0);
      [exists 1%nat | exists 0%nat]; reflexivity.
  - cbn [trimLeftSpaceRev]. destruct (isAsciiSpace c0).
    + destruct (IH (String c1 EmptyString) ltac:(simpl; lia)) as (k & Hk).
      exists (S k). exact Hk.
    + destruct (isSpace2 c1 c0); [exists 2%nat | exists 0%nat]; reflexivity.
  - cbn [trimLeftSpaceRev]. destruct (isAsciiSpace c0).
    + destruct (IH (String c1 (String c2 r2)) ltac:(simpl; lia)) as (k & Hk).
      exists (S k). exact Hk.
    + destruct (isSpace2 c1 c0).
      * destruct (IH (String c2 r2) ltac:(simpl; lia)) as (k & Hk).
        exists (S (S k)). exact Hk.
      * destruct (isSpace3 c2 c1 c0).
        -- destruct (IH r2 ltac:(simpl; lia)) as (k & Hk).
           exists (S (S (S k))). exact Hk.
        -- exists 0%nat. reflexivity.
Qed.

Lemma containsByte_TrimSpace (c : ascii) (s : string) :
  containsByte c s = false -> containsByte c (TrimSpace s) = false.
Proof.
  intros Hs. unfold TrimSpace, trimRightSpace.
  destruct (trimLeftSpace_suffix s) as (k & ->).
  destruct (trimLeftSpaceRev_suffix (rev (dropBytes k s))) as (k' & ->).
  rewrite containsByte_rev. apply containsByte_dropBytes.
  rewrite containsByte_rev. apply containsByte_dropBytes. exact Hs.
Qed.

Lemma containsByte_substring (c : ascii) (s : string) (n : nat) :
  (forall j, (j < n)%nat -> byteIs s j c = false) ->
  containsByte c (substring 0 n s) = false.
Proof.
  revert s. induction n as [|n IH]; intros s Hall.
  - destruct s; reflexivity.
  - destruct s as [|a s]; [reflexivity|].
    change (substring 0 (S n) (String a s)) with (String a (substring 0 n s)).
    simpl. apply orb_false_iff. split.
    + apply (Hall 0%nat). lia.
    + apply IH. intros j Hj. apply (Hall (S j)). lia.
Qed.

Lemma Index_bracket_none (s : string) :
  containsByte lbracket s = false -> Index s "[" = -1.
Proof.
  intros Hs. rewrite containsByte_false_iff in Hs.
  destruct (Index_bracket_spec s) as [[Hnone _] | (k & _ & Hat & _)];
    [exact Hnone|]. rewrite Hs in Hat. discriminate.
Qed.

(** X22: unless the response starts with the array, the chain-of-thought
    text that [extractCoTTrace] returns holds no ['[']: nothing of the
    payload gets into it. *)
Theorem rationale_holds_no_bracket (response : string) :
  Index response "[" <> 0 ->
  Index (extractCoTTrace response) "[" = -1.
Proof.
  intros Hidx. apply Index_bracket_none. unfold extractCoTTrace. cbv zeta.
  destruct (Index_bracket_spec response)
    as [[Hnone Hall] | (k & Hk & _ & Hbefore)].
  - rewrite Hnone. cbn [Z.ltb Z.compare].
    apply containsByte_TrimSpace, containsByte_false_iff. exact Hall.
  - rewrite Hk in *.
    replace (0 <? Z.of_nat k) with true by (symmetry; apply Z.ltb_lt; lia).
    apply containsByte_TrimSpace. unfold slice.
    rewrite Z.sub_0_r, Nat2Z.id. cbn [Z.to_nat].
    apply containsByte_substring. exact Hbefore.
Qed.

End RationaleEdges.

Lemma rationale_holds_no_bracket_witness :
  Index "going long [x]" "[" <> 0
  /\ extractCoTTrace "going long [x]" = "going long"
  /\ Index (extractCoTTrace "going long [x]") "[" = -1.
Proof.
  split; [discriminate|]. split; [reflexivity|].
  exact (rationale_holds_no_bracket "going long [x]" ltac:(discriminate)).
Defined.

(* ===================================================================== *)
(** * The entry point *)
(* ===================================================================== *)

Section EngineFacts.

Context {F : Type} `{Float64Ops F}.

Variable market_Get : string -> option (Market.Data F).
Variable pool_GetOITopPositions : option (list (Pool.OIPosition F)).
Variable json_Unmarshal : string -> string + list (Decision F).
Variable buildSystemPrompt : F -> Z -> Z -> string.
Variable buildUserPrompt : Context F -> string.
Variable CallWithMessages : string -> string -> string + string.
Variable now : Z.

(** X23: [GetFullDecision] hands to the model the user prompt built from
    the context after the fetch.  A decision is returned only when the
    call and the parsing both succeed: it then carries that user prompt,
    the time stamp, the chain of thought of the response and decisions
    that all pass the validator.  When the parsing fails, nothing of what
    the parser had decoded is returned: the chain of thought survives in
    the error only. *)
Theorem decision_returned_only_when_all_valid
    (ctx : Context F) (accountEquity : F) (btcEthLeverage altcoinLeverage : Z) :
  let fetched := fetchMarketDataForContext market_Get pool_GetOITopPositions ctx in
  let userPrompt := buildUserPrompt fetched in
  let answer :=
    CallWithMessages
      (buildSystemPrompt accountEquity btcEthLeverage altcoinLeverage) userPrompt in
  let result :=
    GetFullDecision market_Get pool_GetOITopPositions json_Unmarshal
      buildSystemPrompt buildUserPrompt CallWithMessages now
      ctx accountEquity btcEthLeverage altcoinLeverage in
  fst result = fetched
  /\ (forall detail, answer = inl detail -> snd result = inl (ErrCallAI detail))
  /\ (forall fd, snd result = inr fd ->
        exists aiResponse,
          answer = inr aiResponse
          /\ UserPrompt fd = userPrompt
          /\ Timestamp fd = Some now
          /\ CoTTrace fd = extractCoTTrace aiResponse
          /\ extractDecisions json_Unmarshal aiResponse = inr (Decisions fd)
          /\ Forall (fun d => validateDecision d accountEquity btcEthLeverage
                                altcoinLeverage = None) (Decisions fd))
  /\ (forall err, snd result = inl (ErrParse err) ->
        exists aiResponse,
          answer = inr aiResponse
          /\ errorCoT err = extractCoTTrace aiResponse).
Proof.
  cbv zeta. unfold GetFullDecision.
  destruct (CallWithMessages _ _) as [detail | aiResponse] eqn:Hcall.
  - cbn [fst snd]. split; [reflexivity|]. split; [intros ? [= <-]; reflexivity|].
    split; [discriminate|]. discriminate.
  - pose proof (parse_failure_cases json_Unmarshal aiResponse accountEquity
                  btcEthLeverage altcoinLeverage) as Hc.
    cbv zeta in Hc.
    destruct (extractDecisions json_Unmarshal aiResponse) as [e | ds] eqn:Hex.
    + rewrite Hc. cbn [fst snd]. split; [reflexivity|].
      split; [discriminate|]. split; [discriminate|].
      intros err [= <-]. exists aiResponse. split; reflexivity.
    + destruct (validateDecisions ds accountEquity btcEthLeverage altcoinLeverage)
        as [be|] eqn:Hv; rewrite Hc; cbn [fst snd].
      * split; [reflexivity|]. split; [discriminate|]. split; [discriminate|].
        intros err [= <-]. exists aiResponse. split; reflexivity.
      * split; [reflexivity|]. split; [discriminate|]. split; [|discriminate].
        intros fd [= <-]. exists aiResponse.
        cbn [UserPrompt Timestamp CoTTrace Decisions].
        apply validateDecisionsFrom_none in Hv.
        split; [reflexivity|]. split; [reflexivity|]. split; [reflexivity|].
        split; [reflexivity|]. split; [exact Hex | exact Hv].
Qed.

End EngineFacts.

Example entry_point_runs :
  snd (GetFullDecision marketQ None decodeScenario systemLabel userLabel
         (answering "going long [x]") 1700000000 contextQ 5000%Q 5 5)
  = inr (mkFullDecision "user" "going long"
           [scenarioQ; record EmptyString "wait" 0 0%Q 0%Q []] (Some 1700000000))
  /\ snd (GetFullDecision marketQ None decodeScenario systemLabel userLabel
            unreachable 1700000000 contextQ 5000%Q 5 5)
     = inl (ErrCallAI "timeout")
  /\ snd (GetFullDecision marketQ None decodeScenario systemLabel userLabel
            (answering "no payload here") 1700000000 contextQ 5000%Q 5 5)
     = inl (ErrParse (ErrExtract ErrNoArrayStart "no payload here")).
Proof. repeat split. Qed.

(* ===================================================================== *)
(** * What the parser returns beside an error *)
(* ===================================================================== *)

Section FailedParse.

Context {F : Type} `{Float64Ops F}.
Variable json_Unmarshal : string -> string + list (Decision F).

(** X24: the decision that [parseFullDecisionResponse] returns together
    with an error is not empty in every case.  After a failed extraction
    it holds no decision; after a failed validation it holds every
    decoded record, the rejected one among them, so that a caller who
    reads it in spite of the error reads decisions that did not pass. *)
Theorem failed_validation_returns_decoded_records
    (aiResponse : string) (accountEquity : F)
    (btcEthLeverage altcoinLeverage : Z)
    (fd : FullDecision F) (err : ParseError F) :
  parseFullDecisionResponse json_Unmarshal aiResponse accountEquity
    btcEthLeverage altcoinLeverage = (fd, Some err) ->
  match err with
  | ErrExtract e _ =>
      extractDecisions json_Unmarshal aiResponse = inl e /\ Decisions fd = []
  | ErrValidate be _ =>
      extractDecisions json_Unmarshal aiResponse = inr (Decisions fd)
      /\ exists d, In d (Decisions fd)
           /\ validateDecision d accountEquity btcEthLeverage altcoinLeverage
              = Some (cause be)
  end.
Proof.
  intros Hparse.
  pose proof (parse_failure_cases json_Unmarshal aiResponse accountEquity
                btcEthLeverage altcoinLeverage) as Hc.
  cbv zeta in Hc.
  destruct (extractDecisions json_Unmarshal aiResponse) as [e | ds].
  - rewrite Hparse in Hc. injection Hc as -> ->. split; reflexivity.
  - destruct (validateDecisions ds accountEquity btcEthLeverage altcoinLeverage)
      as [be|] eqn:Hv; rewrite Hparse in Hc; [|discriminate].
    injection Hc as -> ->. cbn [Decisions]. split; [reflexivity|].
    destruct (validateDecisionsFrom_error_inv ds be _ _ _ 0 Hv)
      as (pre & d & post & -> & _ & _ & Hd).
    exists d. split; [|exact Hd]. apply in_or_app. right. left. reflexivity.
Qed.

End FailedParse.

Lemma failed_validation_returns_decoded_records_witness :
  parseFullDecisionResponse decodeWithBadOrder "long twice [x]" 5000%Q 5 5
  = (mkFullDecision EmptyString "long twice" [scenarioQ; scenarioBadOrderQ] None,
     Some (ErrValidate
             (mkBatchError 2 (ErrLongTakeProfitOrder 3966%Q 3900%Q 4197%Q))
             "long twice"))
  /\ extractDecisions decodeWithBadOrder "long twice [x]"
     = inr [scenarioQ; scenarioBadOrderQ].
Proof.
  split; [reflexivity|].
  exact (proj1 (failed_validation_returns_decoded_records decodeWithBadOrder
                  "long twice [x]" 5000%Q 5 5
                  (mkFullDecision EmptyString "long twice"
                     [scenarioQ; scenarioBadOrderQ] None)
                  (ErrValidate
                     (mkBatchError 2 (ErrLongTakeProfitOrder 3966%Q 3900%Q 4197%Q))
                     "long twice")
                  eq_refl)).
Defined.
